(** * ADT client engine: safety gate, wire codecs, workflows, deployment

    A shallow embedding of the parts of the ADT client engine that its
    specification makes checkable statements about, followed by the
    statements.

    The model:
    - [GoStrings] : the functions of Go's [strings] package the engine calls;
    - [Base64]    : the WebSocket client's own base64 encoder (basicAuth);
    - [Safety]    : the safety gate (IsOperationAllowed, IsPackageAllowed);
    - [Codec]     : parseSyntaxCheckResults and parseActivationResult;
    - [Client]    : the client methods as calls to a remote system, each
                    call recorded with what it returned;
    - [Workflow]  : WriteProgram, WriteClass, CreateAndActivateProgram,
                    CreateClassWithTests;
    - [Deps]      : DeploymentOrder, the abapGit file names, the plan;
    - [Handlers]  : handleDeployZip with its three phases;
    - [Discipline], [Plans], [Archive], [Phases], [DryRun], [Alphabet] :
                    what the statements about the workflows, the plan, the
                    archive reader, the phases, the dry run and the encoder
                    are written with;
    - [Gate]      : CheckOperation, CheckPackage, the transport checks and
                    the description of a configuration;
    - [Transports]: DeleteTransport and ReleaseTransportV2 with the requests
                    they send;
    - [Crud]      : CreateObject with its request, escapeXML, GetObjectURL.

    Go strings are byte strings ([string], one [ascii] per byte); [[]byte] is
    [list byte]; unsigned machine integers are [Z] with the wrap-around
    written out.  What belongs to the Go runtime and not to the engine (the
    XML decoder, the Unicode case tables, the ZIP reader, [url.PathEscape],
    the order in which a range visits the keys of a map) is a parameter of
    the definitions that use it. *)

From Stdlib Require Import ZArith List Bool Lia Arith.
From Stdlib Require Import Strings.String Strings.Ascii Strings.Byte.
From Stdlib Require Import Sorting.Permutation Sorting.Sorted Structures.OrderedTypeEx.
Import ListNotations.

(* ================================================================== *)
(** ** Go standard-library string functions used by the engine          *)
(* ================================================================== *)

Module GoStrings.

(** [strings.ContainsRune(s, r)] for a rune below [utf8.RuneSelf]: a byte
    search. *)
Fixpoint ContainsRune (s : string) (r : ascii) : bool :=
  match s with
  | EmptyString => false
  | String c rest => Ascii.eqb c r || ContainsRune rest r
  end.

(** [strings.ContainsAny(s, chars)] for an ASCII [chars]: some byte of [s] is
    one of [chars]. *)
Fixpoint ContainsAny (s chars : string) : bool :=
  match s with
  | EmptyString => false
  | String c rest => ContainsRune chars c || ContainsAny rest chars
  end.

(** [strings.HasPrefix]: [len(s) >= len(prefix) && s[:len(prefix)] == prefix] *)
Definition HasPrefix (s prefix : string) : bool :=
  (String.length prefix <=? String.length s)%nat &&
  String.eqb (substring 0 (String.length prefix) s) prefix.

(** [strings.HasSuffix]: [len(s) >= len(suffix) && s[len(s)-len(suffix):] == suffix] *)
Definition HasSuffix (s suffix : string) : bool :=
  (String.length suffix <=? String.length s)%nat &&
  String.eqb (substring (String.length s - String.length suffix) (String.length suffix) s) suffix.

(** [strings.TrimSuffix] *)
Definition TrimSuffix (s suffix : string) : string :=
  if HasSuffix s suffix
  then substring 0 (String.length s - String.length suffix) s
  else s.

Definition isASCII (s : string) : bool :=
  forallb (fun c => (nat_of_ascii c <? 128)%nat) (list_ascii_of_string s).

Definition is_lower (c : ascii) : bool :=
  ((97 <=? nat_of_ascii c) && (nat_of_ascii c <=? 122))%nat.
Definition is_upper (c : ascii) : bool :=
  ((65 <=? nat_of_ascii c) && (nat_of_ascii c <=? 90))%nat.

(** [c -= 'a' - 'A'] on a lower-case letter *)
Definition upperByte (c : ascii) : ascii :=
  if is_lower c then ascii_of_nat (nat_of_ascii c - 32) else c.
(** [c += 'a' - 'A'] on an upper-case letter *)
Definition lowerByte (c : ascii) : ascii :=
  if is_upper c then ascii_of_nat (nat_of_ascii c + 32) else c.

Fixpoint map_bytes (f : ascii -> ascii) (s : string) : string :=
  match s with
  | EmptyString => EmptyString
  | String c rest => String (f c) (map_bytes f rest)
  end.

(** [strings.ToUpper] / [strings.ToLower]: an ASCII-only string is mapped
    byte by byte; a string with a byte at or above [utf8.RuneSelf] goes
    through [strings.Map(unicode.ToUpper, s)], whose case tables belong to
    the Go runtime: that path is the parameter [unicode]. *)
Definition ToUpper (unicode : string -> string) (s : string) : string :=
  if isASCII s then map_bytes upperByte s else unicode s.
Definition ToLower (unicode : string -> string) (s : string) : string :=
  if isASCII s then map_bytes lowerByte s else unicode s.

(** [strings.Contains(s, substr)] *)
Fixpoint Contains (s substr : string) : bool :=
  HasPrefix s substr ||
  match s with
  | EmptyString => false
  | String _ rest => Contains rest substr
  end.

(** [strings.ReplaceAll(s, old, new)] for a non-empty [old]: matches are
    taken left to right and do not overlap; [skip] counts the bytes of the
    current match still to be dropped. *)
Fixpoint replace_from (old new : string) (skip : nat) (s : string) : string :=
  match s with
  | EmptyString => EmptyString
  | String c rest =>
      match skip with
      | S k => replace_from old new k rest
      | O =>
          if HasPrefix s old
          then (new ++ replace_from old new (String.length old - 1) rest)%string
          else String c (replace_from old new 0 rest)
      end
  end.
Definition ReplaceAll (s old new : string) : string := replace_from old new 0 s.

(** Go's [error] values, by their message. *)
Inductive result (A : Type) : Type :=
| Ok (a : A)
| Err (msg : string).
Arguments Ok {A} a.
Arguments Err {A} msg.

End GoStrings.

(* ================================================================== *)
(** ** Base64: amdp_websocket.go, basicAuth / base64Encode             *)
(* ================================================================== *)

Module Base64.

Local Open Scope Z_scope.

(** [const base64Chars] *)
Definition base64Chars : string :=
  "ABCDEFGHIJKLMNOPQRSTUVWXYZabcdefghijklmnopqrstuvwxyz0123456789+/".

(** Conversion [uint32(x)] of a non-negative value: reduction modulo 2^32. *)
Definition uint32 (z : Z) : Z := z mod 2 ^ 32.

(** [uint32(data[i])]: the numeric value of one input byte. *)
Definition u8 (b : byte) : Z := Z.of_N (Byte.to_N b).

(** [base64Chars[i]].  Go panics on an index outside the string; every index
    used by the encoder is masked with [0x3F], see [index_in_range]. *)
Definition charAt (i : Z) : ascii :=
  match String.get (Z.to_nat i) base64Chars with
  | Some c => c
  | None => Ascii.zero
  end.

(** The 24-bit accumulator [b] of the three branches of the loop body. *)
Definition word3 (a b c : byte) : Z :=
  uint32 (Z.lor (Z.lor (Z.shiftl (u8 a) 16) (Z.shiftl (u8 b) 8)) (u8 c)).
Definition word2 (a b : byte) : Z :=
  uint32 (Z.lor (Z.shiftl (u8 a) 16) (Z.shiftl (u8 b) 8)).
Definition word1 (a : byte) : Z :=
  uint32 (Z.shiftl (u8 a) 16).

(** [base64Chars[b>>k&0x3F]] *)
Definition pick (b k : Z) : ascii := charAt (Z.land (Z.shiftr b k) 63).

Definition pad : ascii := "="%char.

(** [base64Encode]: the loop [for i := 0; i < len(data); i += 3] consumes the
    input three bytes at a time; [remaining] is the length of what is left. *)
Fixpoint base64Encode (data : list byte) : string :=
  match data with
  | [] => EmptyString
  | [a] =>
      let b := word1 a in
      String (pick b 18) (String (pick b 12) (String pad (String pad EmptyString)))
  | [a; a1] =>
      let b := word2 a a1 in
      String (pick b 18) (String (pick b 12) (String (pick b 6) (String pad EmptyString)))
  | a :: a1 :: a2 :: rest =>
      let b := word3 a a1 a2 in
      String (pick b 18) (String (pick b 12) (String (pick b 6) (String (pick b 0)
        (base64Encode rest))))
  end.

(** [[]byte(auth)]: a Go string is its bytes. *)
Definition bytes_of_string (s : string) : list byte :=
  map byte_of_ascii (list_ascii_of_string s).

(** [basicAuth] *)
Definition basicAuth (user password : string) : string :=
  ("Basic " ++ base64Encode (bytes_of_string (user ++ ":" ++ password)))%string.

(** *** Reference encoder, written from RFC 4648 section 4

    The input is read as one stream of bits, most significant bit of each
    octet first.  The stream is cut into 6-bit groups; when fewer than six
    bits are left, zero bits are added on the right.  Each group, read as a
    number, indexes the alphabet.  The output is then filled with the pad
    character up to a multiple of four characters. *)

Definition bits_of_byte (b : byte) : list bool :=
  let n := u8 b in
  [Z.testbit n 7; Z.testbit n 6; Z.testbit n 5; Z.testbit n 4;
   Z.testbit n 3; Z.testbit n 2; Z.testbit n 1; Z.testbit n 0].

Definition bit_stream (data : list byte) : list bool :=
  flat_map bits_of_byte data.

(** Big-endian value of a group of bits. *)
Definition bits_value (bs : list bool) : Z :=
  fold_left (fun acc b => 2 * acc + Z.b2z b) bs 0.

Fixpoint groups6 (bits : list bool) : list (list bool) :=
  match bits with
  | [] => []
  | b0 :: b1 :: b2 :: b3 :: b4 :: b5 :: rest =>
      [b0; b1; b2; b3; b4; b5] :: groups6 rest
  | short => [firstn 6 (short ++ repeat false 5)%list]
  end.

Definition rfc_alphabet (v : Z) : ascii :=
  if v <? 26 then ascii_of_N (Z.to_N (65 + v))              (* A-Z *)
  else if v <? 52 then ascii_of_N (Z.to_N (97 + (v - 26)))  (* a-z *)
  else if v <? 62 then ascii_of_N (Z.to_N (48 + (v - 52)))  (* 0-9 *)
  else if v =? 62 then "+"%char
  else "/"%char.

Definition rfc_padding (n : nat) : nat := ((4 - n mod 4) mod 4)%nat.

(** The characters of the encoding before padding. *)
Definition rfc_chars (data : list byte) : list ascii :=
  map (fun g => rfc_alphabet (bits_value g)) (groups6 (bit_stream data)).

Definition rfc4648_encode (data : list byte) : string :=
  let cs := rfc_chars data in
  string_of_list_ascii (cs ++ repeat pad (rfc_padding (List.length cs)))%list.

End Base64.

(* ================================================================== *)
(** ** Safety gate: safety.go                                          *)
(* ================================================================== *)

Module Safety.
Import GoStrings.

(** [type SafetyConfig struct] *)
Record SafetyConfig : Type := {
  ReadOnly : bool;
  BlockFreeSQL : bool;
  AllowedOps : string;
  DisallowedOps : string;
  AllowedPackages : list string;
  DryRun : bool;
  EnableTransports : bool;
  TransportReadOnly : bool;
  AllowedTransports : list string
}.

(** [type OperationType rune] with its thirteen constants. *)
Inductive OperationType : Type :=
| OpRead | OpSearch | OpQuery | OpFreeSQL | OpCreate | OpUpdate | OpDelete
| OpActivate | OpTest | OpLock | OpIntelligence | OpWorkflow | OpTransport.

(** [rune(op)]: the constant's letter. *)
Definition opChar (op : OperationType) : ascii :=
  match op with
  | OpRead => "R" | OpSearch => "S" | OpQuery => "Q" | OpFreeSQL => "F"
  | OpCreate => "C" | OpUpdate => "U" | OpDelete => "D" | OpActivate => "A"
  | OpTest => "T" | OpLock => "L" | OpIntelligence => "I" | OpWorkflow => "W"
  | OpTransport => "X"
  end%char.

Definition op_eqb (a b : OperationType) : bool := Ascii.eqb (opChar a) (opChar b).

Definition nonempty (s : string) : bool := negb (String.eqb s EmptyString).

(** [func (s *SafetyConfig) IsOperationAllowed(op OperationType) bool] *)
Definition IsOperationAllowed (s : SafetyConfig) (op : OperationType) : bool :=
  let opChar := opChar op in
  if DryRun s then true
  else if ReadOnly s && ContainsRune "CDUAW" opChar then false
  else if BlockFreeSQL s && op_eqb op OpFreeSQL then false
  else if op_eqb op OpTransport && negb (EnableTransports s) then false
  else if nonempty (DisallowedOps s) && ContainsRune (DisallowedOps s) opChar then false
  else if nonempty (AllowedOps s) && negb (ContainsRune (AllowedOps s) opChar) then false
  else true.

(** [DefaultSafetyConfig], [UnrestrictedSafetyConfig], [DevelopmentSafetyConfig] *)
Definition zeroSafetyConfig : SafetyConfig :=
  {| ReadOnly := false; BlockFreeSQL := false; AllowedOps := ""; DisallowedOps := "";
     AllowedPackages := []; DryRun := false; EnableTransports := false;
     TransportReadOnly := false; AllowedTransports := [] |}.

Definition DefaultSafetyConfig : SafetyConfig :=
  {| ReadOnly := true; BlockFreeSQL := true; AllowedOps := "RSQTI"; DisallowedOps := "";
     AllowedPackages := []; DryRun := false; EnableTransports := false;
     TransportReadOnly := false; AllowedTransports := [] |}.

Definition UnrestrictedSafetyConfig : SafetyConfig := zeroSafetyConfig.

Definition DevelopmentSafetyConfig : SafetyConfig :=
  {| ReadOnly := false; BlockFreeSQL := true; AllowedOps := ""; DisallowedOps := "";
     AllowedPackages := ["$TMP"; "$TEST"]%string; DryRun := false; EnableTransports := false;
     TransportReadOnly := false; AllowedTransports := [] |}.

Section Packages.
(** The Unicode path of [strings.ToUpper]. *)
Variable unicode : string -> string.

(** One iteration of the loop over [s.AllowedPackages]; [pkg] is already
    upper-cased. *)
Definition pattern_matches (pkg allowed : string) : bool :=
  let allowed := ToUpper unicode allowed in
  String.eqb allowed pkg ||
  (HasSuffix allowed "*" && HasPrefix pkg (TrimSuffix allowed "*")).

(** [func (s *SafetyConfig) IsPackageAllowed(pkg string) bool] *)
Definition IsPackageAllowed (s : SafetyConfig) (pkg : string) : bool :=
  if (List.length (AllowedPackages s) =? 0)%nat then true
  else
    let pkg := ToUpper unicode pkg in
    existsb (pattern_matches pkg) (AllowedPackages s).

(** Two strings are case variants of each other when upper-casing
    identifies them. *)
Definition case_variant (a b : string) : Prop :=
  ToUpper unicode a = ToUpper unicode b.

End Packages.

(** *** Vocabulary of the specification *)

(** The write class of read-only mode. *)
Definition write_class (op : OperationType) : Prop :=
  In op [OpCreate; OpUpdate; OpDelete; OpActivate; OpWorkflow].

(** An operation is listed in an allow-list or deny-list when its letter
    occurs in the string. *)
Definition listed (op : OperationType) (ops : string) : Prop :=
  In (opChar op) (list_ascii_of_string ops).

(** Letter-case variation on ASCII text, byte by byte. *)
Inductive ascii_case_variant : string -> string -> Prop :=
| acv_nil : ascii_case_variant EmptyString EmptyString
| acv_cons c d s t :
    (nat_of_ascii c < 128)%nat -> (nat_of_ascii d < 128)%nat ->
    upperByte c = upperByte d ->
    ascii_case_variant s t ->
    ascii_case_variant (String c s) (String d t).

End Safety.

(* ================================================================== *)
(** ** Wire codecs: crud.go, parseSyntaxCheckResults / parseActivationResult *)
(* ================================================================== *)

Module Codec.
Import GoStrings.

(** [type SyntaxCheckResult struct] *)
Record SyntaxCheckResult : Type := {
  URI : string;
  Line : Z;
  Offset : Z;
  Severity : string;
  Text : string
}.

(** The local XML types of [parseSyntaxCheckResults]. *)
Record checkMessage : Type := {
  cm_URI : string;
  cm_Type : string;
  cm_ShortText : string
}.
Record checkMessageList : Type := { Messages : list checkMessage }.
Record checkReport : Type := { MessageList : checkMessageList }.
Record checkRunReports : Type := { Reports : list checkReport }.

(** [type ActivationResultMessage struct], [type InactiveObject struct],
    [type ActivationResult struct] *)
Record ActivationResultMessage : Type := {
  ObjDescr : string;
  Type_ : string;
  arm_Line : Z;
  Href : string;
  ForceSupported : bool;
  ShortText : string
}.
Record InactiveObject : Type := {
  io_URI : string;
  io_Type : string;
  io_Name : string;
  io_ParentURI : string
}.
Record ActivationResult : Type := {
  Success : bool;
  ar_Messages : list ActivationResultMessage;
  Inactive : list InactiveObject
}.

(** The local XML types of [parseActivationResult]: [msg], [inactiveRef],
    [inactiveEntry] (whose [Object] is a pointer and may be nil) and
    [response]. *)
Record msg : Type := {
  m_ObjDescr : string;
  m_Type : string;
  m_Line : Z;
  m_Href : string;
  m_ForceSupported : bool;
  m_ShortText : string
}.
Record inactiveRef : Type := {
  ref_URI : string;
  ref_Type : string;
  ref_Name : string;
  ref_ParentURI : string
}.
Record inactiveEntry : Type := { Object : option inactiveRef }.
Record response : Type := {
  resp_Messages : list msg;
  resp_Inactive : list inactiveEntry
}.

Section Parsers.

(** [xml.Unmarshal] into a [checkRunReports] and into a [response]: the XML
    decoder is Go's, its outcome on a given text is a parameter.  [Err] is a
    non-nil error. *)
Variable unmarshal_reports : string -> result checkRunReports.
Variable unmarshal_response : string -> result response.

(** [lineOffsetRegex.FindStringSubmatch(uri)] followed by [strconv.Atoi] on
    groups 2 and 3: [Some (matches[1], line, offset)], or [None] when the
    pattern [([^#]+)#start=(\d+),(\d+)] does not occur. *)
Variable start_fragment : string -> option (string * Z * Z).

(** The body of the inner loop of [parseSyntaxCheckResults]. *)
Definition syntax_result_of (m : checkMessage) : SyntaxCheckResult :=
  match start_fragment (cm_URI m) with
  | Some (uri, line, offset) =>
      {| URI := uri; Line := line; Offset := offset;
         Severity := cm_Type m; Text := cm_ShortText m |}
  | None =>
      {| URI := cm_URI m; Line := 0; Offset := 0;
         Severity := cm_Type m; Text := cm_ShortText m |}
  end.

(** [func parseSyntaxCheckResults(data []byte) ([]SyntaxCheckResult, error)] *)
Definition parseSyntaxCheckResults (data : string) : result (list SyntaxCheckResult) :=
  let xmlStr := ReplaceAll data "chkrun:" "" in
  match unmarshal_reports xmlStr with
  | Err err => Err ("parsing syntax check response: " ++ err)
  | Ok resp =>
      Ok (flat_map
            (fun report => map syntax_result_of (Messages (MessageList report)))
            (Reports resp))
  end.

(** The [ActivationResultMessage] literal built from a decoded [msg]. *)
Definition message_of (m : msg) : ActivationResultMessage :=
  {| ObjDescr := m_ObjDescr m; Type_ := m_Type m; arm_Line := m_Line m;
     Href := m_Href m; ForceSupported := m_ForceSupported m;
     ShortText := m_ShortText m |}.

(** First loop of [parseActivationResult]: append the message, clear
    [Success] when its type contains one of the bytes E, A, X. *)
Definition add_message (result : ActivationResult) (m : msg) : ActivationResult :=
  {| Success := if ContainsAny (m_Type m) "EAX" then false else Success result;
     ar_Messages := ar_Messages result ++ [message_of m];
     Inactive := Inactive result |}.

(** Second loop: an entry with an object clears [Success] and is appended. *)
Definition add_inactive (result : ActivationResult) (entry : inactiveEntry) : ActivationResult :=
  match Object entry with
  | Some ref =>
      {| Success := false;
         ar_Messages := ar_Messages result;
         Inactive := Inactive result ++
           [{| io_URI := ref_URI ref; io_Type := ref_Type ref;
               io_Name := ref_Name ref; io_ParentURI := ref_ParentURI ref |}] |}
  | None => result
  end.

(** [func parseActivationResult(data []byte)], returning an [ActivationResult]
    pointer and an error; the error is nil on every path. *)
Definition parseActivationResult (data : string) : result ActivationResult :=
  let result := {| Success := true; ar_Messages := []; Inactive := [] |} in
  if (String.length data =? 0)%nat then Ok result
  else
    match unmarshal_response data with
    | Err _ =>
        Ok {| Success := false;
              ar_Messages := ar_Messages result ++
                [{| ObjDescr := ""; Type_ := "E"; arm_Line := 0; Href := "";
                    ForceSupported := false; ShortText := data |}];
              Inactive := Inactive result |}
    | Ok resp =>
        let result := fold_left add_message (resp_Messages resp) result in
        let result := fold_left add_inactive (resp_Inactive resp) result in
        Ok result
    end.

End Parsers.

(** *** Vocabulary of the specification *)

(** "severity E, A or X": the message type is one of these three letters. *)
Definition severity_EAX (t : string) : Prop := t = "E"%string \/ t = "A"%string \/ t = "X"%string.

(** What the decoder tests: the type contains one of the three letters. *)
Definition mentions_EAX (t : string) : Prop :=
  exists c, In c (list_ascii_of_string t) /\ In c ["E"; "A"; "X"]%char.

(** The tests of the two loops, on the decoded response. *)
Definition no_letter (m : msg) : bool := negb (ContainsAny (m_Type m) "EAX").
Definition no_object (e : inactiveEntry) : bool :=
  match Object e with None => true | Some _ => false end.

(** The specification's condition for success, on a parsed result. *)
Definition success_iff_no_EAX_severity (r : ActivationResult) : Prop :=
  Success r = true <->
  (forall m, In m (ar_Messages r) -> ~ severity_EAX (Type_ m)) /\ Inactive r = [].

(** The decoder's condition for success. *)
Definition success_iff_no_EAX_letter (r : ActivationResult) : Prop :=
  Success r = true <->
  (forall m, In m (ar_Messages r) -> ~ mentions_EAX (Type_ m)) /\ Inactive r = [].

(** Go's [xml.Unmarshal] on input that holds no element: the decoder looks
    for a start element and reports [io.EOF] when the input ends first. *)
Definition eof_on_empty {A} (unmarshal : string -> result A) : Prop :=
  unmarshal EmptyString = Err "EOF".

End Codec.

(* ================================================================== *)
(** ** The ADT client seen from its callers                            *)
(* ================================================================== *)

Module Client.
Import GoStrings Codec.

(** [type LockResult struct] *)
Record LockResult : Type := {
  LockHandle : string;
  CorrNr : string;
  CorrUser : string;
  CorrText : string;
  IsLocal : bool;
  IsLinkUp : bool;
  ModificationSupport : string
}.

(** [type CreatableObjectType string]: the constants of crud.go, and the
    three CDS/RAP constants the deployment handler names. *)
Inductive CreatableObjectType : Type :=
| ObjectTypeProgram | ObjectTypeInclude | ObjectTypeClass | ObjectTypeInterface
| ObjectTypeFunctionGroup | ObjectTypeFunctionMod | ObjectTypeTable
| ObjectTypePackage | ObjectTypeDDLS | ObjectTypeBDEF | ObjectTypeSRVD.

(** [type CreateObjectOptions struct] *)
Record CreateObjectOptions : Type := {
  ObjectType : CreatableObjectType;
  Name : string;
  Description : string;
  PackageName : string;
  Transport : string;
  Responsible : string;
  ParentName : string
}.

(** [type ClassIncludeType string] *)
Inductive ClassIncludeType : Type :=
| ClassIncludeMain | ClassIncludeDefinitions | ClassIncludeImplementations
| ClassIncludeMacros | ClassIncludeTestClasses.

(** [type UnitTestRunFlags struct] and [DefaultUnitTestFlags] *)
Record UnitTestRunFlags : Type := {
  Harmless : bool; Dangerous : bool; Critical : bool;
  Short : bool; Medium : bool; Long : bool
}.
Definition DefaultUnitTestFlags : UnitTestRunFlags :=
  {| Harmless := true; Dangerous := false; Critical := false;
     Short := true; Medium := true; Long := false |}.

(** [type UnitTestResult struct] and the records below it. *)
Record UnitTestStackEntry : Type := {
  se_URI : string; se_Type : string; se_Name : string; se_Description : string
}.
Record UnitTestAlert : Type := {
  Kind : string; al_Severity : string; Title : string;
  Details : list string; Stack : list UnitTestStackEntry
}.
Record UnitTestMethod : Type := {
  tm_URI : string; tm_Type : string; tm_Name : string; ExecutionTime : Z;
  tm_URIType : string; tm_NavigationURI : string; Unit : string;
  tm_Alerts : list UnitTestAlert
}.
Record UnitTestClass : Type := {
  tc_URI : string; tc_Type : string; tc_Name : string; tc_URIType : string;
  tc_NavigationURI : string; DurationCategory : string; RiskLevel : string;
  TestMethods : list UnitTestMethod; tc_Alerts : list UnitTestAlert
}.
Record UnitTestResult : Type := { Classes : list UnitTestClass }.

(** What [GetPackage] returns, as far as the deployment handler reads it. *)
Record PackageContent : Type := { pkg_URI : string }.

(** The result of [ActivatePackageIterative], as far as the deployment
    handler reads it. *)
Record ActivationPass : Type := { Activated : list string; Failed : list string }.
Record IterativeActivationResult : Type := {
  Passes : list ActivationPass;
  TotalActivated : Z;
  Iterations : Z;
  StillInactive : Z;
  Summary : string
}.

(** One call of a client method, with what it returned.  A method that
    returns only an [error] returns [result unit]. *)
Inductive Event : Type :=
| EvSyntaxCheck (objectURL content : string) (r : result (list SyntaxCheckResult))
| EvLockObject (objectURL accessMode : string) (r : result LockResult)
| EvUnlockObject (objectURL lockHandle : string) (r : result unit)
| EvUpdateSource (objectSourceURL source lockHandle transport : string) (r : result unit)
| EvActivate (objectURL objectName : string) (r : result ActivationResult)
| EvCreateObject (opts : CreateObjectOptions) (r : result unit)
| EvCreateTestInclude (className lockHandle transport : string) (r : result unit)
| EvUpdateClassInclude (className : string) (includeType : ClassIncludeType)
    (source lockHandle transport : string) (r : result unit)
| EvRunUnitTests (objectURL : string) (flags : UnitTestRunFlags) (r : result UnitTestResult)
| EvGetPackage (name : string) (r : result PackageContent)
| EvActivatePackageIterative (packageName : string) (maxPasses : Z)
    (r : result IterativeActivationResult).

Definition Trace : Type := list Event.

(** The remote system and the transport below the client methods: what a
    call returns may depend on everything that was called before. *)
Record Backend : Type := {
  on_SyntaxCheck : Trace -> string -> string -> result (list SyntaxCheckResult);
  on_LockObject : Trace -> string -> string -> result LockResult;
  on_UnlockObject : Trace -> string -> string -> result unit;
  on_UpdateSource : Trace -> string -> string -> string -> string -> result unit;
  on_Activate : Trace -> string -> string -> result ActivationResult;
  on_CreateObject : Trace -> CreateObjectOptions -> result unit;
  on_CreateTestInclude : Trace -> string -> string -> string -> result unit;
  on_UpdateClassInclude :
    Trace -> string -> ClassIncludeType -> string -> string -> string -> result unit;
  on_RunUnitTests : Trace -> string -> UnitTestRunFlags -> result UnitTestResult;
  on_GetPackage : Trace -> string -> result PackageContent;
  on_ActivatePackageIterative : Trace -> string -> Z -> result IterativeActivationResult
}.

(** A computation that calls the client: given the calls made so far it
    returns a value and the calls it made, oldest first. *)
Definition M (A : Type) : Type := Trace -> A * Trace.

Definition ret {A} (a : A) : M A := fun _ => (a, []).

Definition bind {A B} (m : M A) (f : A -> M B) : M B :=
  fun h =>
    let (a, e1) := m h in
    let (b, e2) := f a (h ++ e1) in
    (b, e1 ++ e2).

Definition call {A} (respond : Trace -> A) (ev : A -> Event) : M A :=
  fun h => let r := respond h in (r, [ev r]).

Section Methods.
Variable c : Backend.

Definition SyntaxCheck (objectURL content : string) : M (result (list SyntaxCheckResult)) :=
  call (fun h => on_SyntaxCheck c h objectURL content) (EvSyntaxCheck objectURL content).
Definition LockObject (objectURL accessMode : string) : M (result LockResult) :=
  call (fun h => on_LockObject c h objectURL accessMode) (EvLockObject objectURL accessMode).
Definition UnlockObject (objectURL lockHandle : string) : M (result unit) :=
  call (fun h => on_UnlockObject c h objectURL lockHandle) (EvUnlockObject objectURL lockHandle).
Definition UpdateSource (objectSourceURL source lockHandle transport : string) : M (result unit) :=
  call (fun h => on_UpdateSource c h objectSourceURL source lockHandle transport)
       (EvUpdateSource objectSourceURL source lockHandle transport).
Definition Activate (objectURL objectName : string) : M (result ActivationResult) :=
  call (fun h => on_Activate c h objectURL objectName) (EvActivate objectURL objectName).
Definition CreateObject (opts : CreateObjectOptions) : M (result unit) :=
  call (fun h => on_CreateObject c h opts) (EvCreateObject opts).
Definition CreateTestInclude (className lockHandle transport : string) : M (result unit) :=
  call (fun h => on_CreateTestInclude c h className lockHandle transport)
       (EvCreateTestInclude className lockHandle transport).
Definition UpdateClassInclude (className : string) (includeType : ClassIncludeType)
    (source lockHandle transport : string) : M (result unit) :=
  call (fun h => on_UpdateClassInclude c h className includeType source lockHandle transport)
       (EvUpdateClassInclude className includeType source lockHandle transport).
Definition RunUnitTests (objectURL : string) (flags : UnitTestRunFlags) : M (result UnitTestResult) :=
  call (fun h => on_RunUnitTests c h objectURL flags) (EvRunUnitTests objectURL flags).
Definition GetPackage (name : string) : M (result PackageContent) :=
  call (fun h => on_GetPackage c h name) (EvGetPackage name).
Definition ActivatePackageIterative (packageName : string) (maxPasses : Z)
    : M (result IterativeActivationResult) :=
  call (fun h => on_ActivatePackageIterative c h packageName maxPasses)
       (EvActivatePackageIterative packageName maxPasses).

End Methods.

(** *** Reading a trace *)

(** The lock handles that [LockObject] calls of the trace returned. *)
Fixpoint acquired (tr : Trace) : list string :=
  match tr with
  | [] => []
  | EvLockObject _ _ (Ok lock) :: rest => LockHandle lock :: acquired rest
  | _ :: rest => acquired rest
  end.

(** Number of [UnlockObject] calls issued for a lock handle. *)
Fixpoint unlocks_of (handle : string) (tr : Trace) : nat :=
  match tr with
  | [] => 0
  | EvUnlockObject _ h _ :: rest =>
      (if String.eqb h handle then 1 else 0) + unlocks_of handle rest
  | _ :: rest => unlocks_of handle rest
  end.

Definition is_lock (e : Event) : bool :=
  match e with EvLockObject _ _ _ => true | _ => false end.
Definition is_update (e : Event) : bool :=
  match e with
  | EvUpdateSource _ _ _ _ _ | EvUpdateClassInclude _ _ _ _ _ _ => true
  | _ => false
  end.
Definition is_syntax_check (e : Event) : bool :=
  match e with EvSyntaxCheck _ _ _ => true | _ => false end.

End Client.

Declare Scope client_scope.
Delimit Scope client_scope with client.
Notation "x <- m ;; k" := (Client.bind m (fun x => k))
  (at level 61, m at next level, right associativity) : client_scope.

(* ================================================================== *)
(** ** Workflow engine: workflows.go                                   *)
(* ================================================================== *)

Module Workflow.
Import GoStrings Codec Client.
Local Open Scope client_scope.
Local Open Scope string_scope.

(** [type WriteProgramResult struct], [type WriteClassResult struct] and
    [type CreateProgramResult struct] have the same fields; the name field is
    [ProgramName] in the first and third and [ClassName] in the second. *)
Record ObjectResult : Type := {
  Success : bool;
  ObjectName : string;
  ObjectURL : string;
  SyntaxErrors : list SyntaxCheckResult;
  Activation : option ActivationResult;
  Message : string
}.
Definition WriteProgramResult : Type := ObjectResult.
Definition WriteClassResult : Type := ObjectResult.
Definition CreateProgramResult : Type := ObjectResult.

(** [type CreateClassWithTestsResult struct] *)
Record CreateClassWithTestsResult : Type := {
  ct_Success : bool;
  ct_ClassName : string;
  ct_ObjectURL : string;
  ct_Activation : option ActivationResult;
  ct_UnitTestResult : option UnitTestResult;
  ct_Message : string
}.

(** Assignments to fields of [result]. *)
Definition set_Message (r : ObjectResult) (m : string) : ObjectResult :=
  {| Success := Success r; ObjectName := ObjectName r; ObjectURL := ObjectURL r;
     SyntaxErrors := SyntaxErrors r; Activation := Activation r; Message := m |}.
Definition set_SyntaxErrors (r : ObjectResult) (l : list SyntaxCheckResult) : ObjectResult :=
  {| Success := Success r; ObjectName := ObjectName r; ObjectURL := ObjectURL r;
     SyntaxErrors := l; Activation := Activation r; Message := Message r |}.
Definition set_Activation (r : ObjectResult) (a : option ActivationResult) : ObjectResult :=
  {| Success := Success r; ObjectName := ObjectName r; ObjectURL := ObjectURL r;
     SyntaxErrors := SyntaxErrors r; Activation := a; Message := Message r |}.
Definition set_Success (r : ObjectResult) (b : bool) : ObjectResult :=
  {| Success := b; ObjectName := ObjectName r; ObjectURL := ObjectURL r;
     SyntaxErrors := SyntaxErrors r; Activation := Activation r; Message := Message r |}.

Definition ct_set_Message (r : CreateClassWithTestsResult) (m : string) :=
  {| ct_Success := ct_Success r; ct_ClassName := ct_ClassName r; ct_ObjectURL := ct_ObjectURL r;
     ct_Activation := ct_Activation r; ct_UnitTestResult := ct_UnitTestResult r;
     ct_Message := m |}.
Definition ct_set_Activation (r : CreateClassWithTestsResult) (a : option ActivationResult) :=
  {| ct_Success := ct_Success r; ct_ClassName := ct_ClassName r; ct_ObjectURL := ct_ObjectURL r;
     ct_Activation := a; ct_UnitTestResult := ct_UnitTestResult r;
     ct_Message := ct_Message r |}.
Definition ct_set_Success (r : CreateClassWithTestsResult) (b : bool) :=
  {| ct_Success := b; ct_ClassName := ct_ClassName r; ct_ObjectURL := ct_ObjectURL r;
     ct_Activation := ct_Activation r; ct_UnitTestResult := ct_UnitTestResult r;
     ct_Message := ct_Message r |}.
Definition ct_set_UnitTestResult (r : CreateClassWithTestsResult) (u : option UnitTestResult) :=
  {| ct_Success := ct_Success r; ct_ClassName := ct_ClassName r; ct_ObjectURL := ct_ObjectURL r;
     ct_Activation := ct_Activation r; ct_UnitTestResult := u;
     ct_Message := ct_Message r |}.

(** [se.Severity == "E" || se.Severity == "A" || se.Severity == "X"] *)
Definition is_error_severity (se : SyntaxCheckResult) : bool :=
  String.eqb (Severity se) "E" || String.eqb (Severity se) "A" || String.eqb (Severity se) "X".

(** The loop [for _, se := range syntaxErrors] returns at the first error. *)
Definition has_syntax_errors (syntaxErrors : list SyntaxCheckResult) : bool :=
  existsb is_error_severity syntaxErrors.

Section Workflows.
Variable c : Backend.
(** The Unicode path of [strings.ToUpper]. *)
Variable unicode : string -> string.

(** [defer func() { if !result.Success { c.UnlockObject(...) } }()]: runs when
    the function returns, on the result as it then is; what the deferred
    [UnlockObject] returns is dropped. *)
Definition deferred_unlock {R} (success : R -> bool) (objectURL lockHandle : string)
    (body : M R) : M R :=
  result <- body ;;
  if negb (success result)
  then _ <- UnlockObject c objectURL lockHandle ;; ret result
  else ret result.

(** Steps 3 to 5 of [WriteProgram], [WriteClass] and
    [CreateAndActivateProgram], which differ in the last message only. *)
Definition update_unlock_activate (objectURL sourceURL objectName source transport : string)
    (lock : LockResult) (done : string) (result : ObjectResult) : M ObjectResult :=
  (* Step 3: Update source *)
  err <- UpdateSource c sourceURL source (LockHandle lock) transport ;;
  match err with
  | Err err => ret (set_Message result ("Failed to update source: " ++ err))
  | Ok _ =>
  (* Step 4: Unlock before activation *)
  err <- UnlockObject c objectURL (LockHandle lock) ;;
  match err with
  | Err err => ret (set_Message result ("Failed to unlock object: " ++ err))
  | Ok _ =>
  (* Step 5: Activate *)
  act <- Activate c objectURL objectName ;;
  match act with
  | Err err => ret (set_Activation (set_Message result ("Failed to activate: " ++ err)) None)
  | Ok activation =>
      let result := set_Activation result (Some activation) in
      if Codec.Success activation
      then ret (set_Message (set_Success result true) done)
      else ret (set_Message result "Activation failed - check activation messages")
  end end end.

(** Steps 1 and 2 of [WriteProgram] and [WriteClass], then the rest under the
    deferred unlock. *)
Definition write_object (objectURL objectName source transport done : string)
    : M ObjectResult :=
  let sourceURL := objectURL ++ "/source/main" in
  let result :=
    {| Success := false; ObjectName := objectName; ObjectURL := objectURL;
       SyntaxErrors := []; Activation := None; Message := "" |} in
  (* Step 1: Syntax check before making changes *)
  checked <- SyntaxCheck c objectURL source ;;
  match checked with
  | Err err => ret (set_Message result ("Syntax check failed: " ++ err))
  | Ok syntaxErrors =>
  if has_syntax_errors syntaxErrors
  then ret (set_Message (set_SyntaxErrors result syntaxErrors)
                        "Source has syntax errors - not saved")
  else
  let result := set_SyntaxErrors result syntaxErrors in
  (* Step 2: Lock the object *)
  locked <- LockObject c objectURL "MODIFY" ;;
  match locked with
  | Err err => ret (set_Message result ("Failed to lock object: " ++ err))
  | Ok lock =>
      deferred_unlock Success objectURL (LockHandle lock)
        (update_unlock_activate objectURL sourceURL objectName source transport lock done result)
  end end.

(** [func (c *Client) WriteProgram(ctx, programName, source, transport)] *)
Definition WriteProgram (programName source transport : string) : M WriteProgramResult :=
  let programName := ToUpper unicode programName in
  let objectURL := "/sap/bc/adt/programs/programs/" ++ programName in
  write_object objectURL programName source transport
    "Program updated and activated successfully".

(** [func (c *Client) WriteClass(ctx, className, source, transport)] *)
Definition WriteClass (className source transport : string) : M WriteClassResult :=
  let className := ToUpper unicode className in
  let objectURL := "/sap/bc/adt/oo/classes/" ++ className in
  write_object objectURL className source transport
    "Class updated and activated successfully".

(** [func (c *Client) CreateAndActivateProgram(ctx, programName, description,
    packageName, source, transport)] *)
Definition CreateAndActivateProgram (programName description packageName source transport : string)
    : M CreateProgramResult :=
  let programName := ToUpper unicode programName in
  let packageName := ToUpper unicode packageName in
  let objectURL := "/sap/bc/adt/programs/programs/" ++ programName in
  let sourceURL := objectURL ++ "/source/main" in
  let result :=
    {| Success := false; ObjectName := programName; ObjectURL := objectURL;
       SyntaxErrors := []; Activation := None; Message := "" |} in
  (* Step 1: Create the program *)
  err <- CreateObject c
           {| ObjectType := ObjectTypeProgram; Name := programName;
              Description := description; PackageName := packageName;
              Transport := transport; Responsible := ""; ParentName := "" |} ;;
  match err with
  | Err err => ret (set_Message result ("Failed to create program: " ++ err))
  | Ok _ =>
  (* Step 2: Lock *)
  locked <- LockObject c objectURL "MODIFY" ;;
  match locked with
  | Err err => ret (set_Message result ("Failed to lock object: " ++ err))
  | Ok lock =>
      deferred_unlock Success objectURL (LockHandle lock)
        (update_unlock_activate objectURL sourceURL programName source transport lock
           "Program created and activated successfully" result)
  end end.

(** Steps 3 to 8 of [CreateClassWithTests]. *)
Definition class_with_tests_locked (objectURL sourceURL className classSource testSource
    transport : string) (lock : LockResult) (result : CreateClassWithTestsResult)
    : M CreateClassWithTestsResult :=
  (* Step 3: Update main source *)
  err <- UpdateSource c sourceURL classSource (LockHandle lock) transport ;;
  match err with
  | Err err => ret (ct_set_Message result ("Failed to update class source: " ++ err))
  | Ok _ =>
  (* Step 4: Create test include *)
  err <- CreateTestInclude c className (LockHandle lock) transport ;;
  match err with
  | Err err => ret (ct_set_Message result ("Failed to create test include: " ++ err))
  | Ok _ =>
  (* Step 5: Update test include *)
  err <- UpdateClassInclude c className ClassIncludeTestClasses testSource
           (LockHandle lock) transport ;;
  match err with
  | Err err => ret (ct_set_Message result ("Failed to update test source: " ++ err))
  | Ok _ =>
  (* Step 6: Unlock *)
  err <- UnlockObject c objectURL (LockHandle lock) ;;
  match err with
  | Err err => ret (ct_set_Message result ("Failed to unlock object: " ++ err))
  | Ok _ =>
  (* Step 7: Activate *)
  act <- Activate c objectURL className ;;
  match act with
  | Err err => ret (ct_set_Activation (ct_set_Message result ("Failed to activate: " ++ err)) None)
  | Ok activation =>
  let result := ct_set_Activation result (Some activation) in
  if negb (Codec.Success activation)
  then ret (ct_set_Message result "Activation failed - check activation messages")
  else
  (* Step 8: Run unit tests *)
  tested <- RunUnitTests c objectURL DefaultUnitTestFlags ;;
  match tested with
  | Err err =>
      ret (ct_set_Success
             (ct_set_Message result
                ("Class activated but unit tests failed to run: " ++ err)) true)
  | Ok testResult =>
      ret (ct_set_Message
             (ct_set_Success (ct_set_UnitTestResult result (Some testResult)) true)
             "Class created, activated, and unit tests executed successfully")
  end end end end end end.

(** [func (c *Client) CreateClassWithTests(ctx, className, description,
    packageName, classSource, testSource, transport)] *)
Definition CreateClassWithTests (className description packageName classSource testSource
    transport : string) : M CreateClassWithTestsResult :=
  let className := ToUpper unicode className in
  let packageName := ToUpper unicode packageName in
  let objectURL := "/sap/bc/adt/oo/classes/" ++ className in
  let sourceURL := objectURL ++ "/source/main" in
  let result :=
    {| ct_Success := false; ct_ClassName := className; ct_ObjectURL := objectURL;
       ct_Activation := None; ct_UnitTestResult := None; ct_Message := "" |} in
  (* Step 1: Create the class *)
  err <- CreateObject c
           {| ObjectType := ObjectTypeClass; Name := className;
              Description := description; PackageName := packageName;
              Transport := transport; Responsible := ""; ParentName := "" |} ;;
  match err with
  | Err err => ret (ct_set_Message result ("Failed to create class: " ++ err))
  | Ok _ =>
  (* Step 2: Lock *)
  locked <- LockObject c objectURL "MODIFY" ;;
  match locked with
  | Err err => ret (ct_set_Message result ("Failed to lock object: " ++ err))
  | Ok lock =>
      deferred_unlock ct_Success objectURL (LockHandle lock)
        (class_with_tests_locked objectURL sourceURL className classSource testSource
           transport lock result)
  end end.

End Workflows.

(** *** Vocabulary of the specification *)

(** "Exactly one Unlock call is issued for that lock handle": every handle
    that a [LockObject] of the run returned is unlocked exactly once in it. *)
Definition exactly_one_unlock (tr : Trace) : Prop :=
  forall h, In h (acquired tr) -> unlocks_of h tr = 1%nat.

(** A write under the lock was refused: an [UpdateSource], a
    [CreateTestInclude] or an [UpdateClassInclude] returned an error. *)
Definition write_refused (e : Event) : bool :=
  match e with
  | EvUpdateSource _ _ _ _ (Err _) => true
  | EvCreateTestInclude _ _ _ (Err _) => true
  | EvUpdateClassInclude _ _ _ _ _ (Err _) => true
  | _ => false
  end.

(** What the workflows do.  The handle is unlocked once when the workflow
    reports success (by the Unlock before the activation) and once when a
    write under the lock was refused (by the deferred function: the
    workflow returns before its own Unlock).  In every other run that took
    the lock the workflow's own Unlock was issued and the result is not a
    success, so that the deferred function unlocks the handle a second
    time.  No other handle is unlocked. *)
Definition unlock_count (success : bool) (tr : Trace) : nat :=
  if success || existsb write_refused tr then 1 else 2.

Definition unlocks_as_built (success : bool) (tr : Trace) : Prop :=
  (forall h, In h (acquired tr) -> unlocks_of h tr = unlock_count success tr) /\
  (forall h, In h (acquired tr) \/ unlocks_of h tr = 0%nat).

(** The first call of the run is a syntax check that returned [diags], and
    one of them has severity E, A or X. *)
Definition initial_check_found_errors (tr : Trace) (diags : list SyntaxCheckResult) : Prop :=
  exists url src rest,
    tr = EvSyntaxCheck url src (Ok diags) :: rest /\ has_syntax_errors diags = true.

(** No Lock and no source update (PUT) among the calls. *)
Definition no_lock_no_put (tr : Trace) : Prop :=
  forallb (fun e => negb (is_lock e) && negb (is_update e)) tr = true.

End Workflow.

(* ================================================================== *)
(** ** Deployment engine: embedded/deps/embed.go                        *)
(* ================================================================== *)

Module Deps.
Import GoStrings.
Local Open Scope string_scope.

(** [type ABAPFile struct] *)
Record ABAPFile : Type := {
  Path : string;
  Filename : string;
  ObjectType : string;
  ObjectName : string;
  IncludeType : string;
  IsXML : bool;
  Content : string
}.

(** A Go [map[string]V] literal that is only read: its entries, and the zero
    value for a missing key. *)
Fixpoint lookup {V} (m : list (string * V)) (k : string) : option V :=
  match m with
  | [] => None
  | (k', v) :: rest => if String.eqb k' k then Some v else lookup rest k
  end.

Definition index_or_zero (m : list (string * nat)) (k : string) : nat :=
  match lookup m k with Some v => v | None => 0 end.

(** [typePriority] and [includePriority] of [DeploymentOrder]. *)
Definition typePriority : list (string * nat) :=
  [("INTF", 1); ("DOMA", 2); ("DTEL", 3); ("TABL", 4); ("DDLS", 5); ("CLAS", 6);
   ("PROG", 7); ("FUGR", 8); ("FUNC", 9); ("BDEF", 10); ("SRVD", 11); ("SRVB", 12)]%nat.

Definition includePriority : list (string * nat) :=
  [("", 1); ("locals_def", 2); ("locals_imp", 3); ("macros", 4); ("testclasses", 5)]%nat.

(** [a < b] on Go strings: byte-wise lexicographic order. *)
Definition string_lt (a b : string) : bool :=
  match String.compare a b with Lt => true | _ => false end.

(** [pi := typePriority[f.ObjectType]; if pi == 0 { pi = 99 }] *)
Definition priority_of (f : ABAPFile) : nat :=
  let p := index_or_zero typePriority (ObjectType f) in
  if (p =? 0)%nat then 99%nat else p.

(** The [less] closure handed to [sort.SliceStable]. *)
Definition less (fi fj : ABAPFile) : bool :=
  if negb (Bool.eqb (IsXML fi) (IsXML fj)) then negb (IsXML fi)
  else
    let pi := priority_of fi in
    let pj := priority_of fj in
    if negb (pi =? pj)%nat then (pi <? pj)%nat
    else if negb (String.eqb (ObjectName fi) (ObjectName fj))
    then string_lt (ObjectName fi) (ObjectName fj)
    else (index_or_zero includePriority (IncludeType fi)
          <? index_or_zero includePriority (IncludeType fj))%nat.

(** [sort.SliceStable(x, less)]: the elements in an order where none is
    [less] than one before it, elements that are not [less] either way in
    their original order.  For a [less] that is a strict weak order there is
    one such arrangement; it is computed here by insertion. *)
Section StableSort.
Context {A : Type} (lt : A -> A -> bool).

Fixpoint insert_stable (x : A) (l : list A) : list A :=
  match l with
  | [] => [x]
  | y :: rest => if lt y x then y :: insert_stable x rest else x :: y :: rest
  end.

Fixpoint SliceStable (l : list A) : list A :=
  match l with
  | [] => []
  | x :: rest => insert_stable x (SliceStable rest)
  end.

(** [y] may stand after [x]; [x] and [y] are not less either way. *)
Definition not_after (x y : A) : Prop := lt y x = false.
Definition tied (x y : A) : bool := negb (lt x y) && negb (lt y x).

End StableSort.

(** [func DeploymentOrder(files []ABAPFile) []ABAPFile] *)
Definition DeploymentOrder (files : list ABAPFile) : list ABAPFile :=
  SliceStable less files.

(** [filepath.Base] on slash-separated paths, as the names in a ZIP are. *)
Fixpoint strip_trailing_slashes (rev_path : list ascii) : list ascii :=
  match rev_path with
  | "/"%char :: rest => strip_trailing_slashes rest
  | _ => rev_path
  end.
Fixpoint take_to_slash (rev_path : list ascii) : list ascii :=
  match rev_path with
  | [] => []
  | c :: rest => if Ascii.eqb c "/" then [] else c :: take_to_slash rest
  end.
Definition Base (path : string) : string :=
  if String.eqb path "" then "."
  else
    let stripped := strip_trailing_slashes (rev (list_ascii_of_string path)) in
    match stripped with
    | [] => "/"
    | _ => string_of_list_ascii (rev (take_to_slash stripped))
    end.

(** [strings.Split(s, ".")] *)
Fixpoint split_dots (s : string) : list string :=
  match s with
  | EmptyString => [EmptyString]
  | String c rest =>
      let parts := split_dots rest in
      if Ascii.eqb c "." then EmptyString :: parts
      else match parts with
           | p :: ps => String c p :: ps
           | [] => [String c EmptyString]
           end
  end.

(** The loop over the source extensions: the first that is a suffix is
    removed. *)
Fixpoint trim_first_suffix (filename : string) (exts : list string) : string :=
  match exts with
  | [] => filename
  | ext :: rest =>
      if HasSuffix filename ext then TrimSuffix filename ext
      else trim_first_suffix filename rest
  end.

(** [typeMap] of [ParseAbapGitFilename]. *)
Definition typeMap : list (string * string) :=
  [("clas", "CLAS"); ("intf", "INTF"); ("prog", "PROG"); ("fugr", "FUGR");
   ("func", "FUNC"); ("ddls", "DDLS"); ("doma", "DOMA"); ("dtel", "DTEL");
   ("tabl", "TABL"); ("view", "VIEW"); ("bdef", "BDEF"); ("srvd", "SRVD");
   ("srvb", "SRVB"); ("ttyp", "TTYP"); ("msag", "MSAG"); ("enqu", "ENQU");
   ("shlp", "SHLP"); ("tran", "TRAN"); ("devc", "DEVC")].

Definition is_include_type (s : string) : bool :=
  String.eqb s "locals_def" || String.eqb s "locals_imp" ||
  String.eqb s "testclasses" || String.eqb s "macros".

Section Parsing.
(** The Unicode path of [strings.ToUpper]. *)
Variable unicode : string -> string.

(** [func ParseAbapGitFilename(filename string)
       (objectType, objectName, includeType string, isXML bool)] *)
Definition ParseAbapGitFilename (filename : string) : string * string * string * bool :=
  let filename := Base filename in
  let isXML := HasSuffix filename ".xml" in
  let filename :=
    if isXML then TrimSuffix filename ".xml"
    else trim_first_suffix filename [".abap"; ".asddls"; ".asbdef"; ".srvdsrv"] in
  let parts := split_dots filename in
  match parts with
  | p0 :: p1 :: more =>
      let objectName := ToUpper unicode p0 in
      let objectType := match lookup typeMap p1 with Some t => t | None => "" end in
      let includeType :=
        match more with
        | p2 :: _ => if is_include_type p2 then p2 else ""
        | [] => ""
        end in
      (objectType, objectName, includeType, isXML)
  | _ => ("", "", "", isXML)
  end.

(** [func isAbapGitFile(filename string) bool] *)
Definition isAbapGitFile (filename : string) : bool :=
  existsb (HasSuffix filename) [".abap"; ".asddls"; ".asbdef"; ".srvdsrv"; ".xml"].

(** One entry of [zip.Reader.File]: its name, whether it is a directory, and
    what opening and reading it gives. *)
Record ZipEntry : Type := {
  ze_Name : string;
  ze_IsDir : bool;
  ze_Open : result string;
  ze_ReadAll : result string
}.

(** [zip.NewReader] on the archive bytes. *)
Variable zip_NewReader : list byte -> result (list ZipEntry).

(** The loop of [UnzipInMemory]; [files] is what was collected so far. *)
Fixpoint unzip_entries (entries : list ZipEntry) (files : list ABAPFile)
    : result (list ABAPFile) :=
  match entries with
  | [] => Ok files
  | f :: rest =>
      if ze_IsDir f then unzip_entries rest files
      else
        let filename := Base (ze_Name f) in
        if negb (isAbapGitFile filename) then unzip_entries rest files
        else
          match ze_Open f with
          | Err err => Err ("failed to open " ++ ze_Name f ++ ": " ++ err)
          | Ok _ =>
              match ze_ReadAll f with
              | Err err => Err ("failed to read " ++ ze_Name f ++ ": " ++ err)
              | Ok content =>
                  let '(objectType, objectName, includeType, isXML) :=
                    ParseAbapGitFilename filename in
                  unzip_entries rest
                    (files ++ [{| Path := ze_Name f; Filename := filename;
                                  ObjectType := objectType; ObjectName := objectName;
                                  IncludeType := includeType; IsXML := isXML;
                                  Content := content |}])
              end
          end
  end.

(** [func UnzipInMemory(zipData []byte) ([]ABAPFile, error)] *)
Definition UnzipInMemory (zipData : list byte) : result (list ABAPFile) :=
  match zip_NewReader zipData with
  | Err err => Err ("failed to open ZIP: " ++ err)
  | Ok entries => unzip_entries entries []
  end.

End Parsing.

(** A Go map that is built by the code: its entries, one per key. *)
Fixpoint map_set {V} (m : list (string * V)) (k : string) (v : V) : list (string * V) :=
  match m with
  | [] => [(k, v)]
  | (k', v') :: rest =>
      if String.eqb k' k then (k', v) :: rest else (k', v') :: map_set rest k v
  end.

(** [func GroupByObject(files []ABAPFile) map[string][]ABAPFile] *)
Definition group_key (f : ABAPFile) : string := ObjectType f ++ "/" ++ ObjectName f.
Definition GroupByObject (files : list ABAPFile) : list (string * list ABAPFile) :=
  fold_left
    (fun groups f =>
       let key := group_key f in
       let old := match lookup groups key with Some l => l | None => [] end in
       map_set groups key (old ++ [f])%list)
    files [].

(** [func ExtractDescription(xmlContent string) string]: the first submatch of
    the leftmost match of [<DESCRIPT>([^<]+)</DESCRIPT>].  After the opening
    tag the class [[^<]+] can only stop at the next [<], which the closing
    tag must then begin. *)
Fixpoint run_without_lt (s : string) : string :=
  match s with
  | EmptyString => EmptyString
  | String c rest => if Ascii.eqb c "<" then EmptyString else String c (run_without_lt rest)
  end.
Definition drop (n : nat) (s : string) : string := substring n (String.length s - n) s.
Definition match_DESCRIPT_here (s : string) : option string :=
  if HasPrefix s "<DESCRIPT>" then
    let body := run_without_lt (drop 10 s) in
    if negb (String.eqb body "") && HasPrefix (drop (10 + String.length body) s) "</DESCRIPT>"
    then Some body else None
  else None.
Fixpoint ExtractDescription (xmlContent : string) : string :=
  match match_DESCRIPT_here xmlContent with
  | Some body => body
  | None =>
      match xmlContent with
      | EmptyString => ""
      | String _ rest => ExtractDescription rest
      end
  end.

(** [type DeploymentObject struct] and [type DeploymentPlan struct] *)
Record DeploymentObject : Type := {
  Type_ : string;
  Name : string;
  Description : string;
  MainSource : string;
  Includes : list (string * string);
  XMLMetadata : string
}.
Record DeploymentPlan : Type := {
  Dependency : string;
  Package : string;
  TotalFiles : nat;
  TotalObjects : nat;
  Objects : list DeploymentObject
}.

(** The loop [for _, of := range objFiles] of [CreateDeploymentPlan]. *)
Definition add_file (obj : DeploymentObject) (f : ABAPFile) : DeploymentObject :=
  if IsXML f then
    {| Type_ := Type_ obj; Name := Name obj; Description := ExtractDescription (Content f);
       MainSource := MainSource obj; Includes := Includes obj; XMLMetadata := Content f |}
  else if String.eqb (IncludeType f) "" then
    {| Type_ := Type_ obj; Name := Name obj; Description := Description obj;
       MainSource := Content f; Includes := Includes obj; XMLMetadata := XMLMetadata obj |}
  else
    {| Type_ := Type_ obj; Name := Name obj; Description := Description obj;
       MainSource := MainSource obj;
       Includes := map_set (Includes obj) (IncludeType f) (Content f);
       XMLMetadata := XMLMetadata obj |}.

(** The loop [for _, f := range sorted]; [added] holds the keys seen. *)
Fixpoint plan_objects (groups : list (string * list ABAPFile)) (sorted : list ABAPFile)
    (added : list string) : list DeploymentObject :=
  match sorted with
  | [] => []
  | f :: rest =>
      let key := group_key f in
      if existsb (String.eqb key) added then plan_objects groups rest added
      else
        let objFiles := match lookup groups key with Some l => l | None => [] end in
        let obj :=
          fold_left add_file objFiles
            {| Type_ := ObjectType f; Name := ObjectName f; Description := "";
               MainSource := ""; Includes := []; XMLMetadata := "" |} in
        obj :: plan_objects groups rest (key :: added)
  end.

(** [func CreateDeploymentPlan(depName, packageName string, files []ABAPFile)
    *DeploymentPlan] *)
Definition CreateDeploymentPlan (depName packageName : string) (files : list ABAPFile)
    : DeploymentPlan :=
  let sorted := DeploymentOrder files in
  let groups := GroupByObject sorted in
  {| Dependency := depName; Package := packageName;
     TotalFiles := List.length files; TotalObjects := List.length groups;
     Objects := plan_objects groups sorted [] |}.

(** [type DependencyInfo struct] and [GetAvailableDependencies] *)
Record DependencyInfo : Type := {
  di_Name : string;
  di_Description : string;
  di_Package : string;
  Available : bool;
  FileCount : nat;
  di_Objects : list string
}.
Definition GetAvailableDependencies : list DependencyInfo :=
  [ {| di_Name := "abapgit-standalone";
       di_Description := "abapGit standalone program (single file ZABAPGIT)";
       di_Package := "$ABAPGIT"; Available := false; FileCount := 0; di_Objects := [] |};
    {| di_Name := "abapgit-dev";
       di_Description := "abapGit developer edition (full $ZGIT_DEV* packages)";
       di_Package := "$ZGIT_DEV"; Available := false; FileCount := 0; di_Objects := [] |} ].

(** [func GetDependencyZIP(source string) []byte] as checked in: a
    placeholder that has no archive for any name ([None] is the nil slice).
    A build that embeds archives replaces it, so the handler below takes the
    lookup as a parameter. *)
Definition GetDependencyZIP_placeholder (source : string) : option (list byte) := None.

(** *** The order the comparison defines *)

(** Lexicographic products and strict total orders. *)
Definition lex {A B : Type} (ltA : A -> A -> Prop) (ltB : B -> B -> Prop)
    (p q : A * B) : Prop :=
  ltA (fst p) (fst q) \/ (fst p = fst q /\ ltB (snd p) (snd q)).

Record strict_total {A : Type} (lt : A -> A -> Prop) : Prop := {
  st_irrefl : forall a, ~ lt a a;
  st_trans : forall a b c, lt a b -> lt b c -> lt a c;
  st_total : forall a b, lt a b \/ a = b \/ lt b a
}.

Definition bool_lt (a b : bool) : Prop := a = false /\ b = true.
Definition string_ltP (a b : string) : Prop := string_lt a b = true.

(** The sort key of a file, as [less] reads it, and the order of keys. *)
Definition sort_key (f : ABAPFile) : bool * (nat * (string * nat)) :=
  (IsXML f, (priority_of f, (ObjectName f, index_or_zero includePriority (IncludeType f)))).

Definition key_lt : bool * (nat * (string * nat)) -> bool * (nat * (string * nat)) -> Prop :=
  lex bool_lt (lex Nat.lt (lex string_ltP Nat.lt)).

(** *** Vocabulary of the specification *)

(** The order the specification describes: first the type priority, within
    a type the object name, within one object the source before the XML
    metadata, then the includes in their fixed order. *)
Definition spec_precedes (fi fj : ABAPFile) : bool :=
  let pi := priority_of fi in
  let pj := priority_of fj in
  if negb (pi =? pj)%nat then (pi <? pj)%nat
  else if negb (String.eqb (ObjectName fi) (ObjectName fj))
  then string_lt (ObjectName fi) (ObjectName fj)
  else if negb (Bool.eqb (IsXML fi) (IsXML fj)) then negb (IsXML fi)
  else (index_or_zero includePriority (IncludeType fi)
        <? index_or_zero includePriority (IncludeType fj))%nat.

(** A list is in an order when no element comes after one it precedes. *)
Definition ordered_by (precedes : ABAPFile -> ABAPFile -> bool) (l : list ABAPFile) : Prop :=
  forall i j x y, (i < j)%nat -> nth_error l i = Some x -> nth_error l j = Some y ->
    precedes y x = false.

End Deps.

(* ================================================================== *)
(** ** Deployment handler: internal/mcp/handlers_deploy.go              *)
(* ================================================================== *)

Module Handlers.
Import GoStrings Codec Client Deps.
Local Open Scope client_scope.
Local Open Scope string_scope.

(** A value of [request.Params.Arguments], a [map[string]interface{}]. *)
Inductive Value : Type :=
| VString (s : string)
| VBool (b : bool)
| VNumber (z : Z)
| VNull.

Definition Arguments : Type := list (string * Value).

(** [v, _ := args[key].(string)] *)
Definition string_arg (args : Arguments) (key : string) : string :=
  match lookup args key with Some (VString s) => s | _ => "" end.

(** [if v, ok := args[key].(bool); ok { x = v }] over the default [false] *)
Definition bool_arg (args : Arguments) (key : string) : bool :=
  match lookup args key with Some (VBool b) => b | _ => false end.

(** [if v, ok := args[key].(string); ok { x = strings.ToUpper(v) }] over the
    default empty string *)
Definition upper_arg (unicode : string -> string) (args : Arguments) (key : string) : string :=
  match lookup args key with Some (VString v) => ToUpper unicode v | _ => "" end.

(** The text a handler builds: each [sb.WriteString(s)] is a [Str], each
    [fmt.Fprintf(&sb, format, args...)] a [Fmt] that keeps the format as the
    source writes it and the arguments it is applied to; an argument that is
    itself [fmt.Sprintf(format, args...)] is an [ASprintf]. *)
#[local] Unset Elimination Schemes.
Inductive Arg : Type :=
| AStr (s : string)
| AInt (n : Z)
| ASprintf (format : string) (args : list Arg).
#[local] Set Elimination Schemes.
Inductive Piece : Type :=
| Str (s : string)
| Fmt (format : string) (args : list Arg).

Definition anat (n : nat) : Arg := AInt (Z.of_nat n).

(** [mcp.CallToolResult], [mcp.NewToolResultText] and [newToolResultError]. *)
Record CallToolResult : Type := { Text : list Piece; IsError : bool }.
Definition NewToolResultText (text : list Piece) : CallToolResult :=
  {| Text := text; IsError := false |}.
Definition newToolResultError (message : Piece) : CallToolResult :=
  {| Text := [message]; IsError := true |}.

(** [strings.Repeat] and [strings.Join] *)
Fixpoint Repeat (s : string) (n : nat) : string :=
  match n with O => "" | S k => s ++ Repeat s k end.
Fixpoint Join (l : list string) (sep : string) : string :=
  match l with
  | [] => ""
  | [x] => x
  | x :: rest => x ++ sep ++ Join rest sep
  end.

(** [var objectTypeMapping]: the creatable type and the URL pattern, a
    prefix followed by the one verb [%s]. *)
Definition objectTypeMapping : list (string * (CreatableObjectType * string)) :=
  [("PROG", (ObjectTypeProgram, "/sap/bc/adt/programs/programs/"));
   ("CLAS", (ObjectTypeClass, "/sap/bc/adt/oo/classes/"));
   ("INTF", (ObjectTypeInterface, "/sap/bc/adt/oo/interfaces/"));
   ("DDLS", (ObjectTypeDDLS, "/sap/bc/adt/ddic/ddl/sources/"));
   ("BDEF", (ObjectTypeBDEF, "/sap/bc/adt/bo/behaviordefinitions/"));
   ("SRVD", (ObjectTypeSRVD, "/sap/bc/adt/ddic/srvd/sources/"))].

(** [strings.Contains(err.Error(), "AlreadyExists") ||
     strings.Contains(err.Error(), "already exist")] *)
Definition already_exists (err : string) : bool :=
  Contains err "AlreadyExists" || Contains err "already exist".

(** Counters and text of the phases. *)
Record Phase1 : Type := {
  p1_sb : list Piece;
  createSuccess : nat;
  createSkipped : nat;
  createFailed : nat
}.
Record Phase2 : Type := {
  p2_sb : list Piece;
  uploadSuccess : nat;
  uploadFailed : nat;
  uploadFailures : list Arg
}.

Section Handler.
Variable c : Backend.
(** The Unicode paths of [strings.ToUpper] and [strings.ToLower]. *)
Variable unicode_upper : string -> string.
Variable unicode_lower : string -> string.
(** [url.PathEscape] *)
Variable PathEscape : string -> string.
(** [zip.NewReader] and the archives the build embeds. *)
Variable zip_NewReader : list byte -> result (list ZipEntry).
Variable GetDependencyZIP : string -> option (list byte).
(** [for t := range obj.Includes]: Go visits the keys of a map in an order
    that it does not specify and that differs from one loop to the next.
    [range_order i keys] is the order in which the loop over the includes
    of the [i]-th deployable object visits them, a permutation of [keys]. *)
Variable range_order : nat -> list string -> list string.

(** The filters of the classification loop: [continue] unless both pass. *)
Definition selected (typeFilter nameFilter : string) (obj : DeploymentObject) : bool :=
  (String.eqb typeFilter "" || String.eqb (Type_ obj) typeFilter) &&
  (String.eqb nameFilter "" || Contains (Deps.Name obj) (ReplaceAll nameFilter "*" "")).

Definition mapped (obj : DeploymentObject) : bool :=
  match lookup objectTypeMapping (Type_ obj) with Some _ => true | None => false end.

Definition deployable_of (typeFilter nameFilter : string) (objs : list DeploymentObject) :=
  filter (fun obj => selected typeFilter nameFilter obj && mapped obj) objs.
Definition skipped_of (typeFilter nameFilter : string) (objs : list DeploymentObject) :=
  filter (fun obj => selected typeFilter nameFilter obj && negb (mapped obj)) objs.

(** "Show deployment plan": the header, one line per deployable object,
    the skipped objects, the rule.  [obj.Includes] is a Go map: the line
    of an object lists its keys as the range over the map yields them. *)
Definition plan_line (i : nat) (obj : DeploymentObject) : Piece :=
  let includeInfo :=
    if (0 <? List.length (Includes obj))%nat
    then ASprintf " [+%s]" [AStr (Join (range_order i (map fst (Includes obj))) ",")]
    else AStr "" in
  Fmt "  ✓ %-6s %-40s%s\n" [AStr (Type_ obj); AStr (Deps.Name obj); includeInfo].

(** The loop [for _, obj := range deployable] of the plan, from its
    [i]-th iteration on. *)
Fixpoint plan_lines (i : nat) (deployable : list DeploymentObject) : list Piece :=
  match deployable with
  | [] => []
  | obj :: rest => plan_line i obj :: plan_lines (S i) rest
  end.

Definition skipped_lines (skipped : list DeploymentObject) : list Piece :=
  match skipped with
  | [] => []
  | _ => Str "\n  Skipped (requires ZADT_VSP):\n" ::
         map (fun obj => Fmt "  ⊘ %-6s %s\n" [AStr (Type_ obj); AStr (Deps.Name obj)]) skipped
  end.

Definition plan_text (deployable skipped : list DeploymentObject) : list Piece :=
  ([Fmt "Deployment Plan (%d deployable, %d skipped):\n"
      [anat (List.length deployable); anat (List.length skipped)];
    Str (Repeat "-" 60 ++ "\n")]
   ++ plan_lines 0 deployable
   ++ skipped_lines skipped
   ++ [Str (Repeat "-" 60 ++ "\n\n")])%list.

(** "Ensure package exists"; [inr] is the early return of the handler. *)
Definition ensure_package (source packageName : string) (sb : list Piece)
    : M (list Piece + CallToolResult) :=
  let sb := (sb ++ [Fmt "Checking package %s...\n" [AStr packageName]])%list in
  got <- GetPackage c packageName ;;
  let missing :=
    match got with
    | Err _ => true
    | Ok pkg => String.eqb (pkg_URI pkg) ""
    end in
  if missing then
    let sb := (sb ++ [Fmt "Creating package %s...\n" [AStr packageName]])%list in
    err <- CreateObject c
             {| Client.ObjectType := ObjectTypePackage; Client.Name := packageName;
                Client.Description := "Deployed from " ++ source;
                Client.PackageName := ""; Client.Transport := "";
                Client.Responsible := ""; Client.ParentName := "" |} ;;
    match err with
    | Err err =>
        if already_exists err
        then ret (inl (sb ++ [Fmt "  ✓ Package already exists\n" []; Str "\n"])%list)
        else ret (inr (newToolResultError (Fmt "Failed to create package: %v" [AStr err])))
    | Ok _ => ret (inl (sb ++ [Fmt "  ✓ Package created\n" []; Str "\n"])%list)
    end
  else ret (inl (sb ++ [Fmt "  ✓ Package exists\n" []; Str "\n"])%list).

(** PHASE 1: the loop [for i, obj := range deployable]; [n] is
    [len(deployable)]. *)
Fixpoint phase1 (packageName : string) (n i : nat) (objs : list DeploymentObject)
    (st : Phase1) : M Phase1 :=
  match objs with
  | [] => ret st
  | obj :: rest =>
      match lookup objectTypeMapping (Type_ obj) with
      | None => phase1 packageName n (S i) rest st
      | Some (creatableType, _) =>
          let desc := if String.eqb (Deps.Description obj) "" then Deps.Name obj
                      else Deps.Description obj in
          let sb := (p1_sb st ++
                     [Fmt "  [%d/%d] Create %s %s... "
                        [anat (i + 1); anat n; AStr (Type_ obj); AStr (Deps.Name obj)]])%list in
          err <- CreateObject c
                   {| Client.ObjectType := creatableType; Client.Name := Deps.Name obj;
                      Client.Description := desc; Client.PackageName := packageName;
                      Client.Transport := ""; Client.Responsible := "";
                      Client.ParentName := "" |} ;;
          phase1 packageName n (S i) rest
            match err with
            | Err err =>
                if already_exists err
                then {| p1_sb := (sb ++ [Fmt "exists\n" []])%list;
                        createSuccess := createSuccess st;
                        createSkipped := createSkipped st + 1;
                        createFailed := createFailed st |}
                else {| p1_sb := (sb ++ [Fmt "FAIL: %v\n" [AStr err]])%list;
                        createSuccess := createSuccess st;
                        createSkipped := createSkipped st;
                        createFailed := createFailed st + 1 |}
            | Ok _ =>
                {| p1_sb := (sb ++ [Fmt "ok\n" []])%list;
                   createSuccess := createSuccess st + 1;
                   createSkipped := createSkipped st;
                   createFailed := createFailed st |}
            end
      end
  end.

(** [objectURL := fmt.Sprintf(typeInfo.urlPattern,
      url.PathEscape(strings.ToLower(obj.Name)))] *)
Definition upload_url (urlPattern : string) (obj : DeploymentObject) : string :=
  urlPattern ++ PathEscape (ToLower unicode_lower (Deps.Name obj)).

(** One iteration of the PHASE 2 loop for an object whose type is mapped. *)
Definition upload_one (n i : nat) (urlPattern : string) (obj : DeploymentObject)
    (st : Phase2) : M Phase2 :=
  let objectURL := upload_url urlPattern obj in
  let sourceURL := objectURL ++ "/source/main" in
  let sb := (p2_sb st ++
             [Fmt "  [%d/%d] Upload %s %s... "
                [anat (i + 1); anat n; AStr (Type_ obj); AStr (Deps.Name obj)]])%list in
  (* Lock *)
  locked <- LockObject c objectURL "MODIFY" ;;
  match locked with
  | Err err =>
      ret {| p2_sb := (sb ++ [Fmt "LOCK FAIL: %v\n" [AStr err]])%list;
             uploadSuccess := uploadSuccess st;
             uploadFailed := uploadFailed st + 1;
             uploadFailures := (uploadFailures st ++
               [ASprintf "%s %s: lock failed: %v"
                  [AStr (Type_ obj); AStr (Deps.Name obj); AStr err]])%list |}
  | Ok lockResult =>
  (* Upload source (no syntax check!) *)
  err <- UpdateSource c sourceURL (MainSource obj) (LockHandle lockResult) "" ;;
  match err with
  | Err err =>
      (* Always try to unlock even if upload fails *)
      _ <- UnlockObject c objectURL (LockHandle lockResult) ;;
      ret {| p2_sb := (sb ++ [Fmt "UPLOAD FAIL: %v\n" [AStr err]])%list;
             uploadSuccess := uploadSuccess st;
             uploadFailed := uploadFailed st + 1;
             uploadFailures := (uploadFailures st ++
               [ASprintf "%s %s: upload failed: %v"
                  [AStr (Type_ obj); AStr (Deps.Name obj); AStr err]])%list |}
  | Ok _ =>
  (* Unlock *)
  err <- UnlockObject c objectURL (LockHandle lockResult) ;;
  let sb :=
    match err with
    | Err err => (sb ++ [Fmt "UNLOCK FAIL: %v\n" [AStr err]])%list
    | Ok _ => sb
    end in
  ret {| p2_sb := (sb ++ [Fmt "ok\n" []])%list;
         uploadSuccess := uploadSuccess st + 1;
         uploadFailed := uploadFailed st;
         uploadFailures := uploadFailures st |}
  end end.

(** PHASE 2: the loop [for i, obj := range deployable]. *)
Fixpoint phase2 (n i : nat) (objs : list DeploymentObject) (st : Phase2) : M Phase2 :=
  match objs with
  | [] => ret st
  | obj :: rest =>
      match lookup objectTypeMapping (Type_ obj) with
      | None => phase2 n (S i) rest st
      | Some (_, urlPattern) =>
          st <- upload_one n i urlPattern obj st ;;
          phase2 n (S i) rest st
      end
  end.

(** PHASE 3 and what it writes. *)
Fixpoint pass_lines (i : nat) (passes : list ActivationPass) : list Piece :=
  match passes with
  | [] => []
  | pass :: rest =>
      Fmt "  Pass %d: %d activated, %d failed\n"
        [anat (i + 1); anat (List.length (Activated pass)); anat (List.length (Failed pass))]
      :: pass_lines (S i) rest
  end.

Definition phase3_text (packageName : string) (r : result IterativeActivationResult)
    : list Piece :=
  match r with
  | Err err => [Fmt "  Activation error: %v\n" [AStr err]]
  | Ok iterResult =>
      (pass_lines 0 (Passes iterResult) ++
       [Fmt "  Total: %d activated across %d pass(es)\n"
          [AInt (TotalActivated iterResult); AInt (Iterations iterResult)];
        if (StillInactive iterResult =? 0)%Z
        then Str "  All objects active — deployment verified.\n"
        else Fmt "  WARNING: %d object(s) still inactive in %s\n"
               [AInt (StillInactive iterResult); AStr packageName]])%list
  end.

(** SUMMARY *)
Definition summary_text (p1 : Phase1) (p2 : Phase2) (r : result IterativeActivationResult)
    (skipped : list DeploymentObject) : list Piece :=
  ([Str ("\n" ++ Repeat "=" 60 ++ "\n");
    Fmt "Deployment complete:\n" [];
    Fmt "  Phase 1 (Create):   %d ok, %d existed, %d failed\n"
      [anat (createSuccess p1); anat (createSkipped p1); anat (createFailed p1)];
    Fmt "  Phase 2 (Upload):   %d ok, %d failed\n"
      [anat (uploadSuccess p2); anat (uploadFailed p2)]]
   ++ match r with
      | Ok iterResult => [Fmt "  Phase 3 (Activate): %s\n" [AStr (Summary iterResult)]]
      | Err _ => []
      end
   ++ match uploadFailures p2 with
      | [] => []
      | fs => Str "\nUpload failures:\n" :: map (fun f => Fmt "  • %s\n" [f]) fs
      end
   ++ match skipped with
      | [] => []
      | _ => [Fmt "\n%d objects skipped (not supported via ADT native).\n"
                [anat (List.length skipped)];
              Str "Install ZADT_VSP to enable full object type support.\n"]
      end)%list.

(** What follows the plan when the run is not a dry run and there is
    something to deploy. *)
Definition deploy (source packageName : string) (deployable skipped : list DeploymentObject)
    (sb : list Piece) : M CallToolResult :=
  ensured <- ensure_package source packageName sb ;;
  match ensured with
  | inr failed => ret failed
  | inl sb =>
      let n := List.length deployable in
      p1 <- phase1 packageName n 0 deployable
              {| p1_sb := (sb ++ [Str "Phase 1: Creating objects...\n"])%list;
                 createSuccess := 0; createSkipped := 0; createFailed := 0 |} ;;
      let sb := (p1_sb p1 ++
                 [Fmt "\n  Phase 1 summary: %d created, %d existed, %d failed\n\n"
                    [anat (createSuccess p1); anat (createSkipped p1); anat (createFailed p1)];
                  Str "Phase 2: Uploading source code...\n"])%list in
      p2 <- phase2 n 0 deployable
              {| p2_sb := sb; uploadSuccess := 0; uploadFailed := 0; uploadFailures := [] |} ;;
      let sb := (p2_sb p2 ++
                 [Fmt "\n  Phase 2 summary: %d uploaded, %d failed\n\n"
                    [anat (uploadSuccess p2); anat (uploadFailed p2)];
                  Str "Phase 3: Iterative activation...\n"])%list in
      r <- ActivatePackageIterative c packageName 5 ;;
      ret (NewToolResultText
             (sb ++ phase3_text packageName r ++ summary_text p1 p2 r skipped)%list)
  end.

(** [func (s *Server) handleDeployZip(ctx, request)] *)
Definition handleDeployZip (args : Arguments) : M CallToolResult :=
  let source := string_arg args "source" in
  if String.eqb source "" then
    ret (newToolResultError
           (Str "source is required (e.g., 'abapgit-standalone', 'abapgit-full')"))
  else
  let packageName := string_arg args "package" in
  if String.eqb packageName "" then
    ret (newToolResultError (Str "package is required (e.g., '$ZGIT')"))
  else
  let packageName := ToUpper unicode_upper packageName in
  let dryRun := bool_arg args "dry_run" in
  let typeFilter := upper_arg unicode_upper args "type_filter" in
  let nameFilter := upper_arg unicode_upper args "name_filter" in
  match GetDependencyZIP source with
  | None =>
      let names := map di_Name (filter Available GetAvailableDependencies) in
      ret (newToolResultError
             (Fmt "Source '%s' not found. Available: %s" [AStr source; AStr (Join names ", ")]))
  | Some zipData =>
  let sb :=
    [Fmt "DeployZip: %s → %s\n" [AStr source; AStr packageName];
     Str (Repeat "=" 60 ++ "\n\n");
     Fmt "Source: %s (%d bytes)\n" [AStr source; anat (List.length zipData)];
     Fmt "Target: %s\n\n" [AStr packageName]] in
  match UnzipInMemory unicode_upper zip_NewReader zipData with
  | Err err => ret (newToolResultError (Fmt "Failed to parse ZIP: %v" [AStr err]))
  | Ok files =>
  let plan := CreateDeploymentPlan source packageName files in
  let sb := (sb ++ [Fmt "Found %d objects in %d files\n\n"
                      [anat (TotalObjects plan); anat (TotalFiles plan)]])%list in
  let deployable := deployable_of typeFilter nameFilter (Objects plan) in
  let skipped := skipped_of typeFilter nameFilter (Objects plan) in
  let sb := (sb ++ plan_text deployable skipped)%list in
  if dryRun then
    ret (NewToolResultText (sb ++ [Str "Dry run - no changes made.\n"])%list)
  else if (List.length deployable =? 0)%nat then
    ret (NewToolResultText (sb ++ [Str "Nothing to deploy.\n"])%list)
  else deploy source packageName deployable skipped sb
  end end.

End Handler.

(** *** Vocabulary of the specification *)

(** The calls PHASE 2 makes for one object when every call succeeds or only
    the upload or the unlock fails: Lock, PUT of the main source, Unlock. *)
Definition lock_put_unlock (objectURL : string) (obj : DeploymentObject) (evs : Trace) : Prop :=
  exists lock r r',
    evs = [EvLockObject objectURL "MODIFY" (Ok lock);
           EvUpdateSource (objectURL ++ "/source/main") (MainSource obj) (LockHandle lock) "" r;
           EvUnlockObject objectURL (LockHandle lock) r'].

(** The calls PHASE 2 makes for one object when the lock is refused. *)
Definition lock_refused (objectURL : string) (evs : Trace) : Prop :=
  exists err, evs = [EvLockObject objectURL "MODIFY" (Err err)].

(** The upload of an object failed: its lock or its PUT returned an error. *)
Definition block_failed (evs : Trace) : bool :=
  match evs with
  | EvLockObject _ _ (Err _) :: _ => true
  | _ :: EvUpdateSource _ _ _ _ (Err _) :: _ => true
  | _ => false
  end.

(** The upload of an object went through: its PUT returned no error. *)
Definition block_uploaded (evs : Trace) : bool :=
  match evs with
  | _ :: EvUpdateSource _ _ _ _ (Ok _) :: _ => true
  | _ => false
  end.

Section Phase2.
Variable unicode_lower : string -> string.
Variable PathEscape : string -> string.

(** The specification's reading: for every object Lock, PUT, Unlock. *)
Definition always_lock_put_unlock (obj : DeploymentObject) (evs : Trace) : Prop :=
  match lookup objectTypeMapping (Type_ obj) with
  | Some (_, urlPattern) =>
      lock_put_unlock (upload_url unicode_lower PathEscape urlPattern obj) obj evs
  | None => False
  end.

(** What the loop does for one object: nothing for a type without mapping
    (none is in [deployable]), the Lock alone when it is refused, else Lock,
    PUT, Unlock. *)
Definition upload_calls (obj : DeploymentObject) (evs : Trace) : Prop :=
  match lookup objectTypeMapping (Type_ obj) with
  | Some (_, urlPattern) =>
      let objectURL := upload_url unicode_lower PathEscape urlPattern obj in
      lock_refused objectURL evs \/ lock_put_unlock objectURL obj evs
  | None => evs = []
  end.

(** The calls of the phase, object by object. *)
Definition phase2_as_specified (objs : list DeploymentObject) (tr : Trace) : Prop :=
  exists blocks, tr = List.concat blocks /\ Forall2 always_lock_put_unlock objs blocks.

Definition phase2_as_built (objs : list DeploymentObject) (before after : Phase2)
    (tr : Trace) : Prop :=
  exists blocks,
    tr = List.concat blocks /\
    Forall2 upload_calls objs blocks /\
    uploadFailed after = uploadFailed before + List.length (filter block_failed blocks) /\
    uploadSuccess after = uploadSuccess before + List.length (filter block_uploaded blocks).

End Phase2.

End Handlers.

(* ================================================================== *)
(** ** The lock discipline of the workflows, read off their calls       *)
(* ================================================================== *)

Module Discipline.
Import GoStrings Codec Client Workflow.
Local Open Scope string_scope.

(** The lock a run holds, as its calls show it: a successful [LockObject]
    sets it to the handle returned, any [UnlockObject] clears it.  A call
    that writes to the object ([UpdateSource], [CreateTestInclude],
    [UpdateClassInclude]) is under the lock when it carries that handle. *)
Definition carries (held : option string) (lockHandle : string) : bool :=
  match held with
  | Some h => String.eqb h lockHandle
  | None => false
  end.

Fixpoint writes_under_lock (held : option string) (tr : Trace) : bool :=
  match tr with
  | [] => true
  | EvLockObject _ _ (Ok lock) :: rest => writes_under_lock (Some (LockHandle lock)) rest
  | EvUnlockObject _ _ _ :: rest => writes_under_lock None rest
  | EvUpdateSource _ _ lockHandle _ _ :: rest =>
      carries held lockHandle && writes_under_lock held rest
  | EvCreateTestInclude _ lockHandle _ _ :: rest =>
      carries held lockHandle && writes_under_lock held rest
  | EvUpdateClassInclude _ _ _ lockHandle _ _ :: rest =>
      carries held lockHandle && writes_under_lock held rest
  | _ :: rest => writes_under_lock held rest
  end.

(** The calls of a write that went through, for an object at [objectURL]. *)
Definition write_calls (objectURL objectName source transport : string)
    (diags : list SyntaxCheckResult) (lock : LockResult) (act : ActivationResult) : Trace :=
  [ EvSyntaxCheck objectURL source (Ok diags);
    EvLockObject objectURL "MODIFY" (Ok lock);
    EvUpdateSource (objectURL ++ "/source/main") source (LockHandle lock) transport (Ok tt);
    EvUnlockObject objectURL (LockHandle lock) (Ok tt);
    EvActivate objectURL objectName (Ok act) ].

(** The calls of [CreateAndActivateProgram] when it went through. *)
Definition create_program_calls (programName description packageName source transport : string)
    (lock : LockResult) (act : ActivationResult) : Trace :=
  let objectURL := "/sap/bc/adt/programs/programs/" ++ programName in
  [ EvCreateObject
      {| ObjectType := ObjectTypeProgram; Name := programName; Description := description;
         PackageName := packageName; Transport := transport; Responsible := "";
         ParentName := "" |} (Ok tt);
    EvLockObject objectURL "MODIFY" (Ok lock);
    EvUpdateSource (objectURL ++ "/source/main") source (LockHandle lock) transport (Ok tt);
    EvUnlockObject objectURL (LockHandle lock) (Ok tt);
    EvActivate objectURL programName (Ok act) ].

(** The calls of [CreateClassWithTests] when the class was created and
    activated; [tested] is what the run of the unit tests returned. *)
Definition class_with_tests_calls (className description packageName classSource testSource
    transport : string) (lock : LockResult) (act : ActivationResult)
    (tested : result UnitTestResult) : Trace :=
  let objectURL := "/sap/bc/adt/oo/classes/" ++ className in
  [ EvCreateObject
      {| ObjectType := ObjectTypeClass; Name := className; Description := description;
         PackageName := packageName; Transport := transport; Responsible := "";
         ParentName := "" |} (Ok tt);
    EvLockObject objectURL "MODIFY" (Ok lock);
    EvUpdateSource (objectURL ++ "/source/main") classSource (LockHandle lock) transport (Ok tt);
    EvCreateTestInclude className (LockHandle lock) transport (Ok tt);
    EvUpdateClassInclude className ClassIncludeTestClasses testSource (LockHandle lock)
      transport (Ok tt);
    EvUnlockObject objectURL (LockHandle lock) (Ok tt);
    EvActivate objectURL className (Ok act);
    EvRunUnitTests objectURL DefaultUnitTestFlags tested ].

(** [result.UnitTestResult] after the run of the unit tests. *)
Definition test_result_of (tested : result UnitTestResult) : option UnitTestResult :=
  match tested with Ok testResult => Some testResult | Err _ => None end.

End Discipline.

(* ================================================================== *)
(** ** Deployment engine: the archive, the groups, the plan             *)
(* ================================================================== *)

Module Plans.
Import GoStrings Deps.
Local Open Scope string_scope.

(** The source files and the XML metadata files of an archive. *)
Definition sources_of (files : list ABAPFile) : list ABAPFile :=
  filter (fun f => negb (IsXML f)) files.
Definition metadata_of (files : list ABAPFile) : list ABAPFile :=
  filter IsXML files.

(** The files of one object, in the order of the list. *)
Definition files_of_key (key : string) (files : list ABAPFile) : list ABAPFile :=
  filter (fun f => String.eqb (group_key f) key) files.

(** The keys of a list of files, each once, in the order of first
    occurrence. *)
Fixpoint first_keys (seen : list string) (files : list ABAPFile) : list string :=
  match files with
  | [] => []
  | f :: rest =>
      if existsb (String.eqb (group_key f)) seen then first_keys seen rest
      else group_key f :: first_keys (group_key f :: seen) rest
  end.

(** The key of the files an object of the plan was built from. *)
Definition object_key (obj : DeploymentObject) : string := Type_ obj ++ "/" ++ Name obj.

(** The body of the loop of [GroupByObject], and the group of a key after
    more files were appended to it. *)
Definition group_step (groups : list (string * list ABAPFile)) (f : ABAPFile) :=
  let key := group_key f in
  let old := match lookup groups key with Some l => l | None => [] end in
  map_set groups key (old ++ [f])%list.

Definition joined (old : option (list ABAPFile)) (more : list ABAPFile)
    : option (list ABAPFile) :=
  match old, more with
  | None, [] => None
  | None, _ => Some more
  | Some l, _ => Some (l ++ more)%list
  end.

(** The main source of an object: a source file without include type. *)
Definition is_main (f : ABAPFile) : bool :=
  negb (IsXML f) && String.eqb (IncludeType f) "".

(** The content of the last file of a kind among the files of an object,
    empty when there is none. *)
Definition last_content (kind : ABAPFile -> bool) (group : list ABAPFile) : string :=
  last (map Content (filter kind group)) "".

(** What [CreateDeploymentPlan] puts into an object, read off the files of
    its key in deployment order. *)
Definition built_from (sorted : list ABAPFile) (obj : DeploymentObject) : Prop :=
  let group := files_of_key (object_key obj) sorted in
  group <> [] /\
  XMLMetadata obj = last_content IsXML group /\
  MainSource obj = last_content is_main group /\
  Description obj = ExtractDescription (XMLMetadata obj).

End Plans.

Module Archive.
Import GoStrings Deps.
Local Open Scope string_scope.

(** The extensions [isAbapGitFile] accepts. *)
Definition extensions : list string := [".abap"; ".asddls"; ".asbdef"; ".srvdsrv"; ".xml"].

(** The name abapGit gives a file: the object name, the type suffix, the
    include type when the file is an include, the extension. *)
Definition abapgit_name (name suffix include ext : string) : string :=
  name ++ "." ++ suffix ++ (if String.eqb include "" then "" else "." ++ include) ++ ext.

Section Entries.
Variable unicode : string -> string.

(** The entries [UnzipInMemory] does not skip, whether one of them can be
    opened and read, and the file it gives. *)
Definition wanted (f : ZipEntry) : bool :=
  negb (ze_IsDir f) && isAbapGitFile (Base (ze_Name f)).

Definition readable (f : ZipEntry) : bool :=
  match ze_Open f, ze_ReadAll f with
  | Ok _, Ok _ => true
  | _, _ => false
  end.

Definition file_of (f : ZipEntry) : ABAPFile :=
  let filename := Base (ze_Name f) in
  let '(objectType, objectName, includeType, isXML) := ParseAbapGitFilename unicode filename in
  {| Path := ze_Name f; Filename := filename;
     ObjectType := objectType; ObjectName := objectName;
     IncludeType := includeType; IsXML := isXML;
     Content := match ze_ReadAll f with Ok content => content | Err _ => "" end |}.

(** The error [UnzipInMemory] returns for an entry it cannot open or
    read. *)
Definition read_error (f : ZipEntry) : string :=
  match ze_Open f with
  | Err err => "failed to open " ++ ze_Name f ++ ": " ++ err
  | Ok _ =>
      match ze_ReadAll f with
      | Err err => "failed to read " ++ ze_Name f ++ ": " ++ err
      | Ok _ => ""
      end
  end.

(** The files of an archive: those of the wanted entries, in the order of
    the archive, unless one of them cannot be read. *)
Definition files_of_entries (entries : list ZipEntry) : result (list ABAPFile) :=
  match find (fun f => negb (readable f)) (filter wanted entries) with
  | Some f => Err (read_error f)
  | None => Ok (map file_of (filter wanted entries))
  end.

End Entries.

End Archive.

(* ================================================================== *)
(** ** Deployment handler: the phases of a run                          *)
(* ================================================================== *)

Module Phases.
Import GoStrings Codec Client Deps Handlers.
Local Open Scope string_scope.

(** The part of a deployment a call belongs to: the package check and the
    creation of the package, PHASE 1 (creation of an object), PHASE 2 (lock,
    upload, unlock), PHASE 3 (activation of the package). *)
Inductive Phase : Type :=
| PackagePhase | CreatePhase | UploadPhase | ActivatePhase | NoPhase.

Definition phase_of (e : Event) : Phase :=
  match e with
  | EvGetPackage _ _ => PackagePhase
  | EvCreateObject opts _ =>
      match Client.ObjectType opts with
      | ObjectTypePackage => PackagePhase
      | _ => CreatePhase
      end
  | EvLockObject _ _ _ | EvUpdateSource _ _ _ _ _ | EvUnlockObject _ _ _ => UploadPhase
  | EvActivatePackageIterative _ _ _ => ActivatePhase
  | _ => NoPhase
  end.

(** The options PHASE 1 creates an object with. *)
Definition create_options (packageName : string) (creatableType : CreatableObjectType)
    (obj : DeploymentObject) : CreateObjectOptions :=
  {| Client.ObjectType := creatableType; Client.Name := Deps.Name obj;
     Client.Description := if String.eqb (Deps.Description obj) "" then Deps.Name obj
                           else Deps.Description obj;
     Client.PackageName := packageName; Client.Transport := "";
     Client.Responsible := ""; Client.ParentName := "" |}.

(** The objects a phase works on: those whose type has a mapping. *)
Definition mapped_objects (objs : list DeploymentObject) : list DeploymentObject :=
  filter mapped objs.

(** The options of the [CreateObject] calls of a trace, in order. *)
Fixpoint creations (tr : Trace) : list CreateObjectOptions :=
  match tr with
  | [] => []
  | EvCreateObject opts _ :: rest => opts :: creations rest
  | _ :: rest => creations rest
  end.

Definition options_of (packageName : string) (obj : DeploymentObject)
    : option CreateObjectOptions :=
  match lookup objectTypeMapping (Deps.Type_ obj) with
  | Some (creatableType, _) => Some (create_options packageName creatableType obj)
  | None => None
  end.

Fixpoint keep_some {A} (l : list (option A)) : list A :=
  match l with
  | [] => []
  | Some a :: rest => a :: keep_some rest
  | None :: rest => keep_some rest
  end.

(** The phases of the calls of a deployment of [n] objects that went
    through: the package check, with the creation of the package when it
    was missing; one creation per object; for each object between one and
    three calls of the upload; the activation. *)
Definition three_phases (n : nat) (phases : list Phase) : Prop :=
  exists p u,
    phases = (repeat PackagePhase p ++ repeat CreatePhase n ++ repeat UploadPhase u
              ++ [ActivatePhase])%list /\
    1 <= p <= 2 /\ n <= u <= 3 * n.

End Phases.

(* ================================================================== *)
(** ** Deployment handler: the plan of a dry run                        *)
(* ================================================================== *)

Module DryRun.
Import GoStrings Deps Handlers Plans.
Local Open Scope string_scope.

(** What a dry run answers, written from the files of the archive and
    not from the plan the handler builds: the statement about dry runs
    compares the handler with it. *)

(** An object of an archive as the plan shows it: its kind, its name and
    the include types it has files for. *)
Record Entry : Type := {
  kind : string;
  name : string;
  include_types : list string
}.

(** The strings of a list, each once, in the order of first occurrence. *)
Fixpoint once (seen l : list string) : list string :=
  match l with
  | [] => []
  | x :: rest =>
      if existsb (String.eqb x) seen then once seen rest
      else x :: once (x :: seen) rest
  end.

(** The first file of every key TYPE/NAME of a list of files. *)
Fixpoint first_files (seen : list string) (files : list ABAPFile) : list ABAPFile :=
  match files with
  | [] => []
  | f :: rest =>
      if existsb (String.eqb (group_key f)) seen then first_files seen rest
      else f :: first_files (group_key f :: seen) rest
  end.

(** A source file that is an include of its object. *)
Definition is_include (f : ABAPFile) : bool :=
  negb (IsXML f) && negb (String.eqb (IncludeType f) "").

(** The objects of an archive: one for every key TYPE/NAME of its files,
    in the deployment order of the first file of each; the kind and the
    name are those of that file, the include types those of the include
    files that have its key. *)
Definition entry_of (sorted : list ABAPFile) (f : ABAPFile) : Entry :=
  {| kind := ObjectType f; name := ObjectName f;
     include_types :=
       once [] (map IncludeType (filter is_include (files_of_key (group_key f) sorted))) |}.

Definition entries (files : list ABAPFile) : list Entry :=
  let sorted := DeploymentOrder files in
  map (entry_of sorted) (first_files [] sorted).

(** The kinds the handler deploys itself; the others are skipped. *)
Definition native_kinds : list string := ["PROG"; "CLAS"; "INTF"; "DDLS"; "BDEF"; "SRVD"].
Definition native (e : Entry) : bool := existsb (String.eqb (kind e)) native_kinds.

(** The filters of a run: the kind is the one asked for, the name contains
    what is asked for once its stars are removed; an empty filter lets
    every object pass. *)
Definition passes (typeFilter nameFilter : string) (e : Entry) : bool :=
  (String.eqb typeFilter "" || String.eqb (kind e) typeFilter) &&
  (String.eqb nameFilter "" || Contains (name e) (ReplaceAll nameFilter "*" "")).

(** What a deployment object shows of itself in the plan. *)
Definition shown (obj : DeploymentObject) : Entry :=
  {| kind := Type_ obj; name := Deps.Name obj; include_types := map fst (Includes obj) |}.

Section Report.
Variable unicode_upper : string -> string.
Variable zip_NewReader : list byte -> result (list ZipEntry).
Variable GetDependencyZIP : string -> option (list byte).
Variable range_order : nat -> list string -> list string.

(** The archive a run has to plan, or the error the run ends with: source
    and package are required, the lookup must have an archive for the
    source, and the archive must unpack. *)
Definition archive_of (args : Arguments) : Piece + (list byte * list ABAPFile) :=
  let source := string_arg args "source" in
  if String.eqb source "" then
    inl (Str "source is required (e.g., 'abapgit-standalone', 'abapgit-full')")
  else if String.eqb (string_arg args "package") "" then
    inl (Str "package is required (e.g., '$ZGIT')")
  else
    match GetDependencyZIP source with
    | None =>
        inl (Fmt "Source '%s' not found. Available: %s"
               [AStr source;
                AStr (Join (map di_Name (filter Available GetAvailableDependencies)) ", ")])
    | Some zipData =>
        match UnzipInMemory unicode_upper zip_NewReader zipData with
        | Err err => inl (Fmt "Failed to parse ZIP: %v" [AStr err])
        | Ok files => inr (zipData, files)
        end
    end.

(** The lines of the deployable objects, from the [i]-th on: kind, name,
    and the include types in the order the run visits them. *)
Fixpoint deployable_lines (i : nat) (l : list Entry) : list Piece :=
  match l with
  | [] => []
  | e :: rest =>
      Fmt "  ✓ %-6s %-40s%s\n"
        [AStr (kind e); AStr (name e);
         match include_types e with
         | [] => AStr ""
         | types => ASprintf " [+%s]" [AStr (Join (range_order i types) ",")]
         end]
      :: deployable_lines (S i) rest
  end.

Definition skipped_part (l : list Entry) : list Piece :=
  match l with
  | [] => []
  | _ => Str "\n  Skipped (requires ZADT_VSP):\n" ::
         map (fun e => Fmt "  ⊘ %-6s %s\n" [AStr (kind e); AStr (name e)]) l
  end.

(** The plan of a dry run over the files of an archive: the counts, the
    deployable objects and the skipped objects among those that pass the
    filters, and the note that nothing was changed. *)
Definition plan_report (args : Arguments) (zipData : list byte) (files : list ABAPFile)
    : list Piece :=
  let source := string_arg args "source" in
  let packageName := ToUpper unicode_upper (string_arg args "package") in
  let typeFilter := upper_arg unicode_upper args "type_filter" in
  let nameFilter := upper_arg unicode_upper args "name_filter" in
  let objects := entries files in
  let deployable :=
    filter (fun e => passes typeFilter nameFilter e && native e) objects in
  let skipped :=
    filter (fun e => passes typeFilter nameFilter e && negb (native e)) objects in
  ([Fmt "DeployZip: %s → %s\n" [AStr source; AStr packageName];
    Str (Repeat "=" 60 ++ "\n\n");
    Fmt "Source: %s (%d bytes)\n" [AStr source; anat (List.length zipData)];
    Fmt "Target: %s\n\n" [AStr packageName];
    Fmt "Found %d objects in %d files\n\n"
      [anat (List.length objects); anat (List.length files)];
    Fmt "Deployment Plan (%d deployable, %d skipped):\n"
      [anat (List.length deployable); anat (List.length skipped)];
    Str (Repeat "-" 60 ++ "\n")]
   ++ deployable_lines 0 deployable
   ++ skipped_part skipped
   ++ [Str (Repeat "-" 60 ++ "\n\n");
       Str "Dry run - no changes made.\n"])%list.

End Report.

(** The specification's reading of a dry run: no call, and the plan with
    its counts as the result. *)
Definition returns_plan (r : CallToolResult) : Prop :=
  IsError r = false /\
  exists d s, In (Fmt "Deployment Plan (%d deployable, %d skipped):\n" [anat d; anat s])
                 (Text r).

End DryRun.

(* ================================================================== *)
(** ** Safety gate: the checks and the description                      *)
(* ================================================================== *)

Module Gate.
Import GoStrings Safety.
Local Open Scope string_scope.

(** [fmt]'s [%v] of a [[]string]: the elements between brackets, separated
    by spaces. *)
Definition sprint_strings (l : list string) : string :=
  "[" ++ Handlers.Join l " " ++ "]".

Section Checks.
(** The Unicode path of [strings.ToUpper]. *)
Variable unicode : string -> string.

(** [func (s *SafetyConfig) CheckOperation(op OperationType, opName string) error] *)
Definition CheckOperation (s : SafetyConfig) (op : OperationType) (opName : string)
    : result unit :=
  if negb (IsOperationAllowed s op)
  then Err ("operation '" ++ opName ++ "' (type " ++ String (opChar op) ""
            ++ ") is blocked by safety configuration")
  else Ok tt.

(** [func (s *SafetyConfig) CheckPackage(pkg string) error] *)
Definition CheckPackage (s : SafetyConfig) (pkg : string) : result unit :=
  if negb (IsPackageAllowed unicode s pkg)
  then Err ("operations on package '" ++ pkg
            ++ "' are blocked by safety configuration (allowed: "
            ++ sprint_strings (AllowedPackages s) ++ ")")
  else Ok tt.

(** [func (s *SafetyConfig) IsTransportAllowed(transport string) bool]; the
    loop over [s.AllowedTransports] has the body of the loop over
    [s.AllowedPackages]. *)
Definition IsTransportAllowed (s : SafetyConfig) (transport : string) : bool :=
  if negb (EnableTransports s) then false
  else if (List.length (AllowedTransports s) =? 0)%nat then true
  else
    let transport := ToUpper unicode transport in
    existsb (pattern_matches unicode transport) (AllowedTransports s).

(** [func (s *SafetyConfig) IsTransportWriteAllowed() bool] *)
Definition IsTransportWriteAllowed (s : SafetyConfig) : bool :=
  if negb (EnableTransports s) then false
  else negb (TransportReadOnly s).

(** [func (s *SafetyConfig) CheckTransport(transport, opName string,
    isWrite bool) error] *)
Definition CheckTransport (s : SafetyConfig) (transport opName : string) (isWrite : bool)
    : result unit :=
  if negb (EnableTransports s) then
    Err ("transport operation '" ++ opName ++ "' is blocked: transports not enabled "
         ++ "(use --enable-transports or SAP_ENABLE_TRANSPORTS=true)")
  else if isWrite && TransportReadOnly s then
    Err ("transport write operation '" ++ opName
         ++ "' is blocked: transport read-only mode enabled")
  else if nonempty transport && negb (String.eqb transport "*")
          && (0 <? List.length (AllowedTransports s))%nat
          && negb (IsTransportAllowed s transport) then
    Err ("operation '" ++ opName ++ "' on transport '" ++ transport
         ++ "' is blocked by safety configuration (allowed: "
         ++ sprint_strings (AllowedTransports s) ++ ")")
  else Ok tt.

(** A pattern of an allow-list covers a name: they are the same up to
    case, or the pattern ends in a star and the name starts, up to case,
    with what is in front of the star. *)
Definition covers (pattern name : string) : Prop :=
  ToUpper unicode pattern = ToUpper unicode name \/
  exists stem rest,
    ToUpper unicode pattern = stem ++ "*" /\ ToUpper unicode name = stem ++ rest.

End Checks.

(** [func (s *SafetyConfig) String() string] *)
Definition add_part (condition : bool) (part : string) (parts : list string) : list string :=
  if condition then (parts ++ [part])%list else parts.

Definition SafetyConfig_String (s : SafetyConfig) : string :=
  let parts := [] in
  let parts := add_part (ReadOnly s) "READ-ONLY" parts in
  let parts := add_part (BlockFreeSQL s) "NO-FREE-SQL" parts in
  let parts := add_part (DryRun s) "DRY-RUN" parts in
  let parts := add_part (nonempty (AllowedOps s)) ("AllowedOps=" ++ AllowedOps s) parts in
  let parts :=
    add_part (nonempty (DisallowedOps s)) ("DisallowedOps=" ++ DisallowedOps s) parts in
  let parts :=
    add_part (0 <? List.length (AllowedPackages s))%nat
      ("AllowedPackages=" ++ sprint_strings (AllowedPackages s)) parts in
  let parts :=
    if EnableTransports s then
      let parts := (parts ++ ["TRANSPORTS-ENABLED"])%list in
      let parts := add_part (TransportReadOnly s) "TRANSPORT-READ-ONLY" parts in
      add_part (0 <? List.length (AllowedTransports s))%nat
        ("AllowedTransports=" ++ sprint_strings (AllowedTransports s)) parts
    else parts in
  if (List.length parts =? 0)%nat then "UNRESTRICTED"
  else Handlers.Join parts ", ".

(** A list of parts whose first one does not begin with the letter U. *)
Definition headed (parts : list string) : Prop :=
  exists c rest more, parts = String c rest :: more /\ c <> "U"%char.

(** A configuration that restricts nothing [String] reports. *)
Definition unrestricted (s : SafetyConfig) : Prop :=
  ReadOnly s = false /\ BlockFreeSQL s = false /\ DryRun s = false /\
  AllowedOps s = "" /\ DisallowedOps s = "" /\ AllowedPackages s = [] /\
  EnableTransports s = false.

End Gate.

(* ================================================================== *)
(** ** Transport requests of the client (package adt)                   *)
(* ================================================================== *)

Module Transports.
Import GoStrings Safety Gate.
Local Open Scope string_scope.

(** [type RequestOptions struct], as far as the transport operations fill
    it, and a request with its path. *)
Record RequestOptions : Type := {
  Method : string;
  Query : list (string * string);
  Body : string;
  ContentType : string;
  Accept : string
}.
Definition Request : Type := (string * RequestOptions)%type.

(** [type ReleaseTransportOptions struct] *)
Record ReleaseTransportOptions : Type := {
  IgnoreLocks : bool;
  SkipATC : bool
}.

Section Operations.
(** The Unicode path of [strings.ToUpper]. *)
Variable unicode : string -> string.
(** [c.config.Safety] *)
Variable safety : SafetyConfig.
(** [c.transport.Request]: the body of the response, or an error. *)
Variable transport_Request : string -> RequestOptions -> result string.

(** An operation returns its error and the requests it sent. *)
Definition send (path : string) (opts : RequestOptions) (wrap : string -> string)
    : result unit * list Request :=
  match transport_Request path opts with
  | Err err => (Err (wrap err), [(path, opts)])
  | Ok _ => (Ok tt, [(path, opts)])
  end.

(** [func (c *Client) DeleteTransport(ctx, number string) error] *)
Definition DeleteTransport (number : string) : result unit * list Request :=
  match CheckTransport unicode safety number "DeleteTransport" true with
  | Err err => (Err err, [])
  | Ok _ =>
      if String.eqb number "" then (Err "transport number is required", [])
      else
        let path := "/sap/bc/adt/cts/transportrequests/" ++ ToUpper unicode number in
        send path
          {| Method := "DELETE"; Query := []; Body := ""; ContentType := ""; Accept := "" |}
          (fun err => "deleting transport " ++ number ++ ": " ++ err)
  end.

(** [func (c *Client) ReleaseTransportV2(ctx, number string,
    opts ReleaseTransportOptions) error] *)
Definition release_action (opts : ReleaseTransportOptions) : string :=
  let action := "newreleasejobs" in
  let action := if IgnoreLocks opts then "relwithignlock" else action in
  if SkipATC opts then "relObjigchkatc" else action.

Definition ReleaseTransportV2 (number : string) (opts : ReleaseTransportOptions)
    : result unit * list Request :=
  match CheckTransport unicode safety number "ReleaseTransport" true with
  | Err err => (Err err, [])
  | Ok _ =>
      if String.eqb number "" then (Err "transport number is required", [])
      else
        let action := release_action opts in
        let path := "/sap/bc/adt/cts/transportrequests/" ++ ToUpper unicode number
                    ++ "/" ++ action in
        send path
          {| Method := "POST"; Query := []; Body := ""; ContentType := "";
             Accept := "application/vnd.sap.adt.transportrequests.v1+xml" |}
          (fun err => "releasing transport " ++ number ++ ": " ++ err)
  end.

(** A write to a transport goes out: transports are enabled and not
    read-only, a number is given, and it is the star or an allowed
    transport. *)
Definition write_goes_out (number : string) : bool :=
  EnableTransports safety && negb (TransportReadOnly safety) &&
  nonempty number &&
  (String.eqb number "*" || IsTransportAllowed unicode safety number).

End Operations.

End Transports.

(* ================================================================== *)
(** ** Object creation and object URLs: crud.go                         *)
(* ================================================================== *)

Module Crud.
Import GoStrings Transports.
Local Open Scope string_scope.

(** The double quote and the line feed of the Go literals. *)
Definition dq : string := String "034"%char "".
Definition nl : string := String "010"%char "".

(** [type CreatableObjectType string] and its constants, as the strings
    they are. *)
Definition ObjectTypeProgram : string := "PROG/P".
Definition ObjectTypeInclude : string := "PROG/I".
Definition ObjectTypeClass : string := "CLAS/OC".
Definition ObjectTypeInterface : string := "INTF/OI".
Definition ObjectTypeFunctionGroup : string := "FUGR/F".
Definition ObjectTypeFunctionMod : string := "FUGR/FF".
Definition ObjectTypeTable : string := "TABL/DT".
Definition ObjectTypePackage : string := "DEVC/K".

(** [type CreateObjectOptions struct] *)
Record CreateObjectOptions : Type := {
  ObjectType : string;
  Name : string;
  Description : string;
  PackageName : string;
  Transport : string;
  Responsible : string;
  ParentName : string
}.

(** [type objectTypeInfo struct] *)
Record objectTypeInfo : Type := {
  creationPath : string;
  rootName : string;
  namespace : string
}.

(** [var objectTypes = map[CreatableObjectType]objectTypeInfo{...}] *)
Definition objectTypes : list (string * objectTypeInfo) :=
  [(ObjectTypeProgram,
    {| creationPath := "/sap/bc/adt/programs/programs";
       rootName := "program:abapProgram";
       namespace := "xmlns:program=" ++ dq
                   ++ "http://www.sap.com/adt/programs/programs" ++ dq |});
   (ObjectTypeInclude,
    {| creationPath := "/sap/bc/adt/programs/includes";
       rootName := "include:abapInclude";
       namespace := "xmlns:include=" ++ dq
                   ++ "http://www.sap.com/adt/programs/includes" ++ dq |});
   (ObjectTypeClass,
    {| creationPath := "/sap/bc/adt/oo/classes";
       rootName := "class:abapClass";
       namespace := "xmlns:class=" ++ dq
                   ++ "http://www.sap.com/adt/oo/classes" ++ dq |});
   (ObjectTypeInterface,
    {| creationPath := "/sap/bc/adt/oo/interfaces";
       rootName := "intf:abapInterface";
       namespace := "xmlns:intf=" ++ dq
                   ++ "http://www.sap.com/adt/oo/interfaces" ++ dq |});
   (ObjectTypeFunctionGroup,
    {| creationPath := "/sap/bc/adt/functions/groups";
       rootName := "group:abapFunctionGroup";
       namespace := "xmlns:group=" ++ dq
                   ++ "http://www.sap.com/adt/functions/groups" ++ dq |});
   (ObjectTypeFunctionMod,
    {| creationPath := "/sap/bc/adt/functions/groups/%s/fmodules";
       rootName := "fmodule:abapFunctionModule";
       namespace := "xmlns:fmodule=" ++ dq
                   ++ "http://www.sap.com/adt/functions/fmodules" ++ dq |})].

(** [fmt.Sprintf(format, arg)] for a format whose verbs are one [%s]. *)
Fixpoint Sprintf_s (format arg : string) : string :=
  match format with
  | EmptyString => EmptyString
  | String c rest =>
      match c, rest with
      | "%"%char, String "s"%char after => arg ++ after
      | _, _ => String c (Sprintf_s rest arg)
      end
  end.

(** [func escapeXML(s string) string] *)
Definition escapeXML (s : string) : string :=
  let s := ReplaceAll s "&" "&amp;" in
  let s := ReplaceAll s "<" "&lt;" in
  let s := ReplaceAll s ">" "&gt;" in
  let s := ReplaceAll s dq "&quot;" in
  let s := ReplaceAll s "'" "&apos;" in
  s.

Section Requests.
(** The Unicode paths of [strings.ToUpper] and [strings.ToLower]. *)
Variable unicode_upper : string -> string.
Variable unicode_lower : string -> string.
(** [c.transport.Request]: the body of the response, or an error. *)
Variable transport_Request : string -> RequestOptions -> result string.

(** [func buildCreateObjectBody(opts CreateObjectOptions,
    typeInfo objectTypeInfo) string] *)
Definition buildCreateObjectBody (opts : CreateObjectOptions) (typeInfo : objectTypeInfo)
    : string :=
  let responsible := Responsible opts in
  let responsible := if String.eqb responsible "" then "DEVELOPER" else responsible in
  if String.eqb (ObjectType opts) ObjectTypeFunctionMod then
    "<?xml version=" ++ dq ++ "1.0" ++ dq ++ " encoding=" ++ dq ++ "UTF-8" ++ dq ++ "?>" ++ nl
    ++ "<" ++ rootName typeInfo ++ " " ++ namespace typeInfo
    ++ " xmlns:adtcore=" ++ dq ++ "http://www.sap.com/adt/core" ++ dq ++ nl
    ++ "  adtcore:description=" ++ dq ++ escapeXML (Description opts) ++ dq ++ nl
    ++ "  adtcore:name=" ++ dq ++ Name opts ++ dq ++ nl
    ++ "  adtcore:type=" ++ dq ++ ObjectType opts ++ dq ++ nl
    ++ "  adtcore:responsible=" ++ dq ++ responsible ++ dq ++ ">" ++ nl
    ++ "  <adtcore:containerRef adtcore:name=" ++ dq
    ++ ToUpper unicode_upper (ParentName opts) ++ dq
    ++ " adtcore:type=" ++ dq ++ "FUGR/F" ++ dq ++ nl
    ++ "    adtcore:uri=" ++ dq ++ "/sap/bc/adt/functions/groups/"
    ++ ToLower unicode_lower (ParentName opts) ++ dq ++ "/>" ++ nl
    ++ "</" ++ rootName typeInfo ++ ">"
  else
    "<?xml version=" ++ dq ++ "1.0" ++ dq ++ " encoding=" ++ dq ++ "UTF-8" ++ dq ++ "?>" ++ nl
    ++ "<" ++ rootName typeInfo ++ " " ++ namespace typeInfo
    ++ " xmlns:adtcore=" ++ dq ++ "http://www.sap.com/adt/core" ++ dq ++ nl
    ++ "  adtcore:description=" ++ dq ++ escapeXML (Description opts) ++ dq ++ nl
    ++ "  adtcore:name=" ++ dq ++ Name opts ++ dq ++ nl
    ++ "  adtcore:type=" ++ dq ++ ObjectType opts ++ dq ++ nl
    ++ "  adtcore:responsible=" ++ dq ++ responsible ++ dq ++ ">" ++ nl
    ++ "  <adtcore:packageRef adtcore:name=" ++ dq ++ PackageName opts ++ dq ++ "/>" ++ nl
    ++ "</" ++ rootName typeInfo ++ ">".

(** [func (c *Client) CreateObject(ctx context.Context,
    opts CreateObjectOptions) error], with the requests it sent. *)
Definition CreateObject (opts : CreateObjectOptions) : result unit * list Request :=
  match Deps.lookup objectTypes (ObjectType opts) with
  | None => (Err ("unsupported object type: " ++ ObjectType opts), [])
  | Some typeInfo =>
      let opts :=
        {| ObjectType := ObjectType opts;
           Name := ToUpper unicode_upper (Name opts);
           Description := Description opts;
           PackageName := ToUpper unicode_upper (PackageName opts);
           Transport := Transport opts;
           Responsible := Responsible opts;
           ParentName := ParentName opts |} in
      let creationURL := creationPath typeInfo in
      let creationURL :=
        if String.eqb (ObjectType opts) ObjectTypeFunctionMod
           && negb (String.eqb (ParentName opts) "")
        then Sprintf_s (creationPath typeInfo) (ToUpper unicode_upper (ParentName opts))
        else creationURL in
      let body := buildCreateObjectBody opts typeInfo in
      let params := if String.eqb (Transport opts) "" then []
                    else [("corrNr", Transport opts)] in
      send transport_Request creationURL
        {| Method := "POST"; Query := params; Body := body;
           ContentType := "application/*"; Accept := "" |}
        (fun err => "creating object: " ++ err)
  end.

(** [func GetObjectURL(objectType CreatableObjectType, name string,
    parentName string) string] *)
Definition GetObjectURL (objectType name parentName : string) : string :=
  let name := ToUpper unicode_upper name in
  if String.eqb objectType ObjectTypeProgram then
    "/sap/bc/adt/programs/programs/" ++ name
  else if String.eqb objectType ObjectTypeInclude then
    "/sap/bc/adt/programs/includes/" ++ name
  else if String.eqb objectType ObjectTypeClass then
    "/sap/bc/adt/oo/classes/" ++ name
  else if String.eqb objectType ObjectTypeInterface then
    "/sap/bc/adt/oo/interfaces/" ++ name
  else if String.eqb objectType ObjectTypeFunctionGroup then
    "/sap/bc/adt/functions/groups/" ++ name
  else if String.eqb objectType ObjectTypeFunctionMod then
    let parentName := ToUpper unicode_upper parentName in
    "/sap/bc/adt/functions/groups/" ++ parentName ++ "/fmodules/" ++ name
  else "".

(** [func GetSourceURL(objectType CreatableObjectType, name string,
    parentName string) string] *)
Definition GetSourceURL (objectType name parentName : string) : string :=
  let objectURL := GetObjectURL objectType name parentName in
  if String.eqb objectURL "" then ""
  else objectURL ++ "/source/main".

End Requests.

(** What [escapeXML] writes for one byte. *)
Definition entity (c : ascii) : string :=
  if Ascii.eqb c "&" then "&amp;"
  else if Ascii.eqb c "<" then "&lt;"
  else if Ascii.eqb c ">" then "&gt;"
  else if Ascii.eqb c "034" then "&quot;"
  else if Ascii.eqb c "'" then "&apos;"
  else String c "".

Fixpoint each_byte (f : ascii -> string) (s : string) : string :=
  match s with
  | EmptyString => EmptyString
  | String c rest => f c ++ each_byte f rest
  end.

End Crud.

(* ================================================================== *)
(** ** Reading the base64 alphabet backwards                            *)
(* ================================================================== *)

Module Alphabet.
Import Base64.
Local Open Scope Z_scope.

(** The index of the first occurrence of a character in a string, the
    length of the string when there is none. *)
Fixpoint position (c : ascii) (s : string) : Z :=
  match s with
  | EmptyString => 0
  | String x rest => if Ascii.eqb x c then 0 else 1 + position c rest
  end.

End Alphabet.

(* ================================================================== *)
(** ** Concrete systems, documents and archives                         *)
(* ================================================================== *)

Module Samples.
Import GoStrings Safety Codec Client Workflow Deps Handlers.
Local Open Scope string_scope.
Local Open Scope list_scope.

(** The Unicode path of the case functions, not reached on ASCII text. *)
Definition ascii_only (s : string) : string := s.

(** Two safety configurations that differ in the case of their patterns. *)
Definition lower_patterns : SafetyConfig :=
  {| ReadOnly := false; BlockFreeSQL := true; AllowedOps := ""; DisallowedOps := "";
     AllowedPackages := ["$tmp"; "z*"]; DryRun := false; EnableTransports := false;
     TransportReadOnly := false; AllowedTransports := [] |}.
Definition upper_patterns : SafetyConfig :=
  {| ReadOnly := false; BlockFreeSQL := true; AllowedOps := ""; DisallowedOps := "";
     AllowedPackages := ["$TMP"; "Z*"]; DryRun := false; EnableTransports := false;
     TransportReadOnly := false; AllowedTransports := [] |}.

(** An activation response with one message whose type is the word
    WARNING, and its decoding. *)
Definition warning_xml : string :=
  "<response><messages><msg objDescr='Program ZTEST' type='WARNING' line='1'><shortText><txt>unused variable</txt></shortText></msg></messages></response>".

Definition warning_response : response :=
  {| resp_Messages :=
       [{| m_ObjDescr := "Program ZTEST"; m_Type := "WARNING"; m_Line := 1;
           m_Href := ""; m_ForceSupported := false; m_ShortText := "unused variable" |}];
     resp_Inactive := [] |}.

(** A decoder that knows this one document. *)
Definition decode_warning (data : string) : result response :=
  if String.eqb data warning_xml then Ok warning_response else Err "unexpected document".

(** A decoder that reports EOF on input without an element and an empty
    report list otherwise. *)
Definition decode_no_reports (data : string) : result checkRunReports :=
  if String.eqb data "" then Err "EOF" else Ok {| Reports := [] |}.

(** A system on which every call succeeds, the lock handle is H1, and the
    activation reports one error message. *)
Definition activation_error : ActivationResult :=
  {| Codec.Success := false;
     ar_Messages := [{| ObjDescr := "Program ZTEST"; Codec.Type_ := "E"; arm_Line := 3;
                        Href := ""; ForceSupported := false;
                        ShortText := "Field X is unknown" |}];
     Inactive := [] |}.

Definition lock_H1 : LockResult :=
  {| LockHandle := "H1"; CorrNr := ""; CorrUser := ""; CorrText := "";
     IsLocal := true; IsLinkUp := false; ModificationSupport := "" |}.

Definition activation_fails : Backend :=
  {| on_SyntaxCheck := fun _ _ _ => Ok [];
     on_LockObject := fun _ _ _ => Ok lock_H1;
     on_UnlockObject := fun _ _ _ => Ok tt;
     on_UpdateSource := fun _ _ _ _ _ => Ok tt;
     on_Activate := fun _ _ _ => Ok activation_error;
     on_CreateObject := fun _ _ => Ok tt;
     on_CreateTestInclude := fun _ _ _ _ => Ok tt;
     on_UpdateClassInclude := fun _ _ _ _ _ _ => Ok tt;
     on_RunUnitTests := fun _ _ _ => Ok {| Classes := [] |};
     on_GetPackage := fun _ _ => Ok {| pkg_URI := "/sap/bc/adt/packages/%24tmp" |};
     on_ActivatePackageIterative := fun _ _ _ => Err "not used" |}.

(** A system whose syntax check reports one error. *)
Definition one_error : list SyntaxCheckResult :=
  [{| URI := "/sap/bc/adt/programs/programs/ZTEST/source/main"; Line := 1; Offset := 0;
      Severity := "E"; Codec.Text := "REPORT expected" |}].

Definition syntax_error_backend : Backend :=
  {| on_SyntaxCheck := fun _ _ _ => Ok one_error;
     on_LockObject := fun _ _ _ => Ok lock_H1;
     on_UnlockObject := fun _ _ _ => Ok tt;
     on_UpdateSource := fun _ _ _ _ _ => Ok tt;
     on_Activate := fun _ _ _ => Ok activation_error;
     on_CreateObject := fun _ _ => Ok tt;
     on_CreateTestInclude := fun _ _ _ _ => Ok tt;
     on_UpdateClassInclude := fun _ _ _ _ _ _ => Ok tt;
     on_RunUnitTests := fun _ _ _ => Ok {| Classes := [] |};
     on_GetPackage := fun _ _ => Ok {| pkg_URI := "" |};
     on_ActivatePackageIterative := fun _ _ _ => Err "not used" |}.

(** The metadata of a domain and the source of a class, as
    [UnzipInMemory] produces them. *)
Definition zdom_xml : ABAPFile :=
  {| Path := "src/zdom.doma.xml"; Filename := "zdom.doma.xml"; ObjectType := "DOMA";
     ObjectName := "ZDOM"; IncludeType := ""; IsXML := true;
     Content := "<DD01V><DOMNAME>ZDOM</DOMNAME></DD01V>" |}.
Definition zcl_a_abap : ABAPFile :=
  {| Path := "src/zcl_a.clas.abap"; Filename := "zcl_a.clas.abap"; ObjectType := "CLAS";
     ObjectName := "ZCL_A"; IncludeType := ""; IsXML := false;
     Content := "CLASS zcl_a DEFINITION. ENDCLASS. CLASS zcl_a IMPLEMENTATION. ENDCLASS." |}.

(** A class to upload, and a system that refuses every lock. *)
Definition zcl_a : DeploymentObject :=
  {| Deps.Type_ := "CLAS"; Deps.Name := "ZCL_A"; Deps.Description := "Sample class";
     MainSource := "CLASS zcl_a DEFINITION. ENDCLASS. CLASS zcl_a IMPLEMENTATION. ENDCLASS.";
     Includes := []; XMLMetadata := "" |}.

Definition lock_refusing : Backend :=
  {| on_SyntaxCheck := fun _ _ _ => Ok [];
     on_LockObject := fun _ _ _ => Err "locking object: locked by user DEVELOPER";
     on_UnlockObject := fun _ _ _ => Ok tt;
     on_UpdateSource := fun _ _ _ _ _ => Ok tt;
     on_Activate := fun _ _ _ => Err "not used";
     on_CreateObject := fun _ _ => Ok tt;
     on_CreateTestInclude := fun _ _ _ _ => Ok tt;
     on_UpdateClassInclude := fun _ _ _ _ _ _ => Ok tt;
     on_RunUnitTests := fun _ _ _ => Err "not used";
     on_GetPackage := fun _ _ => Ok {| pkg_URI := "/sap/bc/adt/packages/%24zgit" |};
     on_ActivatePackageIterative := fun _ _ _ => Err "not used" |}.

Definition phase2_start : Phase2 :=
  {| p2_sb := []; uploadSuccess := 0; uploadFailed := 0; uploadFailures := [] |}.

(** An archive of two files and the arguments of a dry run over it. *)
Definition two_files : list ZipEntry :=
  [ {| ze_Name := "src/zcl_a.clas.abap"; ze_IsDir := false; ze_Open := Ok "";
       ze_ReadAll := Ok "CLASS zcl_a DEFINITION. ENDCLASS." |};
    {| ze_Name := "src/zdom.doma.xml"; ze_IsDir := false; ze_Open := Ok "";
       ze_ReadAll := Ok "<DD01V><DOMNAME>ZDOM</DOMNAME></DD01V>" |} ].

Definition read_two_files (zipData : list byte) : result (list ZipEntry) := Ok two_files.

(** The lookup of a build that embeds an archive for every source; the
    lookup as checked in is [GetDependencyZIP_placeholder]. *)
Definition embedded_archive (source : string) : option (list byte) := Some [].

(** An archive with a class that has two includes. *)
Definition class_with_includes : list ZipEntry :=
  [ {| ze_Name := "src/zcl_a.clas.abap"; ze_IsDir := false; ze_Open := Ok "";
       ze_ReadAll := Ok "CLASS zcl_a DEFINITION. ENDCLASS." |};
    {| ze_Name := "src/zcl_a.clas.locals_def.abap"; ze_IsDir := false; ze_Open := Ok "";
       ze_ReadAll := Ok "CLASS lcl_helper DEFINITION. ENDCLASS." |};
    {| ze_Name := "src/zcl_a.clas.testclasses.abap"; ze_IsDir := false; ze_Open := Ok "";
       ze_ReadAll := Ok "CLASS ltc_a DEFINITION FOR TESTING. ENDCLASS." |} ].
Definition read_class_with_includes (zipData : list byte) : result (list ZipEntry) :=
  Ok class_with_includes.

(** A run in which every range over a map visits the keys in the order
    they were inserted. *)
Definition in_given_order (i : nat) (keys : list string) : list string := keys.

(** A run in which every range over a map visits the keys last to first. *)
Definition last_to_first (i : nat) (keys : list string) : list string := rev keys.

Definition dry_run_args : Arguments :=
  [("source", VString "abapgit-standalone"); ("package", VString "$zgit");
   ("dry_run", VBool true)].

End Samples.

(* ================================================================== *)
(** * Properties                                                        *)
(* ================================================================== *)

(** ** Facts about the string functions *)

Module GoStringsFacts.
Import GoStrings.

Lemma ContainsRune_In (s : string) (r : ascii) :
  ContainsRune s r = true <-> In r (list_ascii_of_string s).
Proof.
  induction s as [|c s IH]; cbn.
  - split; [discriminate | tauto].
  - rewrite orb_true_iff, Ascii.eqb_eq, IH. tauto.
Qed.

Lemma isASCII_cons (c : ascii) (s : string) :
  isASCII (String c s) = (nat_of_ascii c <? 128)%nat && isASCII s.
Proof. reflexivity. Qed.

End GoStringsFacts.

(** ** The base64 encoder refines RFC 4648 *)

Module Base64Proofs.
Import Base64.
Local Open Scope Z_scope.

Lemma u8_range (b : byte) : 0 <= u8 b < 256.
Proof. unfold u8. pose proof (Byte.to_N_bounded b). lia. Qed.

Lemma testbit_high (x n : Z) : 0 <= x < 256 -> 8 <= n -> Z.testbit x n = false.
Proof.
  intros Hx Hn. destruct (Z.eq_dec x 0) as [->|Hnz].
  - apply Z.testbit_0_l.
  - apply Z.bits_above_log2; [lia|].
    apply Z.lt_le_trans with 8; [|lia].
    apply Z.log2_lt_pow2; lia.
Qed.

Lemma byte_bit_high (x : byte) (n : Z) : 8 <= n -> Z.testbit (u8 x) n = false.
Proof. intros. apply testbit_high; [apply u8_range | assumption]. Qed.

(** Every index below 64 selects in [base64Chars] the character the RFC
    table gives. *)
Lemma charAt_alphabet (v : Z) : 0 <= v < 64 -> charAt v = rfc_alphabet v.
Proof.
  intros Hv.
  assert (H : forallb (fun n => Ascii.eqb (charAt (Z.of_nat n)) (rfc_alphabet (Z.of_nat n)))
                (seq 0 64) = true) by (vm_compute; reflexivity).
  rewrite forallb_forall in H.
  specialize (H (Z.to_nat v)). rewrite Z2Nat.id in H by lia.
  apply Ascii.eqb_eq, H, in_seq. lia.
Qed.

(** A number below 64 is the value of its six low bits. *)
Lemma six_bits (n : Z) : 0 <= n < 64 ->
  n = bits_value [Z.testbit n 5; Z.testbit n 4; Z.testbit n 3;
                  Z.testbit n 2; Z.testbit n 1; Z.testbit n 0].
Proof.
  intros Hn.
  assert (H : forallb (fun k => let n := Z.of_nat k in
                n =? bits_value [Z.testbit n 5; Z.testbit n 4; Z.testbit n 3;
                                 Z.testbit n 2; Z.testbit n 1; Z.testbit n 0])
                (seq 0 64) = true) by (vm_compute; reflexivity).
  rewrite forallb_forall in H.
  specialize (H (Z.to_nat n)). cbv zeta in H. rewrite Z2Nat.id in H by lia.
  apply Z.eqb_eq, H, in_seq. lia.
Qed.

(** The mask keeps every index inside [base64Chars]. *)
Lemma index_in_range (b k : Z) : 0 <= Z.land (Z.shiftr b k) 63 < 64.
Proof.
  change 63 with (Z.ones 6). rewrite Z.land_ones by lia.
  apply Z.mod_pos_bound. reflexivity.
Qed.

Lemma sextet_bit (b k j : Z) : 0 <= k -> 0 <= j < 6 ->
  Z.testbit (Z.land (Z.shiftr b k) 63) j = Z.testbit b (j + k).
Proof.
  intros Hk Hj. rewrite Z.land_spec, Z.shiftr_spec by lia.
  replace (Z.testbit 63 j) with true; [apply andb_true_r|].
  assert (j = 0 \/ j = 1 \/ j = 2 \/ j = 3 \/ j = 4 \/ j = 5) as H by lia.
  intuition subst; reflexivity.
Qed.

Lemma word3_bit (a b c : byte) (i : Z) : 0 <= i < 32 ->
  Z.testbit (word3 a b c) i =
  Z.testbit (u8 a) (i - 16) || Z.testbit (u8 b) (i - 8) || Z.testbit (u8 c) i.
Proof.
  intros Hi. unfold word3, uint32.
  rewrite Z.mod_pow2_bits_low by lia.
  rewrite !Z.lor_spec, !Z.shiftl_spec by lia. reflexivity.
Qed.

Lemma word2_bit (a b : byte) (i : Z) : 0 <= i < 32 ->
  Z.testbit (word2 a b) i = Z.testbit (u8 a) (i - 16) || Z.testbit (u8 b) (i - 8).
Proof.
  intros Hi. unfold word2, uint32.
  rewrite Z.mod_pow2_bits_low by lia.
  rewrite !Z.lor_spec, !Z.shiftl_spec by lia. reflexivity.
Qed.

Lemma word1_bit (a : byte) (i : Z) : 0 <= i < 32 ->
  Z.testbit (word1 a) i = Z.testbit (u8 a) (i - 16).
Proof.
  intros Hi. unfold word1, uint32.
  rewrite Z.mod_pow2_bits_low by lia.
  rewrite Z.shiftl_spec by lia. reflexivity.
Qed.

(** The accumulator holds the first byte in bits 23..16, the second in
    15..8 and the third in 7..0. *)
Lemma word3_hi a b c j : 0 <= j < 8 -> Z.testbit (word3 a b c) (j + 16) = Z.testbit (u8 a) j.
Proof.
  intros. rewrite word3_bit by lia.
  rewrite (byte_bit_high b), (byte_bit_high c), !orb_false_r by lia. f_equal. lia.
Qed.
Lemma word3_mid a b c j : 0 <= j < 8 -> Z.testbit (word3 a b c) (j + 8) = Z.testbit (u8 b) j.
Proof.
  intros. rewrite word3_bit by lia.
  rewrite (Z.testbit_neg_r (u8 a)), (byte_bit_high c), orb_false_r by lia. cbn. f_equal. lia.
Qed.
Lemma word3_lo a b c j : 0 <= j < 8 -> Z.testbit (word3 a b c) j = Z.testbit (u8 c) j.
Proof.
  intros. rewrite word3_bit by lia.
  rewrite (Z.testbit_neg_r (u8 a)), (Z.testbit_neg_r (u8 b)) by lia. reflexivity.
Qed.

Lemma word2_hi a b j : 0 <= j < 8 -> Z.testbit (word2 a b) (j + 16) = Z.testbit (u8 a) j.
Proof.
  intros. rewrite word2_bit by lia.
  rewrite (byte_bit_high b), orb_false_r by lia. f_equal. lia.
Qed.
Lemma word2_mid a b j : 0 <= j < 8 -> Z.testbit (word2 a b) (j + 8) = Z.testbit (u8 b) j.
Proof.
  intros. rewrite word2_bit by lia.
  rewrite (Z.testbit_neg_r (u8 a)) by lia. cbn. f_equal. lia.
Qed.
Lemma word2_lo a b j : 0 <= j < 8 -> Z.testbit (word2 a b) j = false.
Proof.
  intros. rewrite word2_bit by lia.
  rewrite (Z.testbit_neg_r (u8 a)), (Z.testbit_neg_r (u8 b)) by lia. reflexivity.
Qed.

Lemma word1_hi a j : 0 <= j < 8 -> Z.testbit (word1 a) (j + 16) = Z.testbit (u8 a) j.
Proof. intros. rewrite word1_bit by lia. f_equal. lia. Qed.
Lemma word1_lo a j : 0 <= j < 16 -> Z.testbit (word1 a) j = false.
Proof. intros. rewrite word1_bit by lia. apply Z.testbit_neg_r. lia. Qed.

(** A character picked at shift [k] is the RFC character of the six bits
    of the accumulator from bit [k + 5] down to bit [k]. *)
Lemma pick_bits (w k : Z) (b5 b4 b3 b2 b1 b0 : bool) :
  0 <= k ->
  Z.testbit w (5 + k) = b5 -> Z.testbit w (4 + k) = b4 ->
  Z.testbit w (3 + k) = b3 -> Z.testbit w (2 + k) = b2 ->
  Z.testbit w (1 + k) = b1 -> Z.testbit w (0 + k) = b0 ->
  pick w k = rfc_alphabet (bits_value [b5; b4; b3; b2; b1; b0]).
Proof.
  intros Hk H5 H4 H3 H2 H1 H0. unfold pick.
  rewrite charAt_alphabet by apply index_in_range. f_equal.
  rewrite (six_bits _ (index_in_range w k)) at 1.
  rewrite !sextet_bit by lia. congruence.
Qed.

Ltac bit_at lem n :=
  match goal with
  | |- Z.testbit ?w ?i = _ => replace i with n by reflexivity; apply lem; lia
  end.

Lemma chunk3 (a b c : byte) :
  let w := word3 a b c in
  [pick w 18; pick w 12; pick w 6; pick w 0] =
  map (fun g => rfc_alphabet (bits_value g))
      (groups6 (bits_of_byte a ++ bits_of_byte b ++ bits_of_byte c)).
Proof.
  cbv zeta. cbn [bits_of_byte app groups6 map].
  repeat f_equal; apply pick_bits; try lia.
  - bit_at word3_hi (7 + 16).
  - bit_at word3_hi (6 + 16).
  - bit_at word3_hi (5 + 16).
  - bit_at word3_hi (4 + 16).
  - bit_at word3_hi (3 + 16).
  - bit_at word3_hi (2 + 16).
  - bit_at word3_hi (1 + 16).
  - bit_at word3_hi (0 + 16).
  - bit_at word3_mid (7 + 8).
  - bit_at word3_mid (6 + 8).
  - bit_at word3_mid (5 + 8).
  - bit_at word3_mid (4 + 8).
  - bit_at word3_mid (3 + 8).
  - bit_at word3_mid (2 + 8).
  - bit_at word3_mid (1 + 8).
  - bit_at word3_mid (0 + 8).
  - bit_at word3_lo 7.
  - bit_at word3_lo 6.
  - bit_at word3_lo 5.
  - bit_at word3_lo 4.
  - bit_at word3_lo 3.
  - bit_at word3_lo 2.
  - bit_at word3_lo 1.
  - bit_at word3_lo 0.
Qed.

Lemma chunk2 (a b : byte) :
  let w := word2 a b in
  [pick w 18; pick w 12; pick w 6] =
  map (fun g => rfc_alphabet (bits_value g)) (groups6 (bits_of_byte a ++ bits_of_byte b)).
Proof.
  cbv zeta. cbn [bits_of_byte app groups6 map firstn repeat].
  repeat f_equal; apply pick_bits; try lia.
  - bit_at word2_hi (7 + 16).
  - bit_at word2_hi (6 + 16).
  - bit_at word2_hi (5 + 16).
  - bit_at word2_hi (4 + 16).
  - bit_at word2_hi (3 + 16).
  - bit_at word2_hi (2 + 16).
  - bit_at word2_hi (1 + 16).
  - bit_at word2_hi (0 + 16).
  - bit_at word2_mid (7 + 8).
  - bit_at word2_mid (6 + 8).
  - bit_at word2_mid (5 + 8).
  - bit_at word2_mid (4 + 8).
  - bit_at word2_mid (3 + 8).
  - bit_at word2_mid (2 + 8).
  - bit_at word2_mid (1 + 8).
  - bit_at word2_mid (0 + 8).
  - bit_at word2_lo 7.
  - bit_at word2_lo 6.
Qed.

Lemma chunk1 (a : byte) :
  let w := word1 a in
  [pick w 18; pick w 12] =
  map (fun g => rfc_alphabet (bits_value g)) (groups6 (bits_of_byte a)).
Proof.
  cbv zeta. cbn [bits_of_byte app groups6 map firstn repeat].
  repeat f_equal; apply pick_bits; try lia.
  - bit_at word1_hi (7 + 16).
  - bit_at word1_hi (6 + 16).
  - bit_at word1_hi (5 + 16).
  - bit_at word1_hi (4 + 16).
  - bit_at word1_hi (3 + 16).
  - bit_at word1_hi (2 + 16).
  - bit_at word1_hi (1 + 16).
  - bit_at word1_hi (0 + 16).
  - bit_at word1_lo 15.
  - bit_at word1_lo 14.
  - bit_at word1_lo 13.
  - bit_at word1_lo 12.
Qed.

(** Induction in steps of three, as the loop advances. *)
Lemma list_ind3 {A} (P : list A -> Prop) :
  P [] -> (forall a, P [a]) -> (forall a b, P [a; b]) ->
  (forall a b c r, P r -> P (a :: b :: c :: r)) ->
  forall l, P l.
Proof.
  intros H0 H1 H2 H3 l.
  enough (P l /\ (forall a, P (a :: l)) /\ (forall a b, P (a :: b :: l))) by tauto.
  induction l as [|x l (IH0 & IH1 & IH2)]; repeat split; auto.
Qed.

Lemma rfc_chars_cons3 a b c rest :
  rfc_chars (a :: b :: c :: rest) =
  (let w := word3 a b c in [pick w 18; pick w 12; pick w 6; pick w 0]) ++ rfc_chars rest.
Proof.
  rewrite chunk3. unfold rfc_chars. rewrite <- map_app. f_equal.
Qed.

Lemma rfc_padding_add4 n : rfc_padding (4 + n) = rfc_padding n.
Proof.
  unfold rfc_padding. f_equal. f_equal.
  replace (4 + n)%nat with (n + 1 * 4)%nat by lia. apply Nat.Div0.mod_add.
Qed.

Lemma base64Encode_refines (data : list byte) :
  base64Encode data = rfc4648_encode data.
Proof.
  unfold rfc4648_encode. cbv zeta.
  induction data as [| a | a b | a b c rest IH] using list_ind3.
  - reflexivity.
  - unfold rfc_chars, bit_stream. cbn [flat_map]. rewrite app_nil_r.
    rewrite <- chunk1. reflexivity.
  - unfold rfc_chars, bit_stream. cbn [flat_map]. rewrite app_nil_r.
    rewrite <- chunk2. reflexivity.
  - rewrite rfc_chars_cons3. cbv zeta.
    cbn [base64Encode]. cbv zeta. rewrite IH.
    rewrite length_app. cbn [List.length app].
    rewrite (rfc_padding_add4 (List.length (rfc_chars rest))).
    reflexivity.
Qed.

(** C8.  The engine's own encoder agrees with the padded RFC 4648 encoding
    on every byte sequence (whatever the length leaves modulo 3), and the
    basic-auth header is the word Basic followed by the RFC 4648 encoding of
    user, colon, password. *)
Theorem base64Encode_rfc4648 :
  (forall data : list byte, base64Encode data = rfc4648_encode data) /\
  (forall user password : string,
     basicAuth user password =
     ("Basic " ++ rfc4648_encode (bytes_of_string (user ++ ":" ++ password)))%string).
Proof.
  split.
  - exact base64Encode_refines.
  - intros user password. unfold basicAuth. rewrite base64Encode_refines. reflexivity.
Qed.

End Base64Proofs.

(** ** The safety gate *)

Module SafetyProofs.
Import GoStrings GoStringsFacts Safety Samples.
Local Open Scope string_scope.
Local Open Scope list_scope.

Lemma nonempty_true (s : string) : nonempty s = true <-> s <> "".
Proof.
  unfold nonempty. rewrite negb_true_iff. split.
  - intros H ->. discriminate.
  - intros H. destruct s; [contradiction | reflexivity].
Qed.

Lemma op_eqb_eq (a b : OperationType) : op_eqb a b = true <-> a = b.
Proof. destruct a, b; cbn; split; intros H; congruence. Qed.

(** The letters of [writeOps] are those of the five write-class constants. *)
Lemma write_ops (op : OperationType) :
  ContainsRune "CDUAW" (opChar op) = true <-> write_class op.
Proof.
  unfold write_class.
  destruct op; cbn; split; intros H; try discriminate; try tauto;
    repeat (destruct H as [H|H]; try discriminate); try contradiction.
Qed.

(** A chain of early returns denies exactly when dry-run is off and one of
    its tests fires. *)
Lemma chain_false (dry b1 b2 b3 b4 b5 : bool) :
  (if dry then true else if b1 then false else if b2 then false
   else if b3 then false else if b4 then false else if b5 then false else true) = false
  <-> dry = false /\ (b1 = true \/ b2 = true \/ b3 = true \/ b4 = true \/ b5 = true).
Proof. destruct dry, b1, b2, b3, b4, b5; cbn; intuition congruence. Qed.

(** C2.  The operation check denies an operation exactly when dry-run is
    off and one of the deny rules applies: read-only mode and a write-class
    operation (Create, Update, Delete, Activate, Workflow); block-free-SQL
    and FreeSQL; a Transport operation while transports are not enabled; the
    operation is in the deny-list (whatever the allow-list says); the
    allow-list is non-empty and the operation is not in it.  In dry-run
    mode, and in every other case, the operation is allowed. *)
Theorem IsOperationAllowed_rules (s : SafetyConfig) (op : OperationType) :
  IsOperationAllowed s op = false <->
  DryRun s = false /\
  (   (ReadOnly s = true /\ write_class op)
   \/ (BlockFreeSQL s = true /\ op = OpFreeSQL)
   \/ (op = OpTransport /\ EnableTransports s = false)
   \/ listed op (DisallowedOps s)
   \/ (AllowedOps s <> "" /\ ~ listed op (AllowedOps s))).
Proof.
  unfold IsOperationAllowed. cbv zeta. rewrite chain_false.
  rewrite !andb_true_iff, !negb_true_iff, !nonempty_true, !op_eqb_eq, write_ops.
  rewrite <- (not_true_iff_false (ContainsRune (AllowedOps s) (opChar op))), !ContainsRune_In.
  unfold listed.
  assert (In (opChar op) (list_ascii_of_string (DisallowedOps s)) -> DisallowedOps s <> "").
  { intros Hin Heq. rewrite Heq in Hin. exact Hin. }
  tauto.
Qed.

Section PackageFacts.
Variable unicode : string -> string.

Lemma pattern_matches_variant (pkg a b : string) :
  case_variant unicode a b ->
  pattern_matches unicode pkg a = pattern_matches unicode pkg b.
Proof. unfold case_variant, pattern_matches. cbv zeta. intros ->. reflexivity. Qed.

Lemma existsb_Forall2 {A} (f g : A -> bool) (R : A -> A -> Prop) (l l' : list A) :
  (forall a b, R a b -> f a = g b) ->
  Forall2 R l l' -> existsb f l = existsb g l'.
Proof.
  intros Hfg H. induction H as [|a b l l' Hab _ IH]; cbn.
  - reflexivity.
  - rewrite (Hfg a b Hab), IH. reflexivity.
Qed.

Lemma ascii_case_variant_isASCII (a b : string) :
  ascii_case_variant a b -> isASCII a = true /\ isASCII b = true.
Proof.
  induction 1 as [|c d s t Hc Hd _ _ [IHs IHt]].
  - split; reflexivity.
  - rewrite !isASCII_cons, IHs, IHt.
    apply Nat.ltb_lt in Hc. apply Nat.ltb_lt in Hd. rewrite Hc, Hd. split; reflexivity.
Qed.

Lemma ascii_case_variant_upper (a b : string) :
  ascii_case_variant a b -> map_bytes upperByte a = map_bytes upperByte b.
Proof. induction 1; cbn; congruence. Qed.

(** Text that differs only in the case of ASCII letters is identified by
    upper-casing, whatever the Unicode tables say. *)
Lemma ascii_case_variant_sound (a b : string) :
  ascii_case_variant a b -> case_variant unicode a b.
Proof.
  intros H. unfold case_variant, ToUpper.
  destruct (ascii_case_variant_isASCII _ _ H) as [-> ->].
  apply ascii_case_variant_upper, H.
Qed.

(** The answer depends on the package name and on the patterns through
    their upper-casing only. *)
Lemma IsPackageAllowed_upper (s s' : SafetyConfig) (pkg pkg' : string) :
  case_variant unicode pkg pkg' ->
  Forall2 (case_variant unicode) (AllowedPackages s) (AllowedPackages s') ->
  IsPackageAllowed unicode s pkg = IsPackageAllowed unicode s' pkg'.
Proof.
  intros Hpkg Hpats. unfold IsPackageAllowed. cbv zeta.
  rewrite <- (Forall2_length Hpats). unfold case_variant in Hpkg. rewrite <- Hpkg.
  destruct (List.length (AllowedPackages s) =? 0)%nat; [reflexivity|].
  apply existsb_Forall2 with (R := case_variant unicode); [|exact Hpats].
  intros a b Hab. apply pattern_matches_variant, Hab.
Qed.

(** In particular the case of ASCII letters, in the name and in the
    patterns, does not matter. *)
Corollary IsPackageAllowed_ascii_letter_case (s s' : SafetyConfig) (pkg pkg' : string) :
  ascii_case_variant pkg pkg' ->
  Forall2 ascii_case_variant (AllowedPackages s) (AllowedPackages s') ->
  IsPackageAllowed unicode s pkg = IsPackageAllowed unicode s' pkg'.
Proof.
  intros Hpkg Hpats. apply IsPackageAllowed_upper.
  - apply ascii_case_variant_sound, Hpkg.
  - eapply Forall2_impl; [|exact Hpats]. exact ascii_case_variant_sound.
Qed.

(** C10.  The package check gives the same answer for a package name and
    any case variant of it, also when the configured patterns are replaced
    by case variants (both sides are upper-cased before the exact or
    suffix-wildcard match); with an empty allowed-packages list every
    package is allowed. *)
Theorem IsPackageAllowed_case_insensitive (s s' : SafetyConfig) (pkg pkg' : string) :
  case_variant unicode pkg pkg' ->
  Forall2 (case_variant unicode) (AllowedPackages s) (AllowedPackages s') ->
  IsPackageAllowed unicode s pkg = IsPackageAllowed unicode s' pkg' /\
  (AllowedPackages s = [] -> forall any, IsPackageAllowed unicode s any = true).
Proof.
  intros Hpkg Hpats. split.
  - apply IsPackageAllowed_upper; assumption.
  - unfold IsPackageAllowed. intros -> any. reflexivity.
Qed.

End PackageFacts.

Lemma IsPackageAllowed_case_insensitive_witness :
  IsPackageAllowed ascii_only lower_patterns "ztest" =
  IsPackageAllowed ascii_only upper_patterns "ZTest" /\
  (AllowedPackages lower_patterns = [] ->
   forall any, IsPackageAllowed ascii_only lower_patterns any = true).
Proof.
  apply (IsPackageAllowed_case_insensitive ascii_only lower_patterns upper_patterns
           "ztest" "ZTest").
  - reflexivity.
  - repeat constructor.
Defined.

(** Both configurations allow the package, under either spelling. *)
Example ztest_allowed :
  IsPackageAllowed ascii_only lower_patterns "ZTest" = true /\
  IsPackageAllowed ascii_only upper_patterns "ztest" = true /\
  IsPackageAllowed ascii_only upper_patterns "ytest" = false.
Proof. repeat split. Qed.

End SafetyProofs.

(** ** The wire codecs *)

Module CodecProofs.
Import GoStrings GoStringsFacts Codec Samples.
Local Open Scope string_scope.
Local Open Scope list_scope.

Lemma ContainsAny_mentions (t : string) :
  ContainsAny t "EAX" = true <-> mentions_EAX t.
Proof.
  unfold mentions_EAX. induction t as [|c t IH].
  - cbn. split; [discriminate | intros (c & [] & _)].
  - cbn [ContainsAny list_ascii_of_string]. rewrite orb_true_iff, IH, ContainsRune_In.
    split.
    + intros [H | (d & Hd & HE)].
      * exists c. split; [left; reflexivity | exact H].
      * exists d. split; [right; exact Hd | exact HE].
    + intros (d & [<- | Hd] & HE).
      * left. exact HE.
      * right. exists d. split; assumption.
Qed.

(** Invariant of the loop over the messages. *)
Lemma fold_add_message (msgs : list msg) (r0 : ActivationResult) :
  let r := fold_left add_message msgs r0 in
  Success r = Success r0 && forallb no_letter msgs /\
  ar_Messages r = ar_Messages r0 ++ map message_of msgs /\
  Inactive r = Inactive r0.
Proof.
  revert r0. induction msgs as [|m msgs IH]; intros r0; cbn.
  - rewrite andb_true_r, app_nil_r. auto.
  - destruct (IH (add_message r0 m)) as (HS & HM & HI).
    rewrite HS, HM, HI. cbn. rewrite <- app_assoc. cbn.
    repeat split. unfold no_letter.
    destruct (ContainsAny (m_Type m) "EAX"), (Success r0); reflexivity.
Qed.

(** Invariant of the loop over the inactive entries. *)
Lemma fold_add_inactive (entries : list inactiveEntry) (r0 : ActivationResult) :
  let r := fold_left add_inactive entries r0 in
  Success r = Success r0 && forallb no_object entries /\
  ar_Messages r = ar_Messages r0 /\
  (Inactive r = [] <-> Inactive r0 = [] /\ forallb no_object entries = true).
Proof.
  revert r0. induction entries as [|e entries IH]; intros r0; cbn.
  - rewrite andb_true_r. intuition.
  - destruct (IH (add_inactive r0 e)) as (HS & HM & HI).
    rewrite HS, HM, HI.
    replace (no_object e) with (match Object e with None => true | Some _ => false end)
      by reflexivity.
    unfold add_inactive. destruct (Object e) as [ref|]; cbn.
    + rewrite andb_false_r. split; [reflexivity|]. split; [reflexivity|].
      split.
      * intros [Hnil _]. apply app_eq_nil in Hnil. destruct Hnil. discriminate.
      * intros [_ Hf]. discriminate.
    + tauto.
Qed.

Lemma forallb_no_letter (msgs : list msg) :
  forallb no_letter msgs = true <->
  (forall m, In m (map message_of msgs) -> ~ mentions_EAX (Type_ m)).
Proof.
  rewrite forallb_forall. unfold no_letter. split.
  - intros H m Hin. apply in_map_iff in Hin. destruct Hin as (m0 & <- & Hin).
    specialize (H m0 Hin). apply negb_true_iff in H.
    rewrite <- ContainsAny_mentions. cbn. congruence.
  - intros H m0 Hin. apply negb_true_iff, not_true_iff_false.
    rewrite ContainsAny_mentions. apply (H (message_of m0)). apply in_map, Hin.
Qed.

Section Activation.
Variable unmarshal_response : string -> result response.


End Activation.


Section SyntaxCheck.
Variable unmarshal_reports : string -> result checkRunReports.
Variable start_fragment : string -> option (string * Z * Z).

(** C9, what the code does.  The empty response goes to the XML decoder
    unguarded; the decoder finds no element and reports EOF, and the parser
    returns that error instead of an empty diagnostic list. *)
Theorem parseSyntaxCheckResults_empty_EOF :
  eof_on_empty unmarshal_reports ->
  parseSyntaxCheckResults unmarshal_reports start_fragment "" =
    Err "parsing syntax check response: EOF".
Proof.
  unfold eof_on_empty, parseSyntaxCheckResults. cbn. intros ->. reflexivity.
Qed.

(** A response with reports and no message gives the empty list. *)
Lemma parseSyntaxCheckResults_no_messages (data : string) :
  unmarshal_reports (ReplaceAll data "chkrun:" "") = Ok {| Reports := [] |} ->
  parseSyntaxCheckResults unmarshal_reports start_fragment data = Ok [].
Proof. unfold parseSyntaxCheckResults. cbv zeta. intros ->. reflexivity. Qed.

End SyntaxCheck.

Lemma parseSyntaxCheckResults_empty_EOF_witness :
  parseSyntaxCheckResults decode_no_reports (fun _ => None) "" =
    Err "parsing syntax check response: EOF".
Proof.
  apply (parseSyntaxCheckResults_empty_EOF decode_no_reports (fun _ => None)).
  reflexivity.
Defined.

End CodecProofs.

(** ** The workflows *)

Module WorkflowProofs.
Import GoStrings Codec Client Workflow Samples.
Local Open Scope string_scope.
Local Open Scope list_scope.

Section Facts.
Variable c : Backend.
Variable unicode : string -> string.

(** Case analysis on what the system answers, call after call. *)
Ltac answers :=
  repeat (cbn -[String.eqb String.append ToUpper deferred_unlock update_unlock_activate
                class_with_tests_locked] in *;
          rewrite ?String.eqb_refl;
          match goal with
          | |- context [match ?x with _ => _ end] =>
              lazymatch type of x with
              | result _ => destruct x eqn:?
              | bool => destruct x eqn:?
              end
          end).

(** Every answer of the system to every call of a workflow. *)
Ltac every_answer :=
  repeat (cbn -[String.eqb String.append ToUpper];
          match goal with
          | |- context [match ?x with _ => _ end] =>
              match type of x with
              | result _ => destruct x eqn:?
              | bool => destruct x eqn:?
              end
          end);
  cbn -[String.eqb String.append ToUpper].

Ltac count_unlocks :=
  unfold unlocks_as_built, unlock_count; cbn -[String.eqb String.append ToUpper];
  split;
  [ intros ? Hin; repeat (destruct Hin as [<- | Hin]); try destruct Hin;
    rewrite ?String.eqb_refl; reflexivity
  | intros h0;
    try (right; reflexivity);
    match goal with
    | |- context [String.eqb ?a h0] =>
        destruct (String.eqb_spec a h0) as [<- | ?];
        [left; left; reflexivity | right; reflexivity]
    end ].

Ltac run_workflow :=
  unfold WriteProgram, WriteClass, CreateAndActivateProgram, CreateClassWithTests,
    write_object, update_unlock_activate, class_with_tests_locked, deferred_unlock,
    bind, SyntaxCheck, LockObject, UnlockObject, UpdateSource, Activate, CreateObject,
    CreateTestInclude, UpdateClassInclude, RunUnitTests, call, ret,
    set_Message, set_Success, set_Activation, set_SyntaxErrors,
    ct_set_Message, ct_set_Success, ct_set_Activation, ct_set_UnitTestResult;
  every_answer; count_unlocks.

(** C1, as the code has it.  In every execution of WriteProgram,
    WriteClass, CreateAndActivateProgram and CreateClassWithTests, from any
    history of earlier calls and against any system, a lock handle that the
    workflow acquired is unlocked exactly once by the time the workflow
    returns when the workflow reports success or when a write under the
    lock (the source update, the creation or the update of the test
    include) was refused, and exactly twice in every other case: the
    workflow had then issued its own Unlock and failed afterwards (the
    Unlock returned an error, the activation could not be called or did
    not succeed), and the deferred function unlocks the handle again.  No
    handle that the workflow did not acquire is unlocked. *)
Theorem workflows_unlock_count (h : Trace) :
  (forall programName source transport,
     let (r, tr) := WriteProgram c unicode programName source transport h in
     unlocks_as_built (Success r) tr) /\
  (forall className source transport,
     let (r, tr) := WriteClass c unicode className source transport h in
     unlocks_as_built (Success r) tr) /\
  (forall programName description packageName source transport,
     let (r, tr) :=
       CreateAndActivateProgram c unicode programName description packageName source
         transport h in
     unlocks_as_built (Success r) tr) /\
  (forall className description packageName classSource testSource transport,
     let (r, tr) :=
       CreateClassWithTests c unicode className description packageName classSource
         testSource transport h in
     unlocks_as_built (ct_Success r) tr).
Proof.
  repeat split; intros; run_workflow.
Qed.

Lemma write_object_stops_on_errors (objectURL objectName source transport done : string)
    (h : Trace) (diags : list SyntaxCheckResult) :
  let (r, tr) := write_object c objectURL objectName source transport done h in
  initial_check_found_errors tr diags ->
  no_lock_no_put tr /\ Success r = false /\ SyntaxErrors r = diags.
Proof.
  unfold write_object, bind, SyntaxCheck, LockObject, call, ret.
  answers;
    try (intros (url & src & rest & Heq & Herr); inversion Heq; subst;
         first [ congruence | repeat split; reflexivity ]).
  destruct (deferred_unlock _ _ _ _ _ _) as [r tr]. cbn.
  intros (url & src & rest & Heq & Herr). inversion Heq; subst. congruence.
Qed.

(** C4.  When the initial syntax check of a WriteProgram or WriteClass
    invocation returns a diagnostic of severity E, A or X, the workflow
    returns without saving: no Lock and no source update is among its
    calls, and the result has success false and carries the diagnostics. *)
Theorem write_stops_on_syntax_errors
    (W : string -> string -> string -> M ObjectResult) :
  W = WriteProgram c unicode \/ W = WriteClass c unicode ->
  forall (name source transport : string) (h : Trace) (diags : list SyntaxCheckResult),
    initial_check_found_errors (snd (W name source transport h)) diags ->
    no_lock_no_put (snd (W name source transport h)) /\
    Success (fst (W name source transport h)) = false /\
    SyntaxErrors (fst (W name source transport h)) = diags.
Proof.
  intros [-> | ->] name source transport h diags.
  - unfold WriteProgram. cbv zeta.
    pose proof (write_object_stops_on_errors
      ("/sap/bc/adt/programs/programs/" ++ ToUpper unicode name)%string
      (ToUpper unicode name) source transport
      "Program updated and activated successfully" h diags) as H.
    destruct (write_object _ _ _ _ _ _ _) as [r tr]. exact H.
  - unfold WriteClass. cbv zeta.
    pose proof (write_object_stops_on_errors
      ("/sap/bc/adt/oo/classes/" ++ ToUpper unicode name)%string
      (ToUpper unicode name) source transport
      "Class updated and activated successfully" h diags) as H.
    destruct (write_object _ _ _ _ _ _ _) as [r tr]. exact H.
Qed.

End Facts.

(** C1, as stated, fails: when the source is saved and unlocked and the
    activation then reports an error, the deferred function unlocks the same
    handle a second time. *)
Lemma WriteProgram_unlocks_twice_when_activation_fails :
  acquired (snd (WriteProgram activation_fails ascii_only "ztest" "REPORT ztest." "" []))
    = ["H1"%string] /\
  unlocks_of "H1" (snd (WriteProgram activation_fails ascii_only "ztest" "REPORT ztest." "" []))
    = 2 /\
  ~ exactly_one_unlock
      (snd (WriteProgram activation_fails ascii_only "ztest" "REPORT ztest." "" [])).
Proof.
  split; [vm_compute; reflexivity|]. split; [vm_compute; reflexivity|].
  intros H. specialize (H "H1"%string).
  assert (Hin : In "H1"%string
            (acquired (snd (WriteProgram activation_fails ascii_only "ztest"
                              "REPORT ztest." "" []))))
    by (vm_compute; left; reflexivity).
  apply H in Hin. vm_compute in Hin. discriminate.
Qed.

(** The calls of that run, in order. *)
Example WriteProgram_activation_failure_trace :
  snd (WriteProgram activation_fails ascii_only "ztest" "REPORT ztest." "" []) =
  [ EvSyntaxCheck "/sap/bc/adt/programs/programs/ZTEST" "REPORT ztest." (Ok []);
    EvLockObject "/sap/bc/adt/programs/programs/ZTEST" "MODIFY" (Ok lock_H1);
    EvUpdateSource "/sap/bc/adt/programs/programs/ZTEST/source/main" "REPORT ztest." "H1" ""
      (Ok tt);
    EvUnlockObject "/sap/bc/adt/programs/programs/ZTEST" "H1" (Ok tt);
    EvActivate "/sap/bc/adt/programs/programs/ZTEST" "ZTEST" (Ok activation_error);
    EvUnlockObject "/sap/bc/adt/programs/programs/ZTEST" "H1" (Ok tt) ].
Proof. vm_compute. reflexivity. Qed.

Lemma write_stops_on_syntax_errors_witness :
  no_lock_no_put
    (snd (WriteProgram syntax_error_backend ascii_only "ztest" "REPRT ztest." "" [])) /\
  Success (fst (WriteProgram syntax_error_backend ascii_only "ztest" "REPRT ztest." "" []))
    = false /\
  SyntaxErrors (fst (WriteProgram syntax_error_backend ascii_only "ztest" "REPRT ztest." "" []))
    = one_error.
Proof.
  apply (write_stops_on_syntax_errors syntax_error_backend ascii_only
           (WriteProgram syntax_error_backend ascii_only)).
  - left. reflexivity.
  - do 3 eexists. split; reflexivity.
Defined.

End WorkflowProofs.

(** ** The deployment engine *)

Module DeployProofs.
Import GoStrings Codec Client Deps Handlers Samples.
Local Open Scope string_scope.
Local Open Scope list_scope.

(** *** DeploymentOrder *)

Lemma insert_stable_perm {A} (lt : A -> A -> bool) (x : A) (l : list A) :
  Permutation (x :: l) (insert_stable lt x l).
Proof.
  induction l as [|y l IH]; cbn; [reflexivity|].
  destruct (lt y x); [|reflexivity].
  rewrite perm_swap. apply perm_skip, IH.
Qed.

(** The ordering rearranges the files and loses none. *)
Lemma DeploymentOrder_perm (files : list ABAPFile) :
  Permutation files (DeploymentOrder files).
Proof.
  unfold DeploymentOrder. induction files as [|f files IH]; cbn; [reflexivity|].
  rewrite <- insert_stable_perm. apply perm_skip, IH.
Qed.

(** The byte order on strings is a strict total order. *)
Lemma string_lt_irrefl (a : string) : string_lt a a = false.
Proof.
  unfold string_lt. destruct (String.compare a a) eqn:E; try reflexivity.
  apply String_as_OT.cmp_lt in E. exfalso. exact (String_as_OT.lt_not_eq _ _ E eq_refl).
Qed.

Lemma string_lt_trans (a b c : string) :
  string_lt a b = true -> string_lt b c = true -> string_lt a c = true.
Proof.
  unfold string_lt.
  destruct (String.compare a b) eqn:Eab; try discriminate.
  destruct (String.compare b c) eqn:Ebc; try discriminate. intros _ _.
  apply String_as_OT.cmp_lt in Eab. apply String_as_OT.cmp_lt in Ebc.
  pose proof (String_as_OT.lt_trans _ _ _ Eab Ebc) as H.
  apply String_as_OT.cmp_lt in H. unfold String_as_OT.cmp in H. rewrite H. reflexivity.
Qed.

Lemma string_lt_total (a b : string) :
  string_lt a b = true \/ a = b \/ string_lt b a = true.
Proof.
  unfold string_lt. rewrite (String.compare_antisym b a).
  destruct (String.compare a b) eqn:E; cbn; auto.
  right. left. apply String.compare_eq_iff, E.
Qed.

Lemma lex_strict_total {A B} (ltA : A -> A -> Prop) (ltB : B -> B -> Prop) :
  strict_total ltA -> strict_total ltB -> strict_total (lex ltA ltB).
Proof.
  intros [iA tA oA] [iB tB oB]. split; unfold lex.
  - intros [a b] [H | [_ H]]; cbn in *; [exact (iA _ H) | exact (iB _ H)].
  - intros [a1 b1] [a2 b2] [a3 b3]; cbn.
    intros [H1 | [E1 H1]] [H2 | [E2 H2]]; subst; eauto.
  - intros [a1 b1] [a2 b2]; cbn.
    destruct (oA a1 a2) as [H | [-> | H]]; auto.
    destruct (oB b1 b2) as [H | [-> | H]]; auto.
Qed.

(** In a strict total order, not being less is transitive. *)
Lemma strict_total_ge_trans {A} (lt : A -> A -> Prop) (x y z : A) :
  strict_total lt -> ~ lt y x -> ~ lt z y -> ~ lt z x.
Proof.
  intros [i t o] Hyx Hzy Hzx.
  destruct (o x y) as [H | [-> | H]]; [| contradiction | contradiction].
  destruct (o y z) as [H' | [-> | H']]; [| contradiction | contradiction].
  exact (i _ (t _ _ _ (t _ _ _ H H') Hzx)).
Qed.

Lemma bool_lt_strict_total : strict_total bool_lt.
Proof.
  unfold bool_lt. split.
  - intros a [H1 H2]. congruence.
  - intros a b c [H1 H2] [H3 H4]. congruence.
  - intros [|] [|]; intuition.
Qed.

Lemma nat_lt_strict_total : strict_total Nat.lt.
Proof.
  split.
  - exact Nat.lt_irrefl.
  - exact Nat.lt_trans.
  - exact Nat.lt_trichotomy.
Qed.

Lemma string_lt_strict_total : strict_total string_ltP.
Proof.
  unfold string_ltP. split.
  - intros a H. rewrite string_lt_irrefl in H. discriminate.
  - exact string_lt_trans.
  - exact string_lt_total.
Qed.

Lemma key_lt_strict_total : strict_total key_lt.
Proof.
  unfold key_lt.
  repeat apply lex_strict_total;
    auto using bool_lt_strict_total, nat_lt_strict_total, string_lt_strict_total.
Qed.

(** The comparison of the code is the order of the keys. *)
Lemma less_key_lt (x y : ABAPFile) : less x y = true <-> key_lt (sort_key x) (sort_key y).
Proof.
  unfold less, key_lt, lex, sort_key, bool_lt, string_ltP. cbv zeta. cbn [fst snd].
  pose proof (string_lt_irrefl (ObjectName y)) as Hirr.
  destruct (IsXML x), (IsXML y); cbn [Bool.eqb negb];
    destruct (Nat.eqb_spec (priority_of x) (priority_of y)) as [Ep | Ep]; cbn [negb];
    destruct (String.eqb_spec (ObjectName x) (ObjectName y)) as [En | En]; cbn [negb];
    rewrite ?Nat.ltb_lt; try rewrite En in *;
    intuition (try discriminate; try lia; try congruence).
Qed.

Lemma less_false_key (x y : ABAPFile) :
  less x y = false <-> ~ key_lt (sort_key x) (sort_key y).
Proof. rewrite <- less_key_lt. symmetry. apply not_true_iff_false. Qed.

(** It is a strict weak order on the files: asymmetric, and not being less
    is transitive. *)
Lemma less_asym (x y : ABAPFile) : less x y = true -> less y x = false.
Proof.
  rewrite less_key_lt, less_false_key. intros H H'.
  destruct key_lt_strict_total as [i t _]. exact (i _ (t _ _ _ H H')).
Qed.

Lemma not_less_trans (x y z : ABAPFile) :
  less y x = false -> less z y = false -> less z x = false.
Proof.
  rewrite !less_false_key. apply strict_total_ge_trans, key_lt_strict_total.
Qed.

(** *** Insertion into a sorted list *)
Section Sorting.
Context {A : Type} (lt : A -> A -> bool).
Hypothesis lt_asym : forall x y, lt x y = true -> lt y x = false.
Hypothesis ge_trans : forall x y z, lt y x = false -> lt z y = false -> lt z x = false.


Lemma insert_stable_In (x y : A) (l : list A) :
  In y (insert_stable lt x l) -> y = x \/ In y l.
Proof.
  induction l as [|z l IH]; cbn.
  - intros [<- | []]. left. reflexivity.
  - destruct (lt z x).
    + intros [<- | H]; [right; left; reflexivity|].
      destruct (IH H); [left | right; right]; assumption.
    + intros [<- | H]; [left; reflexivity | right; exact H].
Qed.

Lemma insert_stable_sorted (x : A) (l : list A) :
  StronglySorted (not_after lt) l -> StronglySorted (not_after lt) (insert_stable lt x l).
Proof.
  induction 1 as [|z l Hl IH Hz]; cbn.
  - constructor; constructor.
  - destruct (lt z x) eqn:Hzx.
    + constructor; [exact IH|].
      apply Forall_forall. intros y Hy.
      destruct (insert_stable_In _ _ _ Hy) as [-> | Hin].
      * apply lt_asym, Hzx.
      * rewrite Forall_forall in Hz. apply Hz, Hin.
    + constructor; [constructor; assumption|].
      constructor; [exact Hzx|].
      apply Forall_forall. intros y Hy. rewrite Forall_forall in Hz.
      unfold not_after. apply ge_trans with z; [exact Hzx | apply Hz, Hy].
Qed.

Lemma SliceStable_sorted (l : list A) : StronglySorted (not_after lt) (SliceStable lt l).
Proof.
  induction l as [|x l IH]; cbn; [constructor|]. apply insert_stable_sorted, IH.
Qed.

(** Elements that are not less either way keep their order. *)
Lemma insert_stable_tied (x y : A) (l : list A) :
  filter (tied lt x) (insert_stable lt y l) =
  if tied lt x y then y :: filter (tied lt x) l else filter (tied lt x) l.
Proof.
  induction l as [|z l IH]; cbn; [reflexivity|].
  destruct (lt z y) eqn:Hzy; cbn; [|reflexivity].
  rewrite IH. destruct (tied lt x z) eqn:Txz, (tied lt x y) eqn:Txy; try reflexivity.
  exfalso. unfold tied in *.
  apply andb_true_iff in Txz, Txy. rewrite !negb_true_iff in *.
  destruct Txz as [Hxz Hzx], Txy as [Hxy Hyx].
  rewrite (ge_trans y x z Hxy Hzx) in Hzy. discriminate.
Qed.

Lemma SliceStable_stable (x : A) (l : list A) :
  filter (tied lt x) (SliceStable lt l) = filter (tied lt x) l.
Proof.
  induction l as [|y l IH]; cbn; [reflexivity|].
  rewrite insert_stable_tied, IH. reflexivity.
Qed.

End Sorting.

Lemma StronglySorted_nth {A} (R : A -> A -> Prop) (l : list A) :
  StronglySorted R l ->
  forall i j x y, i < j -> nth_error l i = Some x -> nth_error l j = Some y -> R x y.
Proof.
  induction 1 as [|a l Hl IH Ha]; intros i j x y Hij Hi Hj.
  - destruct i; discriminate.
  - destruct j as [|j]; [lia|]. cbn in Hj. destruct i as [|i]; cbn in Hi.
    + injection Hi as <-. rewrite Forall_forall in Ha. apply Ha.
      eapply nth_error_In, Hj.
    + apply (IH i j); [lia | assumption | assumption].
Qed.

(** What the code does: the files come out in the order of their keys, XML
    flag first, and files with the same key keep their order. *)
Lemma DeploymentOrder_sorted (files : list ABAPFile) :
  ordered_by less (DeploymentOrder files).
Proof.
  intros i j x y Hij Hi Hj.
  exact (StronglySorted_nth _ _
           (SliceStable_sorted less less_asym not_less_trans files) i j x y Hij Hi Hj).
Qed.

Lemma DeploymentOrder_stable (f : ABAPFile) (files : list ABAPFile) :
  filter (tied less f) (DeploymentOrder files) = filter (tied less f) files.
Proof. apply SliceStable_stable, not_less_trans. Qed.

(** Between two sources, or between two XML files, the comparison is the
    specified one; the two differ only across the XML flag. *)
Lemma less_agrees_within_kind (fi fj : ABAPFile) :
  IsXML fi = IsXML fj -> less fi fj = spec_precedes fi fj.
Proof.
  intros H. unfold less, spec_precedes. rewrite H, Bool.eqb_reflx. cbn.
  reflexivity.
Qed.

(** On an archive of source files alone the order is the specified one. *)
Lemma DeploymentOrder_sources_as_specified (files : list ABAPFile) :
  Forall (fun f => IsXML f = false) files ->
  ordered_by spec_precedes (DeploymentOrder files).
Proof.
  intros Hsrc i j x y Hij Hi Hj.
  assert (Hout : Forall (fun f => IsXML f = false) (DeploymentOrder files))
    by (eapply Permutation_Forall; [apply DeploymentOrder_perm | exact Hsrc]).
  rewrite Forall_forall in Hout.
  rewrite <- less_agrees_within_kind.
  - exact (DeploymentOrder_sorted files i j x y Hij Hi Hj).
  - rewrite (Hout x (nth_error_In _ _ Hi)), (Hout y (nth_error_In _ _ Hj)). reflexivity.
Qed.

(** The two sample files are what the file names parse to. *)
Example sample_files_parse :
  ParseAbapGitFilename ascii_only "src/zdom.doma.xml" = ("DOMA", "ZDOM", "", true) /\
  ParseAbapGitFilename ascii_only "src/zcl_a.clas.abap" = ("CLAS", "ZCL_A", "", false).
Proof. split; vm_compute; reflexivity. Qed.

(** C7, what the code does.  The comparison looks at the XML flag before
    the type priority, so every source file comes before every XML file: the
    source of a class (priority 6) is placed before the metadata of a domain
    (priority 2), against the type order INTF < DOMA < ... < CLAS. *)
Theorem DeploymentOrder_puts_class_before_domain :
  DeploymentOrder [zdom_xml; zcl_a_abap] = [zcl_a_abap; zdom_xml] /\
  spec_precedes zdom_xml zcl_a_abap = true /\
  (ordered_by spec_precedes (DeploymentOrder [zdom_xml; zcl_a_abap]) -> False).
Proof.
  split; [vm_compute; reflexivity|]. split; [vm_compute; reflexivity|].
  intros H. specialize (H 0 1 zcl_a_abap zdom_xml (Nat.lt_0_1) eq_refl eq_refl).
  vm_compute in H. discriminate.
Qed.

(** *** Phase 2 of handleDeployZip *)

Section HandlerFacts.
Variable c : Backend.
Variable unicode_lower : string -> string.
Variable PathEscape : string -> string.

Ltac answers :=
  repeat (cbn -[String.eqb String.append ToUpper ToLower] in *;
          match goal with
          | |- context [match ?x with _ => _ end] =>
              lazymatch type of x with
              | result _ => destruct x eqn:?
              | bool => destruct x eqn:?
              end
          end).

(** One iteration of the upload loop. *)
Lemma upload_one_calls (n i : nat) (creatableType : CreatableObjectType)
    (urlPattern : string) (obj : DeploymentObject) (st : Phase2) (h : Trace) :
  lookup objectTypeMapping (Deps.Type_ obj) = Some (creatableType, urlPattern) ->
  let (st', evs) := upload_one c unicode_lower PathEscape n i urlPattern obj st h in
  upload_calls unicode_lower PathEscape obj evs /\
  existsb is_syntax_check evs = false /\
  uploadFailed st' = uploadFailed st + (if block_failed evs then 1 else 0) /\
  uploadSuccess st' = uploadSuccess st + (if block_uploaded evs then 1 else 0).
Proof.
  intros Hmap. unfold upload_calls. rewrite Hmap. clear Hmap.
  unfold upload_one, bind, LockObject, UpdateSource, UnlockObject, call, ret.
  answers; (split; [| repeat split; cbn; lia]);
    first [ left; eexists; reflexivity | right; do 3 eexists; reflexivity ].
Qed.

(** C5, as the code has it.  The calls of Phase 2 are, object by object:
    Lock, PUT of the main source under the returned handle, Unlock of that
    handle, whenever the Lock succeeds (the Unlock follows the PUT also when
    the PUT fails, and the object then counts as failed); the Lock alone
    when it is refused, the object counting as failed.  No syntax check is
    among them. *)
Theorem phase2_lock_put_unlock (objs : list DeploymentObject) (n i : nat)
    (st : Phase2) (h : Trace) :
  phase2_as_built unicode_lower PathEscape objs st
    (fst (phase2 c unicode_lower PathEscape n i objs st h))
    (snd (phase2 c unicode_lower PathEscape n i objs st h)) /\
  existsb is_syntax_check (snd (phase2 c unicode_lower PathEscape n i objs st h)) = false.
Proof.
  revert i st h. induction objs as [|obj objs IH]; intros i st h.
  - cbn. split; [|reflexivity]. exists []. cbn. repeat split; [constructor | lia | lia].
  - cbn [phase2].
    destruct (lookup objectTypeMapping (Deps.Type_ obj))
      as [[creatableType urlPattern]|] eqn:Hmap.
    + unfold bind.
      pose proof (upload_one_calls n i creatableType urlPattern obj st h Hmap) as Hone.
      destruct (upload_one c unicode_lower PathEscape n i urlPattern obj st h) as [st1 evs].
      destruct Hone as (Hcalls & Hnocheck & Hfailed & Huploaded).
      specialize (IH (S i) st1 (h ++ evs)).
      destruct (phase2 c unicode_lower PathEscape n (S i) objs st1 (h ++ evs)) as [st2 tr].
      cbn [fst snd] in *.
      destruct IH as ((blocks & Htr & Hall & Hf & Hu) & Hnone).
      split.
      * exists (evs :: blocks). cbn [List.concat filter]. rewrite Htr.
        split; [reflexivity|]. split; [constructor; assumption|].
        rewrite Hf, Hu, Hfailed, Huploaded.
        destruct (block_failed evs), (block_uploaded evs); cbn [List.length]; split; lia.
      * rewrite existsb_app, Hnocheck, Hnone. reflexivity.
    + specialize (IH (S i) st h).
      destruct (phase2 c unicode_lower PathEscape n (S i) objs st h) as [st2 tr].
      cbn [fst snd] in *.
      destruct IH as ((blocks & Htr & Hall & Hf & Hu) & Hnone).
      split; [|exact Hnone].
      exists ([] :: blocks). cbn [List.concat filter app block_failed block_uploaded].
      split; [exact Htr|]. split; [|split; assumption].
      constructor; [|assumption]. unfold upload_calls. rewrite Hmap. reflexivity.
Qed.

End HandlerFacts.

(** C5, as stated, fails: when the system refuses the lock, the Lock is the
    only call made for the object; no PUT and no Unlock follow. *)
Lemma phase2_refused_lock_issues_no_put :
  snd (phase2 lock_refusing ascii_only ascii_only 1 0 [zcl_a] phase2_start []) =
    [EvLockObject "/sap/bc/adt/oo/classes/zcl_a" "MODIFY"
       (Err "locking object: locked by user DEVELOPER")] /\
  (phase2_as_specified ascii_only ascii_only [zcl_a]
     (snd (phase2 lock_refusing ascii_only ascii_only 1 0 [zcl_a] phase2_start []))
   -> False).
Proof.
  split; [vm_compute; reflexivity|].
  intros (blocks & Htr & Hall).
  inversion Hall as [|obj b objs bs Hb Hrest]; subst. inversion Hrest; subst.
  unfold always_lock_put_unlock in Hb. cbn in Hb.
  destruct Hb as (lock & r & r' & ->).
  vm_compute in Htr. discriminate.
Qed.

End DeployProofs.

(** ** More facts about the string functions *)

Module StringFacts.
Import GoStrings.
Local Open Scope string_scope.

Lemma append_length (a b : string) :
  String.length (a ++ b) = String.length a + String.length b.
Proof. induction a as [|c a IH]; cbn; [reflexivity | rewrite IH; reflexivity]. Qed.

Lemma append_empty_r (a : string) : a ++ "" = a.
Proof. induction a as [|c a IH]; cbn; [reflexivity | rewrite IH; reflexivity]. Qed.

Lemma append_assoc (a b c : string) : (a ++ b) ++ c = a ++ b ++ c.
Proof. induction a as [|x a IH]; cbn; [reflexivity | rewrite IH; reflexivity]. Qed.

Lemma substring_0_app (a b : string) : substring 0 (String.length a) (a ++ b) = a.
Proof. induction a as [|c a IH]; cbn; [destruct b; reflexivity | rewrite IH; reflexivity]. Qed.

Lemma substring_skip (a b : string) (n m : nat) :
  substring (String.length a + n) m (a ++ b) = substring n m b.
Proof. induction a as [|c a IH]; cbn; [reflexivity | exact IH]. Qed.

Lemma substring_all (s : string) : substring 0 (String.length s) s = s.
Proof. induction s as [|c s IH]; cbn; [reflexivity | rewrite IH; reflexivity]. Qed.

Lemma substring_split (s : string) (n : nat) :
  n <= String.length s ->
  s = substring 0 n s ++ substring n (String.length s - n) s.
Proof.
  revert n. induction s as [|c s IH]; intros n Hn; cbn in *.
  - destruct n; [reflexivity | lia].
  - destruct n as [|n]; cbn.
    + rewrite substring_all. reflexivity.
    + f_equal. apply IH. lia.
Qed.

(** [strings.HasPrefix(s, p)]: [s] starts with [p]. *)
Lemma HasPrefix_iff (s p : string) : HasPrefix s p = true <-> exists r, s = p ++ r.
Proof.
  unfold HasPrefix. rewrite andb_true_iff, Nat.leb_le, String.eqb_eq. split.
  - intros [Hlen E]. exists (substring (String.length p) (String.length s - String.length p) s).
    rewrite <- E at 1. apply substring_split, Hlen.
  - intros [r ->]. rewrite append_length, substring_0_app. split; [lia | reflexivity].
Qed.

Lemma HasPrefix_app (p r : string) : HasPrefix (p ++ r) p = true.
Proof. apply HasPrefix_iff. exists r. reflexivity. Qed.

(** [strings.HasSuffix(s, suffix)]: [s] ends with [suffix]. *)
Lemma HasSuffix_iff (s suffix : string) :
  HasSuffix s suffix = true <-> exists p, s = p ++ suffix.
Proof.
  unfold HasSuffix. rewrite andb_true_iff, Nat.leb_le, String.eqb_eq. split.
  - intros [Hlen E]. exists (substring 0 (String.length s - String.length suffix) s).
    pose proof (substring_split s (String.length s - String.length suffix)) as H.
    replace (String.length s - (String.length s - String.length suffix))
      with (String.length suffix) in H by lia.
    rewrite E in H. apply H. lia.
  - intros [p ->]. rewrite append_length. split; [lia|].
    replace (String.length p + String.length suffix - String.length suffix)
      with (String.length p + 0) by lia.
    rewrite substring_skip. apply substring_all.
Qed.

Lemma HasSuffix_app (p suffix : string) : HasSuffix (p ++ suffix) suffix = true.
Proof. apply HasSuffix_iff. exists p. reflexivity. Qed.

Lemma TrimSuffix_app (p suffix : string) : TrimSuffix (p ++ suffix) suffix = p.
Proof.
  unfold TrimSuffix. rewrite HasSuffix_app, append_length.
  replace (String.length p + String.length suffix - String.length suffix)
    with (String.length p) by lia.
  apply substring_0_app.
Qed.

(** Whether [p ++ e] ends with a suffix no longer than [e] is decided by
    [e]. *)
Lemma HasSuffix_app_short (p e suffix : string) :
  String.length suffix <= String.length e ->
  HasSuffix (p ++ e) suffix = HasSuffix e suffix.
Proof.
  intros Hlen. unfold HasSuffix. rewrite append_length.
  replace (String.length p + String.length e - String.length suffix)
    with (String.length p + (String.length e - String.length suffix)) by lia.
  rewrite substring_skip.
  replace (String.length suffix <=? String.length p + String.length e)%nat with true
    by (symmetry; apply Nat.leb_le; lia).
  replace (String.length suffix <=? String.length e)%nat with true
    by (symmetry; apply Nat.leb_le; lia).
  reflexivity.
Qed.

Lemma list_ascii_app (a b : string) :
  list_ascii_of_string (a ++ b) = (list_ascii_of_string a ++ list_ascii_of_string b)%list.
Proof. induction a as [|c a IH]; cbn; [reflexivity | rewrite IH; reflexivity]. Qed.

Lemma ContainsRune_app (a b : string) (r : ascii) :
  ContainsRune (a ++ b) r = ContainsRune a r || ContainsRune b r.
Proof.
  induction a as [|c a IH]; cbn; [reflexivity|]. rewrite IH, orb_assoc. reflexivity.
Qed.

End StringFacts.

(** ** The workflows: writes under the lock, and what success means *)

Module DisciplineProofs.
Import GoStrings Codec Client Workflow Discipline.
Local Open Scope string_scope.
Local Open Scope list_scope.

Section Facts.
Variable c : Backend.
Variable unicode : string -> string.

Ltac answers :=
  repeat (cbn -[String.eqb String.append ToUpper];
          rewrite ?String.eqb_refl;
          match goal with
          | |- context [match ?x with _ => _ end] =>
              match type of x with
              | result _ => destruct x eqn:?
              | bool => destruct x eqn:?
              end
          end).

Ltac run :=
  unfold WriteProgram, WriteClass, CreateAndActivateProgram, CreateClassWithTests,
    write_object, update_unlock_activate, class_with_tests_locked, deferred_unlock,
    bind, SyntaxCheck, LockObject, UnlockObject, UpdateSource, Activate, CreateObject,
    CreateTestInclude, UpdateClassInclude, RunUnitTests, call, ret,
    set_Message, set_Success, set_Activation, set_SyntaxErrors,
    ct_set_Message, ct_set_Success, ct_set_Activation, ct_set_UnitTestResult;
  answers; cbn -[String.eqb String.append ToUpper]; rewrite ?String.eqb_refl;
  repeat match goal with
         | H : negb _ = true |- _ => apply negb_true_iff in H
         | H : negb _ = false |- _ => apply negb_false_iff in H
         | u : unit |- _ => destruct u
         end.

(** X1.  In every execution of WriteProgram, WriteClass,
    CreateAndActivateProgram and CreateClassWithTests, from any history and
    against any system, each call that writes to the object (UpdateSource,
    CreateTestInclude, UpdateClassInclude) comes after a successful
    LockObject with no UnlockObject in between, and carries the handle that
    lock returned. *)
Theorem workflows_write_under_lock (h : Trace) :
  (forall programName source transport,
     writes_under_lock None (snd (WriteProgram c unicode programName source transport h))
       = true) /\
  (forall className source transport,
     writes_under_lock None (snd (WriteClass c unicode className source transport h))
       = true) /\
  (forall programName description packageName source transport,
     writes_under_lock None
       (snd (CreateAndActivateProgram c unicode programName description packageName source
               transport h)) = true) /\
  (forall className description packageName classSource testSource transport,
     writes_under_lock None
       (snd (CreateClassWithTests c unicode className description packageName classSource
               testSource transport h)) = true).
Proof.
  repeat split; intros; run; reflexivity.
Qed.

Ltac the_calls :=
  repeat match goal with u : unit |- _ => destruct u end;
  do 3 eexists; repeat split; eauto.

Ltac other_calls :=
  let H := fresh in
  intros (? & ? & ? & H & ?); cbn in H; try discriminate H;
  injection H; intros; subst; congruence.

(** X2.  WriteProgram and WriteClass report success exactly when their calls
    are the five of a complete write, each answered without error: the
    syntax check of the new source with no diagnostic of severity E, A or X,
    Lock in mode MODIFY, the update of source/main under the returned
    handle, Unlock of that handle, and an activation that succeeded; the
    result then carries those diagnostics and that activation. *)
Theorem write_succeeds_by_five_calls (source transport : string) (h : Trace) :
  (forall programName,
     let name := ToUpper unicode programName in
     let run := WriteProgram c unicode programName source transport h in
     Success (fst run) = true <->
     exists diags lock act,
       snd run = write_calls ("/sap/bc/adt/programs/programs/" ++ name) name source transport
                   diags lock act /\
       has_syntax_errors diags = false /\ Codec.Success act = true /\
       SyntaxErrors (fst run) = diags /\ Activation (fst run) = Some act) /\
  (forall className,
     let name := ToUpper unicode className in
     let run := WriteClass c unicode className source transport h in
     Success (fst run) = true <->
     exists diags lock act,
       snd run = write_calls ("/sap/bc/adt/oo/classes/" ++ name) name source transport
                   diags lock act /\
       has_syntax_errors diags = false /\ Codec.Success act = true /\
       SyntaxErrors (fst run) = diags /\ Activation (fst run) = Some act).
Proof.
  split; intros ?; cbv zeta; unfold write_calls; run;
    (split; [ try discriminate; intros _; the_calls | try other_calls ]).
Qed.

(** X3.  CreateAndActivateProgram reports success exactly when its calls
    are: the creation of the program under the upper-cased name and package,
    Lock, the update of source/main under the returned handle, Unlock of
    that handle, and an activation that succeeded, each answered without
    error. *)
Theorem create_program_succeeds_by_five_calls
    (programName description packageName source transport : string) (h : Trace) :
  let run :=
    CreateAndActivateProgram c unicode programName description packageName source transport h in
  Success (fst run) = true <->
  exists lock act,
    snd run = create_program_calls (ToUpper unicode programName) description
                (ToUpper unicode packageName) source transport lock act /\
    Codec.Success act = true /\ Activation (fst run) = Some act.
Proof.
  cbv zeta; unfold create_program_calls; run;
    (split;
     [ try discriminate; intros _;
       repeat match goal with u : unit |- _ => destruct u end;
       do 2 eexists; repeat split; eauto
     | try (let H := fresh in
            intros (? & ? & H & ?); cbn in H; try discriminate H;
            injection H; intros; subst; congruence) ]).
Qed.

(** X4.  CreateClassWithTests reports success exactly when the class was
    created, locked, written, given its test include and test source under
    the lock, unlocked and activated, each call answered without error and
    the activation a success; the unit tests are then run once, and whether
    that run fails does not matter for success: the result carries the test
    result when the run returned one and none otherwise. *)
Theorem class_with_tests_succeeds_when_activated
    (className description packageName classSource testSource transport : string)
    (h : Trace) :
  let run :=
    CreateClassWithTests c unicode className description packageName classSource testSource
      transport h in
  ct_Success (fst run) = true <->
  exists lock act tested,
    snd run = class_with_tests_calls (ToUpper unicode className) description
                (ToUpper unicode packageName) classSource testSource transport
                lock act tested /\
    Codec.Success act = true /\
    ct_Activation (fst run) = Some act /\
    ct_UnitTestResult (fst run) = test_result_of tested.
Proof.
  cbv zeta; unfold class_with_tests_calls; run;
    (split;
     [ try discriminate; intros _;
       repeat match goal with u : unit |- _ => destruct u end;
       do 3 eexists; repeat split; eauto
     | try (let H := fresh in
            intros (? & ? & ? & H & ?); cbn in H; try discriminate H;
            injection H; intros; subst; congruence) ]).
Qed.

End Facts.
End DisciplineProofs.

(** ** The deployment order, the groups and the plan *)

Module PlanProofs.
Import GoStrings Deps Plans DeployProofs.
Local Open Scope string_scope.
Local Open Scope list_scope.

(** *** DeploymentOrder *)

(** X5.  DeploymentOrder returns the files it was given (a permutation of
    them), sorted by its comparison, with files that the comparison does not
    separate left in the order they came in. *)
Theorem DeploymentOrder_stable_sort (files : list ABAPFile) :
  Permutation files (DeploymentOrder files) /\
  ordered_by less (DeploymentOrder files) /\
  (forall f, filter (tied less f) (DeploymentOrder files) = filter (tied less f) files).
Proof.
  split; [apply DeploymentOrder_perm|]. split; [apply DeploymentOrder_sorted|].
  intros f. apply DeploymentOrder_stable.
Qed.

Lemma SliceStable_fixes_sorted {A} (lt : A -> A -> bool) (l : list A) :
  StronglySorted (not_after lt) l -> SliceStable lt l = l.
Proof.
  induction 1 as [|x l Hl IH Hx]; cbn; [reflexivity|].
  rewrite IH. destruct l as [|y l]; [reflexivity|]. cbn.
  inversion Hx as [|? ? Hxy _]; subst. unfold not_after in Hxy. rewrite Hxy. reflexivity.
Qed.

(** X6.  Ordering a list that DeploymentOrder has already ordered changes
    nothing. *)
Theorem DeploymentOrder_idempotent (files : list ABAPFile) :
  DeploymentOrder (DeploymentOrder files) = DeploymentOrder files.
Proof.
  unfold DeploymentOrder. apply SliceStable_fixes_sorted.
  apply SliceStable_sorted; [exact less_asym | exact not_less_trans].
Qed.

Lemma insert_stable_before {A} (lt : A -> A -> bool) (x : A) (l1 l2 : list A) :
  Forall (fun y => lt y x = true) l1 ->
  insert_stable lt x (l1 ++ l2) = l1 ++ insert_stable lt x l2.
Proof.
  induction 1 as [|y l1 Hy _ IH]; cbn; [reflexivity|]. rewrite Hy, IH. reflexivity.
Qed.

Lemma insert_stable_within {A} (lt : A -> A -> bool) (x : A) (l1 l2 : list A) :
  Forall (fun y => lt y x = false) l2 ->
  insert_stable lt x (l1 ++ l2) = insert_stable lt x l1 ++ l2.
Proof.
  intros H2. induction l1 as [|y l1 IH]; cbn.
  - destruct H2 as [|z l2 Hz _]; cbn; [reflexivity|]. rewrite Hz. reflexivity.
  - destruct (lt y x); [rewrite IH|]; reflexivity.
Qed.

Lemma In_DeploymentOrder (f : ABAPFile) (files : list ABAPFile) :
  In f (DeploymentOrder files) <-> In f files.
Proof.
  split; apply Permutation_in; [symmetry|]; apply DeploymentOrder_perm.
Qed.

(** X7.  The deployment order of an archive is the deployment order of its
    source files followed by the deployment order of its XML metadata files:
    all sources of all objects come before any metadata. *)
Theorem DeploymentOrder_sources_then_metadata (files : list ABAPFile) :
  DeploymentOrder files =
  DeploymentOrder (sources_of files) ++ DeploymentOrder (metadata_of files).
Proof.
  unfold sources_of, metadata_of.
  induction files as [|x files IH]; [reflexivity|].
  change (DeploymentOrder (x :: files)) with (insert_stable less x (DeploymentOrder files)).
  rewrite IH. cbn [filter]. destruct (IsXML x) eqn:Hx; cbn [negb].
  - change (DeploymentOrder (x :: filter IsXML files))
      with (insert_stable less x (DeploymentOrder (filter IsXML files))).
    apply insert_stable_before. apply Forall_forall. intros y Hy.
    apply In_DeploymentOrder, filter_In in Hy. destruct Hy as [_ Hy].
    apply negb_true_iff in Hy. unfold less. rewrite Hy, Hx. reflexivity.
  - change (DeploymentOrder (x :: filter (fun f => negb (IsXML f)) files))
      with (insert_stable less x (DeploymentOrder (filter (fun f => negb (IsXML f)) files))).
    apply insert_stable_within. apply Forall_forall. intros y Hy.
    apply In_DeploymentOrder, filter_In in Hy. destruct Hy as [_ Hy].
    unfold less. rewrite Hy, Hx. reflexivity.
Qed.

(** *** GroupByObject *)

Lemma lookup_map_set {V} (m : list (string * V)) (k k' : string) (v : V) :
  lookup (map_set m k v) k' = if String.eqb k k' then Some v else lookup m k'.
Proof.
  induction m as [|[k0 v0] m IH]; cbn.
  - destruct (String.eqb k k'); reflexivity.
  - destruct (String.eqb_spec k0 k) as [-> | Hne]; cbn.
    + destruct (String.eqb k k'); reflexivity.
    + rewrite IH. destruct (String.eqb_spec k0 k') as [-> | Hne'].
      * destruct (String.eqb_spec k k'); [congruence | reflexivity].
      * reflexivity.
Qed.

Lemma fold_group_step_lookup (files : list ABAPFile) (groups : list (string * list ABAPFile))
    (k : string) :
  lookup (fold_left group_step files groups) k =
  joined (lookup groups k) (files_of_key k files).
Proof.
  revert groups. induction files as [|f files IH]; intros groups.
  - cbn. unfold joined. destruct (lookup groups k); [rewrite app_nil_r|]; reflexivity.
  - cbn [fold_left]. rewrite IH. unfold group_step at 1. cbv zeta. rewrite lookup_map_set.
    unfold files_of_key. cbn [filter]. fold (files_of_key k files).
    destruct (String.eqb_spec (group_key f) k) as [E | Hne]; [|reflexivity].
    rewrite E. unfold joined.
    destruct (lookup groups k); cbn; [rewrite <- app_assoc|]; reflexivity.
Qed.

Lemma GroupByObject_group (files : list ABAPFile) (key : string) :
  lookup (GroupByObject files) key = joined None (files_of_key key files).
Proof.
  unfold GroupByObject.
  change (fun groups f => _) with group_step.
  apply fold_group_step_lookup.
Qed.

(** X8.  GroupByObject has a group for a key TYPE/NAME exactly when some
    file has that type and name, and the group holds the files of that key,
    all of them, in the order of the list. *)
Theorem GroupByObject_lookup (files : list ABAPFile) (key : string) :
  lookup (GroupByObject files) key =
  match files_of_key key files with
  | [] => None
  | group => Some group
  end.
Proof.
  rewrite GroupByObject_group. destruct (files_of_key key files); reflexivity.
Qed.

(** *** CreateDeploymentPlan *)

Lemma existsb_eqb_In (k : string) (l : list string) :
  existsb (String.eqb k) l = true <-> In k l.
Proof.
  rewrite existsb_exists. split.
  - intros (x & Hx & E). apply String.eqb_eq in E. subst. exact Hx.
  - intros H. exists k. split; [exact H | apply String.eqb_refl].
Qed.

Lemma first_keys_ext (s1 s2 : list string) (files : list ABAPFile) :
  (forall k, In k s1 <-> In k s2) -> first_keys s1 files = first_keys s2 files.
Proof.
  revert s1 s2. induction files as [|f files IH]; intros s1 s2 H; cbn; [reflexivity|].
  assert (E : existsb (String.eqb (group_key f)) s1 = existsb (String.eqb (group_key f)) s2).
  { apply eq_true_iff_eq. rewrite !existsb_eqb_In. apply H. }
  rewrite E. destruct (existsb _ s2).
  - apply IH, H.
  - f_equal. apply IH. intros k. cbn. rewrite H. reflexivity.
Qed.

Lemma lookup_Some_In {V} (m : list (string * V)) (k : string) :
  (exists v, lookup m k = Some v) <-> In k (map fst m).
Proof.
  induction m as [|[k0 v0] m IH]; cbn.
  - split; [intros [v H]; discriminate | intros []].
  - destruct (String.eqb_spec k0 k) as [-> | Hne].
    + split; [left; reflexivity | intros _; eexists; reflexivity].
    + rewrite IH. split; [right; assumption | intros [E | H]; [contradiction | exact H]].
Qed.

Lemma map_set_keys {V} (m : list (string * V)) (k : string) (v : V) :
  map fst (map_set m k v) =
  if existsb (String.eqb k) (map fst m) then map fst m else map fst m ++ [k].
Proof.
  induction m as [|[k0 v0] m IH]; cbn; [reflexivity|].
  rewrite (String.eqb_sym k k0).
  destruct (String.eqb_spec k0 k) as [-> | Hne]; cbn; [reflexivity|].
  rewrite IH. destruct (existsb _ (map fst m)); reflexivity.
Qed.

Lemma fold_group_step_keys (files : list ABAPFile) (groups : list (string * list ABAPFile)) :
  map fst (fold_left group_step files groups) =
  map fst groups ++ first_keys (map fst groups) files.
Proof.
  revert groups. induction files as [|f files IH]; intros groups; cbn [fold_left first_keys].
  - rewrite app_nil_r. reflexivity.
  - rewrite IH. unfold group_step at 1 2. cbv zeta. rewrite map_set_keys.
    destruct (existsb (String.eqb (group_key f)) (map fst groups)); [reflexivity|].
    rewrite <- app_assoc. cbn [app]. do 2 f_equal.
    apply first_keys_ext. intros k. rewrite in_app_iff. cbn. tauto.
Qed.

Lemma GroupByObject_keys (files : list ABAPFile) :
  map fst (GroupByObject files) = first_keys [] files.
Proof.
  unfold GroupByObject. change (fun groups f => _) with group_step.
  rewrite fold_group_step_keys. reflexivity.
Qed.

Lemma first_keys_fresh (seen : list string) (files : list ABAPFile) (k : string) :
  In k (first_keys seen files) ->
  ~ In k seen /\ exists f, In f files /\ group_key f = k.
Proof.
  revert seen. induction files as [|f files IH]; intros seen; cbn; [intros []|].
  destruct (existsb (String.eqb (group_key f)) seen) eqn:E.
  - intros H. destruct (IH _ H) as (Hn & g & Hg & Ek).
    split; [exact Hn|]. exists g. split; [right; exact Hg | exact Ek].
  - intros [<- | H].
    + split.
      * rewrite <- existsb_eqb_In, E. discriminate.
      * exists f. split; [left; reflexivity | reflexivity].
    + destruct (IH _ H) as (Hn & g & Hg & Ek). split.
      * intros Hin. apply Hn. right. exact Hin.
      * exists g. split; [right; exact Hg | exact Ek].
Qed.

Lemma first_keys_NoDup (seen : list string) (files : list ABAPFile) :
  NoDup (first_keys seen files).
Proof.
  revert seen. induction files as [|f files IH]; intros seen; cbn; [constructor|].
  destruct (existsb (String.eqb (group_key f)) seen); [apply IH|].
  constructor; [|apply IH].
  intros H. apply first_keys_fresh in H. destruct H as [H _]. apply H. left. reflexivity.
Qed.

Lemma first_keys_complete (seen : list string) (files : list ABAPFile) (f : ABAPFile) :
  In f files -> In (group_key f) seen \/ In (group_key f) (first_keys seen files).
Proof.
  revert seen. induction files as [|g files IH]; intros seen; cbn; [intros []|].
  intros [-> | H].
  - destruct (existsb (String.eqb (group_key f)) seen) eqn:E.
    + left. apply existsb_eqb_In, E.
    + right. left. reflexivity.
  - destruct (existsb (String.eqb (group_key g)) seen) eqn:E.
    + apply IH, H.
    + destruct (IH (group_key g :: seen) H) as [[<- | Hs] | Hk].
      * right. left. reflexivity.
      * left. exact Hs.
      * right. right. exact Hk.
Qed.

Lemma last_cons {A} (x d : A) (l : list A) : last (x :: l) d = last l x.
Proof.
  revert x d. induction l as [|y l IH]; intros x d; [reflexivity|].
  change (last (x :: y :: l) d) with (last (y :: l) d). rewrite !IH. reflexivity.
Qed.

(** The loop over the files of an object keeps the type and the name and
    takes each part from the last file that has it. *)
Lemma fold_add_file (group : list ABAPFile) (obj : DeploymentObject) :
  let r := fold_left add_file group obj in
  Type_ r = Type_ obj /\ Name r = Name obj /\
  XMLMetadata r = last (map Content (filter IsXML group)) (XMLMetadata obj) /\
  MainSource r = last (map Content (filter is_main group)) (MainSource obj) /\
  (Description obj = ExtractDescription (XMLMetadata obj) ->
   Description r = ExtractDescription (XMLMetadata r)).
Proof.
  revert obj. induction group as [|f group IH]; intros obj; cbn [fold_left].
  - cbn. auto.
  - destruct (IH (add_file obj f)) as (HT & HN & HX & HM & HD). clear IH.
    assert (step :
      Type_ (add_file obj f) = Type_ obj /\ Name (add_file obj f) = Name obj /\
      XMLMetadata (add_file obj f) = (if IsXML f then Content f else XMLMetadata obj) /\
      MainSource (add_file obj f) = (if is_main f then Content f else MainSource obj) /\
      (Description obj = ExtractDescription (XMLMetadata obj) ->
       Description (add_file obj f) = ExtractDescription (XMLMetadata (add_file obj f)))).
    { unfold add_file, is_main.
      destruct (IsXML f); [|destruct (String.eqb (IncludeType f) "")]; cbn; auto. }
    destruct step as (ST & SN & SX & SM & SD). cbv zeta.
    split; [rewrite HT; exact ST|]. split; [rewrite HN; exact SN|].
    split; [|split].
    + rewrite HX, SX. cbn [filter]. destruct (IsXML f); cbn [map];
        rewrite ?last_cons; reflexivity.
    + rewrite HM, SM. cbn [filter]. destruct (is_main f); cbn [map];
        rewrite ?last_cons; reflexivity.
    + intros H. apply HD, SD, H.
Qed.

Lemma plan_objects_keys (groups : list (string * list ABAPFile)) (sorted : list ABAPFile)
    (added : list string) :
  map object_key (plan_objects groups sorted added) = first_keys added sorted.
Proof.
  revert added. induction sorted as [|f sorted IH]; intros added; cbn; [reflexivity|].
  destruct (existsb (String.eqb (group_key f)) added); [apply IH|].
  cbn. rewrite IH. f_equal.
  unfold object_key.
  destruct (fold_add_file
              match lookup groups (group_key f) with Some l => l | None => [] end
              {| Type_ := ObjectType f; Name := ObjectName f; Description := "";
                 MainSource := ""; Includes := []; XMLMetadata := "" |}) as (HT & HN & _).
  rewrite HT, HN. reflexivity.
Qed.

Lemma plan_objects_built (all : list ABAPFile) (sorted : list ABAPFile) (added : list string) :
  (forall f, In f sorted -> In f all) ->
  Forall (built_from all) (plan_objects (GroupByObject all) sorted added).
Proof.
  revert added. induction sorted as [|f sorted IH]; intros added Hsub; cbn; [constructor|].
  destruct (existsb (String.eqb (group_key f)) added).
  { apply IH. intros g Hg. apply Hsub. right. exact Hg. }
  constructor; [|apply IH; intros g Hg; apply Hsub; right; exact Hg].
  rewrite GroupByObject_group.
  set (obj0 := {| Type_ := ObjectType f; Name := ObjectName f; Description := "";
                  MainSource := ""; Includes := []; XMLMetadata := "" |}).
  assert (Hin : In f (files_of_key (group_key f) all)).
  { apply filter_In. split; [apply Hsub; left; reflexivity | apply String.eqb_refl]. }
  destruct (files_of_key (group_key f) all) as [|g group] eqn:Egroup; [destruct Hin|].
  cbn [joined].
  destruct (fold_add_file (g :: group) obj0) as (HT & HN & HX & HM & HD).
  unfold built_from. cbv zeta.
  replace (object_key (fold_left add_file (g :: group) obj0)) with (group_key f)
    by (unfold object_key, group_key; rewrite HT, HN; reflexivity).
  rewrite Egroup. unfold last_content.
  split; [discriminate|]. split; [exact HX|]. split; [exact HM|].
  apply HD. reflexivity.
Qed.

(** X9.  In a deployment plan TotalFiles is the number of files given,
    TotalObjects is the number of objects listed, and the keys TYPE/NAME of
    the objects of the plan are the keys of the files, each key once. *)
Theorem CreateDeploymentPlan_counts (depName packageName : string) (files : list ABAPFile) :
  let plan := CreateDeploymentPlan depName packageName files in
  TotalFiles plan = List.length files /\
  TotalObjects plan = List.length (Objects plan) /\
  NoDup (map object_key (Objects plan)) /\
  (forall key, In key (map object_key (Objects plan)) <->
               exists f, In f files /\ group_key f = key).
Proof.
  cbv zeta. unfold CreateDeploymentPlan. cbn [TotalFiles TotalObjects Objects].
  rewrite plan_objects_keys.
  split; [reflexivity|]. split.
  - rewrite <- (length_map fst), GroupByObject_keys.
    rewrite <- (plan_objects_keys (GroupByObject (DeploymentOrder files))).
    apply length_map.
  - split; [apply first_keys_NoDup|].
    intros key. split.
    + intros H. apply first_keys_fresh in H. destruct H as (_ & f & Hf & E).
      exists f. split; [apply In_DeploymentOrder, Hf | exact E].
    + intros (f & Hf & <-).
      destruct (first_keys_complete [] (DeploymentOrder files) f) as [[] | H];
        [apply In_DeploymentOrder, Hf | exact H].
Qed.

(** X10.  Every object of a deployment plan is built from at least one file:
    its XML metadata is the content of the last XML file of its type and
    name in deployment order (empty when there is none), its main source the
    content of the last source file without include type, and its
    description is the one extracted from that metadata. *)
Theorem CreateDeploymentPlan_objects (depName packageName : string) (files : list ABAPFile) :
  Forall (built_from (DeploymentOrder files))
    (Objects (CreateDeploymentPlan depName packageName files)).
Proof.
  unfold CreateDeploymentPlan. cbn [Objects]. apply plan_objects_built. auto.
Qed.

End PlanProofs.

(** ** File names, the archive reader and the description *)

Module ArchiveProofs.
Import GoStrings Deps Archive StringFacts.
Local Open Scope string_scope.
Local Open Scope list_scope.

(** *** filepath.Base *)

Lemma ContainsRune_false (s : string) (r : ascii) :
  ContainsRune s r = false <-> Forall (fun c => Ascii.eqb c r = false) (list_ascii_of_string s).
Proof.
  induction s as [|c s IH]; cbn.
  - split; [constructor | reflexivity].
  - rewrite orb_false_iff, IH. split.
    + intros [H1 H2]. constructor; assumption.
    + intros H. inversion H; subst. split; assumption.
Qed.

Lemma strip_trailing_slashes_other (c : ascii) (rest : list ascii) :
  Ascii.eqb c "/" = false -> strip_trailing_slashes (c :: rest) = c :: rest.
Proof.
  destruct c as [[] [] [] [] [] [] [] []]; cbn; intros H; try reflexivity; discriminate.
Qed.

Lemma take_to_slash_app (l1 l2 : list ascii) :
  Forall (fun c => Ascii.eqb c "/" = false) l1 ->
  (l2 = [] \/ exists l, l2 = "/"%char :: l) ->
  take_to_slash (l1 ++ l2) = l1.
Proof.
  intros H1 H2. induction H1 as [|c l1 Hc _ IH]; cbn.
  - destruct H2 as [-> | [l ->]]; reflexivity.
  - rewrite Hc, IH. reflexivity.
Qed.

Lemma Base_of_file (dir file : string) :
  dir = "" \/ HasSuffix dir "/" = true ->
  file <> "" -> ContainsRune file "/" = false ->
  Base (dir ++ file) = file.
Proof.
  intros Hdir Hne Hfile. unfold Base.
  replace (String.eqb (dir ++ file) "") with false.
  2:{ symmetry. apply String.eqb_neq. intros E.
      apply (f_equal String.length) in E. rewrite append_length in E.
      destruct file; [contradiction | cbn in E; lia]. }
  rewrite list_ascii_app, rev_app_distr.
  apply ContainsRune_false in Hfile.
  assert (Hrev : Forall (fun c => Ascii.eqb c "/" = false) (rev (list_ascii_of_string file))).
  { apply Forall_rev, Hfile. }
  destruct (rev (list_ascii_of_string file)) as [|c rest] eqn:E.
  { exfalso. apply (f_equal (@rev ascii)) in E. rewrite rev_involutive in E. cbn in E.
    destruct file; [contradiction | discriminate]. }
  cbn [app]. rewrite strip_trailing_slashes_other by (inversion Hrev; assumption).
  change (c :: rest ++ rev (list_ascii_of_string dir))
    with ((c :: rest) ++ rev (list_ascii_of_string dir)).
  rewrite take_to_slash_app; [| exact Hrev |].
  - rewrite <- E, rev_involutive. apply string_of_list_ascii_of_string.
  - destruct Hdir as [-> | Hdir]; [left; reflexivity|].
    apply HasSuffix_iff in Hdir. destruct Hdir as [p ->].
    right. rewrite list_ascii_app, rev_app_distr. cbn. eexists. reflexivity.
Qed.

(** *** strings.Split on dots *)

Lemma split_dots_nonempty (s : string) : split_dots s <> [].
Proof.
  destruct s as [|c s]; cbn; [discriminate|].
  destruct (Ascii.eqb c "."); [discriminate|]. destruct (split_dots s); discriminate.
Qed.

Lemma split_dots_plain (s : string) :
  ContainsRune s "." = false -> split_dots s = [s].
Proof.
  induction s as [|c s IH]; cbn; [reflexivity|].
  rewrite orb_false_iff. intros [Hc Hs]. rewrite Hc, (IH Hs). reflexivity.
Qed.

Lemma split_dots_app (a rest : string) :
  ContainsRune a "." = false ->
  split_dots (a ++ "." ++ rest) = a :: split_dots rest.
Proof.
  induction a as [|c a IH]; cbn; [reflexivity|].
  rewrite orb_false_iff. intros [Hc Ha]. rewrite Hc. cbn in IH. rewrite (IH Ha). reflexivity.
Qed.

(** *** ParseAbapGitFilename *)

Ltac known_extension H :=
  unfold extensions in H; cbn [In] in H;
  repeat (destruct H as [<- | H]); [ .. | contradiction ].

(** The extension is recognised and removed. *)
Lemma extension_removed (stem ext : string) :
  In ext extensions ->
  HasSuffix (stem ++ ext) ".xml" = String.eqb ext ".xml" /\
  (if String.eqb ext ".xml" then TrimSuffix (stem ++ ext) ".xml"
   else trim_first_suffix (stem ++ ext) [".abap"; ".asddls"; ".asbdef"; ".srvdsrv"]) = stem.
Proof.
  intros H. known_extension H; cbn [String.eqb Ascii.eqb Bool.eqb trim_first_suffix];
    rewrite ?TrimSuffix_app.
  all: repeat (rewrite HasSuffix_app_short by (cbn; lia);
               match goal with
               | |- context [HasSuffix ?e ?s] =>
                   let b := eval vm_compute in (HasSuffix e s) in
                   change (HasSuffix e s) with b
               end; cbn iota).
  all: rewrite ?TrimSuffix_app; split; reflexivity.
Qed.

Lemma extension_plain (ext : string) :
  In ext extensions -> ext <> "" /\ ContainsRune ext "/" = false.
Proof. intros H. known_extension H; split; (discriminate || reflexivity). Qed.

Lemma typeMap_suffix_plain (suffix type : string) :
  lookup typeMap suffix = Some type ->
  ContainsRune suffix "." = false /\ ContainsRune suffix "/" = false.
Proof.
  unfold typeMap. cbn [lookup].
  repeat match goal with
         | |- context [String.eqb ?k suffix] =>
             destruct (String.eqb_spec k suffix) as [<- | _]; [intros _; split; reflexivity|]
         end.
  discriminate.
Qed.

Lemma include_type_plain (include : string) :
  is_include_type include = true ->
  include <> "" /\ ContainsRune include "." = false /\ ContainsRune include "/" = false.
Proof.
  unfold is_include_type. rewrite !orb_true_iff, !String.eqb_eq.
  intros [[[-> | ->] | ->] | ->]; repeat split; discriminate.
Qed.

Section ParseFacts.
Variable unicode : string -> string.

(** X11.  A file named as abapGit names it, name dot type suffix, dot
    include type for an include, and one of the five extensions, in any
    directory, parses to the object type of the suffix, the upper-cased
    name, the include type, and the XML flag exactly for the extension .xml;
    the name has no dot and no slash, the suffix is one of the type map, the
    include type one of the five known. *)
Theorem ParseAbapGitFilename_abapgit_name (dir name suffix type include ext : string) :
  dir = "" \/ HasSuffix dir "/" = true ->
  ContainsRune name "." = false -> ContainsRune name "/" = false ->
  lookup typeMap suffix = Some type ->
  include = "" \/ is_include_type include = true ->
  In ext extensions ->
  ParseAbapGitFilename unicode (dir ++ abapgit_name name suffix include ext)%string =
    (type, ToUpper unicode name, include, String.eqb ext ".xml").
Proof.
  intros Hdir Hdot Hslash Htype Hinc Hext.
  destruct (typeMap_suffix_plain _ _ Htype) as [Sdot Sslash].
  destruct (extension_plain _ Hext) as [Ene Eslash].
  set (stem := (name ++ "." ++ suffix ++
                 (if String.eqb include "" then "" else "." ++ include))%string).
  assert (Hname : abapgit_name name suffix include ext = (stem ++ ext)%string).
  { unfold abapgit_name, stem. rewrite !append_assoc. reflexivity. }
  assert (Hparts : split_dots stem =
                   name :: suffix :: (if String.eqb include "" then [] else [include])).
  { unfold stem. rewrite split_dots_app by exact Hdot. f_equal.
    destruct Hinc as [-> | Hinc].
    - cbn [String.eqb]. rewrite append_empty_r. apply split_dots_plain, Sdot.
    - destruct (include_type_plain _ Hinc) as (Ine & Idot & _).
      apply String.eqb_neq in Ine. rewrite Ine.
      rewrite split_dots_app by exact Sdot. f_equal. apply split_dots_plain, Idot. }
  assert (Hbase : Base (dir ++ abapgit_name name suffix include ext) = (stem ++ ext)%string).
  { rewrite Hname. apply Base_of_file; [exact Hdir | |].
    - intros E. apply (f_equal String.length) in E. rewrite append_length in E.
      destruct ext; [contradiction | cbn in E; lia].
    - unfold stem. rewrite !ContainsRune_app, Hslash, Sslash, Eslash. cbn.
      destruct Hinc as [-> | Hinc]; [reflexivity|].
      destruct (include_type_plain _ Hinc) as (Ine & _ & Islash).
      apply String.eqb_neq in Ine. rewrite Ine. cbn. rewrite Islash. reflexivity. }
  unfold ParseAbapGitFilename. cbv zeta. rewrite Hbase.
  destruct (extension_removed stem ext Hext) as [-> ->].
  rewrite Hparts, Htype.
  destruct Hinc as [-> | Hinc]; [reflexivity|].
  destruct (include_type_plain _ Hinc) as (Ine & _ & _).
  apply String.eqb_neq in Ine. rewrite Ine, Hinc. reflexivity.
Qed.

(** X12.  A file whose name has no type segment (a name without dot,
    followed by one of the extensions, such as package.xml) parses to no
    object: type, name and include type are empty. *)
Theorem ParseAbapGitFilename_without_type (dir name ext : string) :
  dir = "" \/ HasSuffix dir "/" = true ->
  ContainsRune name "." = false -> ContainsRune name "/" = false ->
  In ext extensions ->
  ParseAbapGitFilename unicode (dir ++ name ++ ext)%string =
    ("", "", "", String.eqb ext ".xml").
Proof.
  intros Hdir Hdot Hslash Hext.
  destruct (extension_plain _ Hext) as [Ene Eslash].
  assert (Hbase : Base (dir ++ name ++ ext) = (name ++ ext)%string).
  { apply Base_of_file; [exact Hdir | |].
    - intros E. apply (f_equal String.length) in E. rewrite append_length in E.
      destruct ext; [contradiction | cbn in E; lia].
    - rewrite ContainsRune_app, Hslash, Eslash. reflexivity. }
  unfold ParseAbapGitFilename. cbv zeta. rewrite Hbase.
  destruct (extension_removed name ext Hext) as [-> ->].
  rewrite split_dots_plain by exact Hdot. reflexivity.
Qed.

(** *** UnzipInMemory *)

Lemma unzip_entries_files (entries : list ZipEntry) (files : list ABAPFile) :
  unzip_entries unicode entries files =
  match files_of_entries unicode entries with
  | Ok more => Ok (files ++ more)
  | Err err => Err err
  end.
Proof.
  unfold files_of_entries.
  revert files. induction entries as [|f entries IH]; intros files; cbn [unzip_entries].
  - cbn. rewrite app_nil_r. reflexivity.
  - cbn [filter]. destruct (wanted f) eqn:W; unfold wanted in W.
    2:{ destruct (ze_IsDir f); [apply IH|].
        destruct (isAbapGitFile (Base (ze_Name f))); [discriminate W | apply IH]. }
    apply andb_true_iff in W. destruct W as [W1 W2].
    apply negb_true_iff in W1. rewrite W1, W2. cbn [negb].
    cbn [find map].
    destruct (ze_Open f) as [opened | err] eqn:Eopen.
    2:{ replace (readable f) with false by (unfold readable; rewrite Eopen; reflexivity).
        cbn [negb]. unfold read_error. rewrite Eopen. reflexivity. }
    destruct (ze_ReadAll f) as [content | err] eqn:Eread.
    2:{ replace (readable f) with false
          by (unfold readable; rewrite Eopen, Eread; reflexivity).
        cbn [negb]. unfold read_error. rewrite Eopen, Eread. reflexivity. }
    replace (readable f) with true by (unfold readable; rewrite Eopen, Eread; reflexivity).
    cbn [negb]. unfold file_of at 1. cbv zeta. rewrite Eread.
    destruct (ParseAbapGitFilename unicode (Base (ze_Name f))) as [[[t n] i] x].
    rewrite IH.
    destruct (find _ (filter wanted entries)); [reflexivity|].
    rewrite <- app_assoc. reflexivity.
Qed.

(** X13.  UnzipInMemory fails with the reader's error when the archive
    cannot be opened; otherwise it looks only at the entries that are not
    directories and have an abapGit file name: it fails with the error of
    the first of them that cannot be opened or read, and else returns one
    file per such entry, in the order of the archive, with the entry's path,
    base name, parsed name and content. *)
Theorem UnzipInMemory_files (zip_NewReader : list byte -> result (list ZipEntry))
    (zipData : list byte) :
  UnzipInMemory unicode zip_NewReader zipData =
  match zip_NewReader zipData with
  | Err err => Err ("failed to open ZIP: " ++ err)%string
  | Ok entries => files_of_entries unicode entries
  end.
Proof.
  unfold UnzipInMemory. destruct (zip_NewReader zipData) as [entries | err]; [|reflexivity].
  rewrite unzip_entries_files.
  destruct (files_of_entries unicode entries); reflexivity.
Qed.

End ParseFacts.

Lemma ParseAbapGitFilename_abapgit_name_witness :
  ParseAbapGitFilename Samples.ascii_only "src/zcl_example.clas.locals_def.abap" =
    ("CLAS"%string, "ZCL_EXAMPLE"%string, "locals_def"%string, false).
Proof.
  apply (ParseAbapGitFilename_abapgit_name Samples.ascii_only
           "src/" "zcl_example" "clas" "CLAS" "locals_def" ".abap").
  - right. reflexivity.
  - reflexivity.
  - reflexivity.
  - reflexivity.
  - right. reflexivity.
  - left. reflexivity.
Defined.

Lemma ParseAbapGitFilename_without_type_witness :
  ParseAbapGitFilename Samples.ascii_only "src/package.xml" =
    (""%string, ""%string, ""%string, true).
Proof.
  apply (ParseAbapGitFilename_without_type Samples.ascii_only "src/" "package" ".xml").
  - right. reflexivity.
  - reflexivity.
  - reflexivity.
  - do 4 right. left. reflexivity.
Defined.

(** *** ExtractDescription *)

Lemma ExtractDescription_eq (s : string) :
  ExtractDescription s =
  match match_DESCRIPT_here s with
  | Some body => body
  | None => match s with
            | EmptyString => ""
            | String _ rest => ExtractDescription rest
            end
  end%string.
Proof. destruct s; reflexivity. Qed.

Lemma drop_app (a b : string) : drop (String.length a) (a ++ b) = b.
Proof.
  unfold drop. rewrite append_length.
  replace (String.length a + String.length b - String.length a) with (String.length b) by lia.
  rewrite <- (Nat.add_0_r (String.length a)) at 1.
  rewrite substring_skip. apply substring_all.
Qed.

Lemma run_without_lt_app (d rest : string) :
  ContainsRune d "<" = false -> run_without_lt (d ++ String "<" rest) = d.
Proof.
  induction d as [|c d IH]; cbn; [reflexivity|].
  rewrite orb_false_iff. intros [Hc Hd]. rewrite Hc, (IH Hd). reflexivity.
Qed.

Lemma run_without_lt_plain (s : string) : ContainsRune (run_without_lt s) "<" = false.
Proof.
  induction s as [|c s IH]; cbn; [reflexivity|].
  destruct (Ascii.eqb c "<") eqn:E; cbn; [reflexivity|]. rewrite E, IH. reflexivity.
Qed.

(** The opening tag cannot begin inside text that does not contain it and
    end inside an opening tag that follows. *)
Lemma no_opening_tag_across (s rest : string) :
  s <> ""%string -> HasPrefix s "<DESCRIPT>" = false ->
  HasPrefix (s ++ "<DESCRIPT>" ++ rest) "<DESCRIPT>" = false.
Proof.
  intros Hne. unfold HasPrefix.
  destruct s as [|c1 [|c2 [|c3 [|c4 [|c5 [|c6 [|c7 [|c8 [|c9 [|c10 s]]]]]]]]]];
    [contradiction | ..]; cbn; intros H;
    try (assert (E0 : forall t, substring 0 0 t = ""%string) by (intros []; reflexivity);
         rewrite E0 in *; exact H);
    repeat match goal with
           | |- context [Ascii.eqb ?a ?b] => destruct (Ascii.eqb a b)
           end; reflexivity.
Qed.

Lemma Contains_cons (c : ascii) (s sub : string) :
  Contains (String c s) sub = HasPrefix (String c s) sub || Contains s sub.
Proof. reflexivity. Qed.

Lemma match_DESCRIPT_here_tag (description after : string) :
  description <> ""%string -> ContainsRune description "<" = false ->
  match_DESCRIPT_here ("<DESCRIPT>" ++ description ++ "</DESCRIPT>" ++ after) =
    Some description.
Proof.
  intros Hne Hplain. unfold match_DESCRIPT_here. rewrite HasPrefix_app.
  replace (drop 10 ("<DESCRIPT>" ++ description ++ "</DESCRIPT>" ++ after))
    with (description ++ "</DESCRIPT>" ++ after)%string
    by (symmetry; apply (drop_app "<DESCRIPT>")).
  replace (run_without_lt (description ++ "</DESCRIPT>" ++ after)) with description
    by (symmetry; apply (run_without_lt_app description ("/DESCRIPT>" ++ after) Hplain)).
  replace (drop (10 + String.length description)
             ("<DESCRIPT>" ++ description ++ "</DESCRIPT>" ++ after))
    with ("</DESCRIPT>" ++ after)%string.
  2:{ pose proof (drop_app ("<DESCRIPT>" ++ description) ("</DESCRIPT>" ++ after)) as H.
      rewrite append_length, append_assoc in H. symmetry. exact H. }
  apply String.eqb_neq in Hne. rewrite Hne, HasPrefix_app. reflexivity.
Qed.

(** X14.  ExtractDescription returns the text of the first DESCRIPT element:
    for metadata with no opening DESCRIPT tag before it, and a non-empty
    text without the character <, it returns exactly that text. *)
Theorem ExtractDescription_of_tag (before description after : string) :
  Contains before "<DESCRIPT>" = false ->
  description <> ""%string -> ContainsRune description "<" = false ->
  ExtractDescription (before ++ "<DESCRIPT>" ++ description ++ "</DESCRIPT>" ++ after) =
    description.
Proof.
  intros Hbefore Hne Hplain.
  induction before as [|c before IH]; rewrite ExtractDescription_eq.
  - change ("" ++ "<DESCRIPT>" ++ description ++ "</DESCRIPT>" ++ after)%string
      with ("<DESCRIPT>" ++ description ++ "</DESCRIPT>" ++ after)%string.
    rewrite match_DESCRIPT_here_tag by assumption. reflexivity.
  - rewrite Contains_cons in Hbefore. apply orb_false_iff in Hbefore.
    destruct Hbefore as [Hhere Hrest].
    unfold match_DESCRIPT_here.
    rewrite no_opening_tag_across by (discriminate || exact Hhere).
    cbn [append]. apply IH, Hrest.
Qed.

Lemma ExtractDescription_of_tag_witness :
  ExtractDescription
    "<VSEOCLASS><CLSNAME>ZCL_EXAMPLE</CLSNAME><DESCRIPT>Example class</DESCRIPT></VSEOCLASS>"
  = "Example class"%string.
Proof.
  apply (ExtractDescription_of_tag "<VSEOCLASS><CLSNAME>ZCL_EXAMPLE</CLSNAME>"
           "Example class" "</VSEOCLASS>").
  - reflexivity.
  - discriminate.
  - reflexivity.
Defined.

Lemma match_DESCRIPT_here_plain (s body : string) :
  match_DESCRIPT_here s = Some body ->
  ContainsRune body "<" = false /\ HasPrefix s "<DESCRIPT>" = true.
Proof.
  unfold match_DESCRIPT_here. destruct (HasPrefix s "<DESCRIPT>"); [|discriminate].
  destruct (_ && _); [|discriminate].
  intros H. injection H as <-. split; [apply run_without_lt_plain | reflexivity].
Qed.

(** X15.  What ExtractDescription returns never contains the character <,
    and it is empty when the metadata has no opening DESCRIPT tag. *)
Theorem ExtractDescription_plain (xmlContent : string) :
  ContainsRune (ExtractDescription xmlContent) "<" = false /\
  (Contains xmlContent "<DESCRIPT>" = false -> ExtractDescription xmlContent = ""%string).
Proof.
  induction xmlContent as [|c s [IH1 IH2]]; [split; reflexivity|].
  rewrite ExtractDescription_eq, Contains_cons.
  destruct (match_DESCRIPT_here (String c s)) as [body|] eqn:E.
  - apply match_DESCRIPT_here_plain in E. destruct E as [E1 E2]. split; [exact E1|].
    rewrite E2. discriminate.
  - split; [exact IH1|]. intros H. apply orb_false_iff in H. apply IH2, H.
Qed.

End ArchiveProofs.

(** ** The phases of a deployment *)

Module PhaseProofs.
Import GoStrings Codec Client Deps Handlers Phases.
Local Open Scope string_scope.
Local Open Scope list_scope.

Section Facts.
Variable c : Backend.
Variable unicode_upper : string -> string.
Variable unicode_lower : string -> string.
Variable PathEscape : string -> string.
Variable zip_NewReader : list byte -> result (list ZipEntry).
Variable GetDependencyZIP : string -> option (list byte).
Variable range_order : nat -> list string -> list string.

Ltac answers :=
  repeat (cbn -[String.eqb String.append ToUpper ToLower];
          match goal with
          | |- context [match ?x with _ => _ end] =>
              match type of x with
              | result _ => destruct x eqn:?
              | bool => destruct x eqn:?
              end
          end);
  cbn -[String.eqb String.append ToUpper ToLower].

(** PHASE 1 *)
Lemma phase1_calls (packageName : string) (n : nat) (objs : list DeploymentObject) :
  forall (i : nat) (st : Phase1) (h : Trace),
  let (st', tr) := phase1 c packageName n i objs st h in
  map phase_of tr = repeat CreatePhase (List.length (mapped_objects objs)) /\
  creations tr = keep_some (map (options_of packageName) objs) /\
  createSuccess st' + createSkipped st' + createFailed st' =
    createSuccess st + createSkipped st + createFailed st + List.length (mapped_objects objs).
Proof.
  unfold mapped_objects. induction objs as [|obj objs IH]; intros i st h.
  - cbn. repeat split. lia.
  - cbn [phase1 filter map]. unfold options_of at 1.
    assert (Hm : mapped obj = match lookup objectTypeMapping (Deps.Type_ obj) with
                              | Some _ => true | None => false end) by reflexivity.
    rewrite Hm. clear Hm.
    destruct (lookup objectTypeMapping (Deps.Type_ obj)) as [[creatableType urlPattern]|] eqn:Hmap.
    + unfold bind, CreateObject, call.
      match goal with
      | |- context [phase1 c packageName n (S i) objs ?st1 ?h1] =>
          specialize (IH (S i) st1 h1);
          destruct (phase1 c packageName n (S i) objs st1 h1) as [st2 tr]
      end.
      destruct IH as (Hph & Hcr & Hcount).
      cbn [app map creations keep_some List.length repeat].
      rewrite Hph, Hcr.
      split.
      * f_equal. unfold phase_of. cbn [Client.ObjectType].
        unfold objectTypeMapping in Hmap. cbn [lookup] in Hmap.
        repeat match type of Hmap with
               | context [String.eqb ?k ?t] => destruct (String.eqb k t)
               end; try discriminate; injection Hmap as <- _; reflexivity.
      * split; [reflexivity|].
        rewrite Hcount.
        destruct (on_CreateObject c h _) as [|err]; [|destruct (already_exists err)];
          cbn [createSuccess createSkipped createFailed]; lia.
    + apply IH.
Qed.

(** PHASE 2 *)
Lemma upload_one_phase (n i : nat) (urlPattern : string) (obj : DeploymentObject)
    (st : Phase2) (h : Trace) :
  let (st', tr) := upload_one c unicode_lower PathEscape n i urlPattern obj st h in
  (exists k, map phase_of tr = repeat UploadPhase k /\ 1 <= k <= 3) /\
  uploadSuccess st' + uploadFailed st' = uploadSuccess st + uploadFailed st + 1 /\
  List.length (uploadFailures st') + uploadFailed st =
    List.length (uploadFailures st) + uploadFailed st'.
Proof.
  unfold upload_one, bind, LockObject, UpdateSource, UnlockObject, call, ret.
  answers; rewrite ?length_app; cbn [List.length];
    (split; [| split; lia]);
    first [ exists 1; split; [reflexivity | lia]
          | exists 3; split; [reflexivity | lia] ].
Qed.

Lemma repeat_add {A} (a : A) (n m : nat) : repeat a n ++ repeat a m = repeat a (n + m).
Proof. symmetry. apply repeat_app. Qed.

Lemma phase2_calls (n : nat) (objs : list DeploymentObject) :
  forall (i : nat) (st : Phase2) (h : Trace),
  let (st', tr) := phase2 c unicode_lower PathEscape n i objs st h in
  (exists k, map phase_of tr = repeat UploadPhase k /\
             List.length (mapped_objects objs) <= k <= 3 * List.length (mapped_objects objs)) /\
  uploadSuccess st' + uploadFailed st' =
    uploadSuccess st + uploadFailed st + List.length (mapped_objects objs) /\
  List.length (uploadFailures st') + uploadFailed st =
    List.length (uploadFailures st) + uploadFailed st'.
Proof.
  unfold mapped_objects. induction objs as [|obj objs IH]; intros i st h.
  - cbn. split; [exists 0; split; [reflexivity | lia] | split; lia].
  - cbn [phase2 filter].
    assert (Hm : mapped obj = match lookup objectTypeMapping (Deps.Type_ obj) with
                              | Some _ => true | None => false end) by reflexivity.
    rewrite Hm. clear Hm.
    destruct (lookup objectTypeMapping (Deps.Type_ obj)) as [[creatableType urlPattern]|] eqn:Hmap.
    + unfold bind.
      pose proof (upload_one_phase n i urlPattern obj st h) as Hone.
      destruct (upload_one c unicode_lower PathEscape n i urlPattern obj st h) as [st1 evs].
      specialize (IH (S i) st1 (h ++ evs)).
      destruct (phase2 c unicode_lower PathEscape n (S i) objs st1 (h ++ evs)) as [st2 tr].
      destruct Hone as ((k1 & Hk1 & Hb1) & Hs1 & Hf1).
      destruct IH as ((k2 & Hk2 & Hb2) & Hs2 & Hf2).
      cbn [List.length]. split; [|split; lia].
      exists (k1 + k2). rewrite map_app, Hk1, Hk2, repeat_add. split; [reflexivity | lia].
    + apply IH.
Qed.

(** X17.  Started as the handler starts them, Phase 1 issues one
    CreateObject per object with a mapped type, in the order of the list,
    with the object's name, the package and the description (the name when
    the description is empty), and counts each of these objects once as
    created, existing or failed; Phase 2 counts each of them once as
    uploaded or failed, and records one failure line per failed object. *)
Theorem phase_counters_account_for_every_object (packageName : string) (n : nat)
    (objs : list DeploymentObject) (sb1 sb2 : list Piece) (h1 h2 : Trace) :
  let (p1, tr1) :=
    phase1 c packageName n 0 objs
      {| p1_sb := sb1; createSuccess := 0; createSkipped := 0; createFailed := 0 |} h1 in
  let (p2, tr2) :=
    phase2 c unicode_lower PathEscape n 0 objs
      {| p2_sb := sb2; uploadSuccess := 0; uploadFailed := 0; uploadFailures := [] |} h2 in
  creations tr1 = keep_some (map (options_of packageName) objs) /\
  createSuccess p1 + createSkipped p1 + createFailed p1 = List.length (mapped_objects objs) /\
  uploadSuccess p2 + uploadFailed p2 = List.length (mapped_objects objs) /\
  List.length (uploadFailures p2) = uploadFailed p2.
Proof.
  match goal with
  | |- context [phase1 c packageName n 0 objs ?st h1] =>
      pose proof (phase1_calls packageName n objs 0 st h1) as H1;
      destruct (phase1 c packageName n 0 objs st h1) as [p1 tr1]
  end.
  match goal with
  | |- context [phase2 c unicode_lower PathEscape n 0 objs ?st h2] =>
      pose proof (phase2_calls n objs 0 st h2) as H2;
      destruct (phase2 c unicode_lower PathEscape n 0 objs st h2) as [p2 tr2]
  end.
  destruct H1 as (_ & Hcr & Hc1). destruct H2 as (_ & Hc2 & Hf).
  cbn [createSuccess createSkipped createFailed uploadSuccess uploadFailed uploadFailures
       List.length] in *.
  split; [exact Hcr|]. repeat split; lia.
Qed.

(** "Ensure package exists" *)
Lemma ensure_package_calls (source packageName : string) (sb : list Piece) (h : Trace) :
  let (r, tr) := ensure_package c source packageName sb h in
  exists k, map phase_of tr = repeat PackagePhase k /\ 1 <= k <= 2 /\
            (forall failed, r = inr failed -> k = 2 /\ IsError failed = true).
Proof.
  unfold ensure_package, bind, GetPackage, CreateObject, call, ret.
  answers;
    first [ exists 1; split; [reflexivity | split; [lia | intros; discriminate]]
          | exists 2; split; [reflexivity | split; [lia|]];
            intros failed E; first [ discriminate E | injection E as <-; split; reflexivity ] ].
Qed.

Lemma mapped_deployable (typeFilter nameFilter : string) (objs : list DeploymentObject) :
  mapped_objects (deployable_of typeFilter nameFilter objs) =
  deployable_of typeFilter nameFilter objs.
Proof.
  unfold mapped_objects, deployable_of. induction objs as [|obj objs IH]; cbn; [reflexivity|].
  destruct (selected typeFilter nameFilter obj); cbn; [|exact IH].
  destruct (mapped obj) eqn:E; cbn; [rewrite E, IH; reflexivity | exact IH].
Qed.

Lemma deploy_phases (source packageName : string) (deployable skipped : list DeploymentObject)
    (sb : list Piece) (h : Trace) :
  let (r, tr) := deploy c unicode_lower PathEscape source packageName deployable skipped sb h in
  (map phase_of tr = [PackagePhase; PackagePhase] /\ IsError r = true) \/
  (three_phases (List.length (mapped_objects deployable)) (map phase_of tr) /\
   IsError r = false).
Proof.
  unfold deploy. unfold bind at 1.
  pose proof (ensure_package_calls source packageName sb h) as Hpkg.
  destruct (ensure_package c source packageName sb h) as [[sb1 | failed] tr0].
  2:{ destruct Hpkg as (k & Hk & _ & Hfail).
      destruct (Hfail failed eq_refl) as [-> Herr].
      cbn [ret]. rewrite app_nil_r. left. split; [exact Hk | exact Herr]. }
  destruct Hpkg as (p & Hp & Hpb & _).
  unfold bind at 1.
  match goal with
  | |- context [phase1 c packageName ?n 0 deployable ?st1 ?h1] =>
      pose proof (phase1_calls packageName n deployable 0 st1 h1) as H1;
      destruct (phase1 c packageName n 0 deployable st1 h1) as [p1 tr1]
  end.
  destruct H1 as (Hc & _ & _).
  unfold bind at 1.
  match goal with
  | |- context [phase2 c unicode_lower PathEscape ?n 0 deployable ?st2 ?h2] =>
      pose proof (phase2_calls n deployable 0 st2 h2) as H2;
      destruct (phase2 c unicode_lower PathEscape n 0 deployable st2 h2) as [p2 tr2]
  end.
  destruct H2 as ((u & Hu & Hub) & _ & _).
  unfold bind, ActivatePackageIterative, call, ret.
  right. split; [|reflexivity].
  exists p, u. rewrite !map_app, Hp, Hc, Hu, app_nil_r. cbn [map phase_of].
  split; [reflexivity | split; assumption].
Qed.

(** X16.  A run of handleDeployZip makes no call at all, or it is a run with
    source and package given, dry_run off, an archive that unpacks and at
    least one deployable object, and then its calls are in this order: the
    package check and, when the package is missing, its creation; if that
    creation fails the run ends there with an error; otherwise one creation
    per deployable object, then for each deployable object between one and
    three calls of the upload (lock, update, unlock), then exactly one
    iterative activation of the package, and the result is not an error. *)
Theorem handleDeployZip_three_phases (args : Arguments) (h : Trace) :
  let run := handleDeployZip c unicode_upper unicode_lower PathEscape zip_NewReader
               GetDependencyZIP range_order args h in
  snd run = [] \/
  exists zipData files,
    string_arg args "source" <> "" /\ string_arg args "package" <> "" /\
    bool_arg args "dry_run" = false /\
    GetDependencyZIP (string_arg args "source") = Some zipData /\
    UnzipInMemory unicode_upper zip_NewReader zipData = Ok files /\
    let plan := CreateDeploymentPlan (string_arg args "source")
                  (ToUpper unicode_upper (string_arg args "package")) files in
    let deployable := deployable_of (upper_arg unicode_upper args "type_filter")
                        (upper_arg unicode_upper args "name_filter") (Objects plan) in
    deployable <> [] /\
    ((map phase_of (snd run) = [PackagePhase; PackagePhase] /\ IsError (fst run) = true) \/
     (three_phases (List.length deployable) (map phase_of (snd run)) /\
      IsError (fst run) = false)).
Proof.
  cbv zeta. unfold handleDeployZip. cbv zeta.
  destruct (String.eqb_spec (string_arg args "source") "") as [|Hsrc]; [left; reflexivity|].
  destruct (String.eqb_spec (string_arg args "package") "") as [|Hpkg]; [left; reflexivity|].
  destruct (GetDependencyZIP (string_arg args "source")) as [zipData|]; [|left; reflexivity].
  destruct (UnzipInMemory unicode_upper zip_NewReader zipData) as [files|] eqn:Hfiles;
    [|left; reflexivity].
  destruct (bool_arg args "dry_run") eqn:Hdry; [left; reflexivity|].
  set (plan := CreateDeploymentPlan (string_arg args "source")
                 (ToUpper unicode_upper (string_arg args "package")) files).
  set (deployable := deployable_of (upper_arg unicode_upper args "type_filter")
                       (upper_arg unicode_upper args "name_filter") (Objects plan)).
  destruct (Nat.eqb_spec (List.length deployable) 0) as [|Hn]; [left; reflexivity|].
  right. exists zipData, files. repeat (split; [assumption || reflexivity|]).
  split; [intros E; apply Hn; unfold deployable, plan; rewrite E; reflexivity|].
  match goal with
  | |- context [deploy c unicode_lower PathEscape ?s ?p ?d ?k ?sb h] =>
      pose proof (deploy_phases s p d k sb h) as H;
      destruct (deploy c unicode_lower PathEscape s p d k sb h) as [r tr]
  end.
  unfold deployable in H at 1. rewrite mapped_deployable in H. exact H.
Qed.

End Facts.
End PhaseProofs.

(** ** The dry run *)

Module DryRunProofs.
Import GoStrings Codec Client Deps Handlers Plans DryRun Samples PlanProofs.
Local Open Scope string_scope.
Local Open Scope list_scope.

Lemma once_ext (s1 s2 l : list string) :
  (forall k, In k s1 <-> In k s2) -> once s1 l = once s2 l.
Proof.
  revert s1 s2. induction l as [|x l IH]; intros s1 s2 H; cbn; [reflexivity|].
  assert (E : existsb (String.eqb x) s1 = existsb (String.eqb x) s2).
  { apply eq_true_iff_eq. rewrite !existsb_eqb_In. apply H. }
  rewrite E. destruct (existsb _ s2).
  - apply IH, H.
  - f_equal. apply IH. intros k. cbn. rewrite H. reflexivity.
Qed.

(** The keys of the include map of an object after the loop over its
    files: the include types of its include files, each once. *)
Lemma fold_add_file_includes (group : list ABAPFile) (obj : DeploymentObject) :
  map fst (Includes (fold_left add_file group obj)) =
  map fst (Includes obj) ++
  once (map fst (Includes obj)) (map IncludeType (filter is_include group)).
Proof.
  revert obj. induction group as [|f group IH]; intros obj; cbn [fold_left filter map once].
  - rewrite app_nil_r. reflexivity.
  - rewrite IH. unfold add_file at 1 2, is_include at 2.
    destruct (IsXML f); cbn [negb andb Includes]; [reflexivity|].
    destruct (String.eqb (IncludeType f) ""); cbn [negb Includes map once]; [reflexivity|].
    rewrite map_set_keys.
    destruct (existsb (String.eqb (IncludeType f)) (map fst (Includes obj))); [reflexivity|].
    rewrite <- app_assoc. cbn [app]. do 2 f_equal.
    apply once_ext. intros k. rewrite in_app_iff. cbn. tauto.
Qed.

Lemma first_files_keys (seen : list string) (files : list ABAPFile) :
  map group_key (first_files seen files) = first_keys seen files.
Proof.
  revert seen. induction files as [|f files IH]; intros seen; cbn; [reflexivity|].
  destruct (existsb _ seen); [apply IH|]. cbn. rewrite IH. reflexivity.
Qed.

Lemma plan_objects_shown (all sorted : list ABAPFile) (added : list string) :
  map shown (plan_objects (GroupByObject all) sorted added) =
  map (entry_of all) (first_files added sorted).
Proof.
  revert added. induction sorted as [|f sorted IH]; intros added; cbn; [reflexivity|].
  destruct (existsb (String.eqb (group_key f)) added); [apply IH|].
  cbn [map]. rewrite IH. f_equal.
  rewrite GroupByObject_group.
  replace (match joined None (files_of_key (group_key f) all) with
           | Some l => l | None => [] end)
    with (files_of_key (group_key f) all)
    by (destruct (files_of_key (group_key f) all); reflexivity).
  set (obj0 := {| Type_ := ObjectType f; Deps.Name := ObjectName f; Description := "";
                  MainSource := ""; Includes := []; XMLMetadata := "" |}).
  destruct (fold_add_file (files_of_key (group_key f) all) obj0) as (HT & HN & _).
  unfold shown, entry_of. rewrite HT, HN, fold_add_file_includes. reflexivity.
Qed.

Lemma entries_of_plan (depName packageName : string) (files : list ABAPFile) :
  map shown (Objects (CreateDeploymentPlan depName packageName files)) = entries files /\
  TotalObjects (CreateDeploymentPlan depName packageName files) =
    List.length (entries files) /\
  TotalFiles (CreateDeploymentPlan depName packageName files) = List.length files.
Proof.
  unfold CreateDeploymentPlan, entries. cbn [Objects TotalObjects TotalFiles].
  split; [apply plan_objects_shown|]. split; [|reflexivity].
  rewrite length_map, <- (length_map group_key), first_files_keys, <- GroupByObject_keys.
  apply eq_sym, length_map.
Qed.

Lemma mapped_native (obj : DeploymentObject) : mapped obj = native (shown obj).
Proof.
  unfold mapped, native, shown, objectTypeMapping, native_kinds.
  cbn [lookup existsb kind]. rewrite !(String.eqb_sym (Type_ obj)).
  repeat (destruct (String.eqb _ (Type_ obj)); [reflexivity|]). reflexivity.
Qed.

Lemma map_filter_shown (p : Entry -> bool) (q : DeploymentObject -> bool)
    (objs : list DeploymentObject) :
  (forall obj, q obj = p (shown obj)) ->
  map shown (filter q objs) = filter p (map shown objs).
Proof.
  intros H. induction objs as [|obj objs IH]; cbn; [reflexivity|].
  rewrite H. destruct (p (shown obj)); cbn; rewrite IH; reflexivity.
Qed.

Section Facts.
Variable c : Backend.
Variable unicode_upper : string -> string.
Variable unicode_lower : string -> string.
Variable PathEscape : string -> string.
Variable zip_NewReader : list byte -> result (list ZipEntry).
Variable GetDependencyZIP : string -> option (list byte).
Variable range_order : nat -> list string -> list string.

Lemma plan_lines_shown (i : nat) (objs : list DeploymentObject) :
  plan_lines range_order i objs = deployable_lines range_order i (map shown objs).
Proof.
  revert i. induction objs as [|obj objs IH]; intros i; cbn [plan_lines map deployable_lines];
    [reflexivity|].
  rewrite IH. f_equal. unfold plan_line, shown. cbn [kind name include_types].
  destruct (Includes obj); reflexivity.
Qed.

Lemma skipped_lines_shown (objs : list DeploymentObject) :
  skipped_lines objs = skipped_part (map shown objs).
Proof.
  destruct objs as [|obj objs]; [reflexivity|].
  unfold skipped_lines, skipped_part. cbn [map]. f_equal. f_equal.
  rewrite map_map. reflexivity.
Qed.

Lemma plan_text_shown (typeFilter nameFilter : string) (objs : list DeploymentObject) :
  plan_text range_order (deployable_of typeFilter nameFilter objs)
    (skipped_of typeFilter nameFilter objs) =
  let deployable :=
    filter (fun e => passes typeFilter nameFilter e && native e) (map shown objs) in
  let skipped :=
    filter (fun e => passes typeFilter nameFilter e && negb (native e)) (map shown objs) in
  [Fmt "Deployment Plan (%d deployable, %d skipped):\n"
     [anat (List.length deployable); anat (List.length skipped)];
   Str (Repeat "-" 60 ++ "\n")]
  ++ deployable_lines range_order 0 deployable
  ++ skipped_part skipped
  ++ [Str (Repeat "-" 60 ++ "\n\n")].
Proof.
  cbv zeta. unfold plan_text.
  assert (Hd : map shown (deployable_of typeFilter nameFilter objs) =
               filter (fun e => passes typeFilter nameFilter e && native e) (map shown objs)).
  { apply map_filter_shown. intros obj. rewrite mapped_native. reflexivity. }
  assert (Hs : map shown (skipped_of typeFilter nameFilter objs) =
               filter (fun e => passes typeFilter nameFilter e && negb (native e))
                 (map shown objs)).
  { apply map_filter_shown. intros obj. rewrite mapped_native. reflexivity. }
  rewrite plan_lines_shown, skipped_lines_shown, Hd, Hs.
  rewrite <- Hd, <- Hs, !length_map, Hd, Hs. reflexivity.
Qed.

(** C6, as the code has it.  A run with dry_run=true makes no call to the
    system, whatever the arguments, the archive and the system.  Its
    result is the plan exactly when source and package are given, the
    lookup has an archive for the source and the archive unpacks: the
    number of objects and of files, the numbers of deployable and of
    skipped objects, one line for each deployable object (the objects of
    the archive that pass the filters and have one of the six kinds the
    handler deploys, in deployment order, with their include types), one
    for each skipped object, and the dry-run note.  In every other case
    the result is the error of the first of these conditions that
    fails. *)
Theorem dry_run_issues_no_request (args : Arguments) (h : Trace) :
  bool_arg args "dry_run" = true ->
  let (result, calls) :=
    handleDeployZip c unicode_upper unicode_lower PathEscape zip_NewReader
      GetDependencyZIP range_order args h in
  calls = [] /\
  match archive_of unicode_upper zip_NewReader GetDependencyZIP args with
  | inr (zipData, files) =>
      result = NewToolResultText (plan_report unicode_upper range_order args zipData files)
  | inl message => result = newToolResultError message
  end.
Proof.
  intros Hdry. unfold handleDeployZip, archive_of. cbv zeta. rewrite Hdry.
  destruct (string_arg args "source" =? "")%string; [split; reflexivity|].
  destruct (string_arg args "package" =? "")%string; [split; reflexivity|].
  destruct (GetDependencyZIP (string_arg args "source")) as [zipData|]; [|split; reflexivity].
  destruct (UnzipInMemory unicode_upper zip_NewReader zipData) as [files|err];
    [|split; reflexivity].
  cbn [ret]. split; [reflexivity|].
  rewrite plan_text_shown. cbv zeta. unfold plan_report. cbv zeta.
  destruct (entries_of_plan (string_arg args "source")
              (ToUpper unicode_upper (string_arg args "package")) files) as (-> & -> & ->).
  unfold NewToolResultText. f_equal.
  rewrite <- !app_assoc. reflexivity.
Qed.

End Facts.

Lemma dry_run_issues_no_request_witness :
  let (result, calls) :=
    handleDeployZip lock_refusing ascii_only ascii_only ascii_only read_two_files
      GetDependencyZIP_placeholder in_given_order dry_run_args [] in
  calls = [] /\
  match archive_of ascii_only read_two_files GetDependencyZIP_placeholder dry_run_args with
  | inr (zipData, files) =>
      result =
      NewToolResultText (plan_report ascii_only in_given_order dry_run_args zipData files)
  | inl message => result = newToolResultError message
  end.
Proof.
  apply (dry_run_issues_no_request lock_refusing ascii_only ascii_only ascii_only
           read_two_files GetDependencyZIP_placeholder in_given_order dry_run_args []).
  reflexivity.
Defined.

(** With the lookup as checked in, a placeholder that has no archive for
    any source, every run of the handler ends with an error. *)
Lemma placeholder_never_plans (c : Backend)
    (unicode_upper unicode_lower PathEscape : string -> string)
    (zip_NewReader : list byte -> result (list ZipEntry))
    (range_order : nat -> list string -> list string) (args : Arguments) (h : Trace) :
  IsError (fst (handleDeployZip c unicode_upper unicode_lower PathEscape zip_NewReader
                  GetDependencyZIP_placeholder range_order args h)) = true.
Proof.
  unfold handleDeployZip, GetDependencyZIP_placeholder. cbv zeta.
  destruct (string_arg args "source" =? "")%string; [reflexivity|].
  destruct (string_arg args "package" =? "")%string; reflexivity.
Qed.

(** C6, as stated, fails: with the lookup as checked in, the dry run over
    the source abapgit-standalone into the package $zgit makes no call and
    returns the error that the source was not found, not the plan. *)
Lemma dry_run_as_checked_in_returns_no_plan :
  handleDeployZip lock_refusing ascii_only ascii_only ascii_only read_two_files
    GetDependencyZIP_placeholder in_given_order dry_run_args [] =
  (newToolResultError
     (Fmt "Source '%s' not found. Available: %s" [AStr "abapgit-standalone"; AStr ""]),
   []) /\
  ~ returns_plan
      (fst (handleDeployZip lock_refusing ascii_only ascii_only ascii_only read_two_files
              GetDependencyZIP_placeholder in_given_order dry_run_args [])).
Proof.
  split; [vm_compute; reflexivity|].
  intros [H _]. vm_compute in H. discriminate H.
Qed.

(** On a build whose lookup has an archive of two files, the text of the
    dry run: one deployable class, one skipped domain. *)
Example dry_run_plan :
  Text (fst (handleDeployZip lock_refusing ascii_only ascii_only ascii_only
               read_two_files embedded_archive in_given_order dry_run_args [])) =
  [ Fmt "DeployZip: %s → %s\n" [AStr "abapgit-standalone"; AStr "$ZGIT"];
    Str (Repeat "=" 60 ++ "\n\n");
    Fmt "Source: %s (%d bytes)\n" [AStr "abapgit-standalone"; AInt 0];
    Fmt "Target: %s\n\n" [AStr "$ZGIT"];
    Fmt "Found %d objects in %d files\n\n" [AInt 2; AInt 2];
    Fmt "Deployment Plan (%d deployable, %d skipped):\n" [AInt 1; AInt 1];
    Str (Repeat "-" 60 ++ "\n");
    Fmt "  ✓ %-6s %-40s%s\n" [AStr "CLAS"; AStr "ZCL_A"; AStr ""];
    Str "\n  Skipped (requires ZADT_VSP):\n";
    Fmt "  ⊘ %-6s %s\n" [AStr "DOMA"; AStr "ZDOM"];
    Str (Repeat "-" 60 ++ "\n\n");
    Str "Dry run - no changes made.\n" ].
Proof. vm_compute. reflexivity. Qed.

(** The line of a class with two includes lists them in the order the
    range over the include map yields them, which is not the same in
    every run. *)
Example dry_run_plan_lists_includes_as_visited :
  nth 7 (Text (fst (handleDeployZip lock_refusing ascii_only ascii_only ascii_only
                      read_class_with_includes embedded_archive in_given_order
                      dry_run_args []))) (Str "") =
    Fmt "  ✓ %-6s %-40s%s\n"
      [AStr "CLAS"; AStr "ZCL_A"; ASprintf " [+%s]" [AStr "locals_def,testclasses"]] /\
  nth 7 (Text (fst (handleDeployZip lock_refusing ascii_only ascii_only ascii_only
                      read_class_with_includes embedded_archive last_to_first
                      dry_run_args []))) (Str "") =
    Fmt "  ✓ %-6s %-40s%s\n"
      [AStr "CLAS"; AStr "ZCL_A"; ASprintf " [+%s]" [AStr "testclasses,locals_def"]].
Proof. split; vm_compute; reflexivity. Qed.

End DryRunProofs.

(** ** The safety gate: wildcards, presets, transports *)

Module GateProofs.
Import GoStrings Safety Gate StringFacts.
Local Open Scope string_scope.
Local Open Scope list_scope.

Section Facts.
Variable unicode : string -> string.

Lemma pattern_matches_covers (name pattern : string) :
  pattern_matches unicode (ToUpper unicode name) pattern = true <->
  covers unicode pattern name.
Proof.
  unfold pattern_matches, covers. cbv zeta.
  rewrite orb_true_iff, andb_true_iff, String.eqb_eq. split.
  - intros [E | [Hstar Hpre]]; [left; exact E|].
    apply HasSuffix_iff in Hstar. destruct Hstar as [stem Hstem].
    rewrite Hstem, TrimSuffix_app in Hpre.
    apply HasPrefix_iff in Hpre. destruct Hpre as [rest Hrest].
    right. exists stem, rest. split; assumption.
  - intros [E | (stem & rest & Hstem & Hrest)]; [left; exact E|].
    right. rewrite Hstem, Hrest, TrimSuffix_app. split.
    + apply HasSuffix_app.
    + apply HasPrefix_app.
Qed.

Lemma existsb_covers (name : string) (patterns : list string) :
  existsb (pattern_matches unicode (ToUpper unicode name)) patterns = true <->
  exists pattern, In pattern patterns /\ covers unicode pattern name.
Proof.
  rewrite existsb_exists. split; intros (p & Hin & H); exists p; (split; [exact Hin|]);
    apply pattern_matches_covers; exact H.
Qed.

(** X18.  A package is allowed exactly when the list of allowed packages is
    empty or one of its patterns covers it: the pattern equals the package
    up to case, or the pattern ends in a star and the package starts, up to
    case, with what precedes the star. *)
Theorem IsPackageAllowed_wildcards (s : SafetyConfig) (pkg : string) :
  IsPackageAllowed unicode s pkg = true <->
  AllowedPackages s = [] \/
  exists pattern, In pattern (AllowedPackages s) /\ covers unicode pattern pkg.
Proof.
  unfold IsPackageAllowed. cbv zeta.
  destruct (AllowedPackages s) as [|p ps] eqn:E; cbn [List.length Nat.eqb].
  - split; [left; reflexivity | reflexivity].
  - rewrite existsb_covers. split; [right; assumption|].
    intros [H | H]; [discriminate | exact H].
Qed.

(** X19.  A transport is allowed exactly when transports are enabled and the
    list of allowed transports is empty or one of its patterns covers it
    (equal up to case, or a pattern ending in a star whose stem the
    transport starts with): with transports disabled no transport is
    allowed, whatever the list. *)
Theorem IsTransportAllowed_wildcards (s : SafetyConfig) (transport : string) :
  IsTransportAllowed unicode s transport = true <->
  EnableTransports s = true /\
  (AllowedTransports s = [] \/
   exists pattern, In pattern (AllowedTransports s) /\ covers unicode pattern transport).
Proof.
  unfold IsTransportAllowed. cbv zeta.
  destruct (EnableTransports s); cbn [negb]; [|split; [discriminate | intros [H _]; discriminate]].
  destruct (AllowedTransports s) as [|p ps] eqn:E; cbn [List.length Nat.eqb].
  - split; [split; [reflexivity | left; reflexivity] | reflexivity].
  - rewrite existsb_covers. split; [intros H; split; [reflexivity | right; exact H]|].
    intros [_ [H | H]]; [discriminate | exact H].
Qed.

Lemma CheckTransport_passes (s : SafetyConfig) (transport opName : string) (isWrite : bool) :
  CheckTransport unicode s transport opName isWrite = Ok tt <->
  EnableTransports s = true /\
  (isWrite = true -> TransportReadOnly s = false) /\
  (transport = "" \/ transport = "*" \/ IsTransportAllowed unicode s transport = true).
Proof.
  unfold CheckTransport, IsTransportAllowed.
  destruct (EnableTransports s); cbn [negb];
    [|split; [discriminate | intros [H _]; discriminate]].
  destruct isWrite, (TransportReadOnly s); cbn [andb];
    try (split; [discriminate | intros (_ & H & _); discriminate (H eq_refl)]).
  all: unfold nonempty;
    destruct (String.eqb_spec transport "") as [-> | Hne]; cbn [negb andb];
    [split; [intros _; repeat split; auto; discriminate | reflexivity]|];
    destruct (String.eqb_spec transport "*") as [-> | Hstar]; cbn [negb andb];
    [split; [intros _; repeat split; auto; discriminate | reflexivity]|];
    destruct (AllowedTransports s) as [|p ps]; cbn [List.length Nat.ltb Nat.leb Nat.eqb andb];
    [split; [intros _; repeat split; auto; discriminate | reflexivity]|];
    destruct (existsb _ (p :: ps)); cbn [negb];
    split; try reflexivity; try discriminate;
    try (intros _; repeat split; auto; discriminate);
    intros (_ & _ & [H | [H | H]]); congruence.
Qed.

End Facts.

Lemma nonempty_false (s : string) : nonempty s = false <-> s = "".
Proof.
  unfold nonempty. rewrite negb_false_iff. apply String.eqb_eq.
Qed.

Lemma Join_starts (first : string) (c : ascii) (rest : string) (parts : list string)
    (sep : string) :
  first = String c rest ->
  exists tail, Handlers.Join (first :: parts) sep = String c tail.
Proof.
  intros ->. destruct parts as [|p parts]; cbn; eexists; reflexivity.
Qed.

Lemma headed_add_part (b : bool) (part : string) (parts : list string) :
  headed parts -> headed (add_part b part parts).
Proof.
  intros (c & r & tl & -> & Hc). unfold add_part. destruct b; cbn; do 3 eexists; eauto.
Qed.

Lemma headed_first (c : ascii) (r : string) :
  c <> "U"%char -> headed (add_part true (String c r) []).
Proof. intros Hc. exists c, r, []. split; [reflexivity | exact Hc]. Qed.

Lemma headed_not_unrestricted (parts : list string) :
  headed parts ->
  (if (List.length parts =? 0)%nat then "UNRESTRICTED" else Handlers.Join parts ", ")
    <> "UNRESTRICTED".
Proof.
  intros (c & r & tl & -> & Hc). cbn [List.length Nat.eqb].
  destruct tl; cbn; intros E; injection E as E _; exact (Hc E).
Qed.

Lemma headed_app (parts more : list string) :
  headed parts -> headed (parts ++ more)%list.
Proof. intros (c & r & tl & -> & Hc). cbn. do 3 eexists; eauto. Qed.

Ltac first_part :=
  exfalso;
  match goal with
  | H : _ = _ |- _ => revert H; apply headed_not_unrestricted
  end;
  repeat first
    [ solve [cbn; do 3 eexists; split; [reflexivity | discriminate]]
    | apply headed_add_part
    | apply headed_app
    | match goal with |- headed (if ?b then _ else _) => destruct b end ].

(** X20.  The description of a safety configuration is the word UNRESTRICTED
    exactly when the configuration is not read-only, does not block free
    SQL, is not a dry run, has no allowed or disallowed operations, no
    allowed packages, and has transports disabled. *)
Theorem SafetyConfig_String_unrestricted (s : SafetyConfig) :
  SafetyConfig_String s = "UNRESTRICTED" <-> unrestricted s.
Proof.
  unfold unrestricted. split.
  - unfold SafetyConfig_String. cbv zeta. intros H.
    destruct (ReadOnly s); [first_part|]. split; [reflexivity|].
    destruct (BlockFreeSQL s); [first_part|]. split; [reflexivity|].
    destruct (DryRun s); [first_part|]. split; [reflexivity|].
    destruct (AllowedOps s); [|first_part]. split; [reflexivity|].
    destruct (DisallowedOps s); [|first_part]. split; [reflexivity|].
    destruct (AllowedPackages s); [|first_part]. split; [reflexivity|].
    destruct (EnableTransports s); [first_part | reflexivity].
  - destruct s as [ro sql ops dis pkgs dry tr tro trs]. cbn.
    intros (-> & -> & -> & -> & -> & -> & ->). reflexivity.
Qed.

(** X21.  The default configuration allows exactly the operation types Read,
    Search, Query, Test and Intelligence; the unrestricted configuration
    allows every operation type but Transport, which stays blocked because
    the preset leaves transports disabled; the development configuration
    allows every operation type but FreeSQL and Transport. *)
Theorem preset_configurations (op : OperationType) :
  (IsOperationAllowed DefaultSafetyConfig op = true <->
   In op [OpRead; OpSearch; OpQuery; OpTest; OpIntelligence]) /\
  (IsOperationAllowed UnrestrictedSafetyConfig op = true <-> op <> OpTransport) /\
  (IsOperationAllowed DevelopmentSafetyConfig op = true <->
   op <> OpFreeSQL /\ op <> OpTransport).
Proof.
  destruct op; cbn; repeat split; intros; try discriminate; try tauto; try congruence;
    repeat match goal with H : _ \/ _ |- _ => destruct H end;
    try discriminate; try contradiction;
    repeat match goal with H : _ /\ _ |- _ => destruct H end; congruence.
Qed.

Section TransportFacts.
Import Transports.
Variable unicode : string -> string.
Variable safety : SafetyConfig.
Variable transport_Request : string -> RequestOptions -> result string.

Lemma CheckTransport_write (number opName : string) :
  (exists u, CheckTransport unicode safety number opName true = Ok u) <->
  EnableTransports safety = true /\ TransportReadOnly safety = false /\
  (number = "" \/ number = "*" \/ IsTransportAllowed unicode safety number = true).
Proof.
  split.
  - intros [[] H]. apply CheckTransport_passes in H. destruct H as (H1 & H2 & H3).
    repeat split; auto.
  - intros (H1 & H2 & H3). exists tt. apply CheckTransport_passes. repeat split; auto.
Qed.

Lemma write_goes_out_iff (number opName : string) :
  write_goes_out unicode safety number = true <->
  (exists u, CheckTransport unicode safety number opName true = Ok u) /\ number <> "".
Proof.
  rewrite CheckTransport_write. unfold write_goes_out.
  rewrite !andb_true_iff, orb_true_iff, negb_true_iff, String.eqb_eq.
  unfold nonempty. rewrite negb_true_iff, String.eqb_neq. intuition.
Qed.

(** X22.  DeleteTransport and ReleaseTransportV2 send at most one request,
    and they send it exactly when transports are enabled and not read-only,
    a transport number is given, and the number is the star or an allowed
    transport; the request is a DELETE of, or a POST of the release action
    under, the upper-cased transport number. *)
Theorem transport_writes_gated (number : string) (opts : ReleaseTransportOptions) :
  snd (DeleteTransport unicode safety transport_Request number) =
    (if write_goes_out unicode safety number
     then [("/sap/bc/adt/cts/transportrequests/" ++ ToUpper unicode number,
            {| Method := "DELETE"; Query := []; Body := ""; ContentType := "";
               Accept := "" |})%string]
     else []) /\
  snd (ReleaseTransportV2 unicode safety transport_Request number opts) =
    (if write_goes_out unicode safety number
     then [("/sap/bc/adt/cts/transportrequests/" ++ ToUpper unicode number ++ "/"
              ++ release_action opts,
            {| Method := "POST"; Query := []; Body := ""; ContentType := "";
               Accept := "application/vnd.sap.adt.transportrequests.v1+xml" |})%string]
     else []).
Proof.
  split.
  - pose proof (write_goes_out_iff number "DeleteTransport") as Hout.
    unfold DeleteTransport.
    destruct (CheckTransport unicode safety number "DeleteTransport" true) as [u | err].
    + destruct (String.eqb_spec number "") as [E | E].
      * replace (write_goes_out unicode safety number) with false; [reflexivity|].
        symmetry. apply not_true_iff_false. rewrite Hout. tauto.
      * replace (write_goes_out unicode safety number) with true
          by (symmetry; apply Hout; split; [exists u; reflexivity | exact E]).
        unfold send. cbv zeta. destruct (transport_Request _ _); reflexivity.
    + replace (write_goes_out unicode safety number) with false; [reflexivity|].
      symmetry. apply not_true_iff_false. rewrite Hout. intros [[u H] _]. discriminate.
  - pose proof (write_goes_out_iff number "ReleaseTransport") as Hout.
    unfold ReleaseTransportV2.
    destruct (CheckTransport unicode safety number "ReleaseTransport" true) as [u | err].
    + destruct (String.eqb_spec number "") as [E | E].
      * replace (write_goes_out unicode safety number) with false; [reflexivity|].
        symmetry. apply not_true_iff_false. rewrite Hout. tauto.
      * replace (write_goes_out unicode safety number) with true
          by (symmetry; apply Hout; split; [exists u; reflexivity | exact E]).
        unfold send. cbv zeta. destruct (transport_Request _ _); reflexivity.
    + replace (write_goes_out unicode safety number) with false; [reflexivity|].
      symmetry. apply not_true_iff_false. rewrite Hout. intros [[u H] _]. discriminate.
Qed.

End TransportFacts.

End GateProofs.

(** ** Object creation: escaping and URLs *)

Module CrudProofs.
Import GoStrings Transports Crud StringFacts.
Local Open Scope string_scope.
Local Open Scope list_scope.

Lemma substring_0_0 (s : string) : substring 0 0 s = ""%string.
Proof. destruct s; reflexivity. Qed.

Lemma ReplaceAll_byte (c : ascii) (new s : string) :
  ReplaceAll s (String c "") new =
  each_byte (fun x => if Ascii.eqb x c then new else String x "") s.
Proof.
  unfold ReplaceAll. induction s as [|x s IH]; [reflexivity|].
  cbn [replace_from each_byte]. unfold HasPrefix.
  cbn [String.length Nat.leb substring Nat.sub]. rewrite substring_0_0.
  cbn [String.eqb andb]. rewrite IH.
  destruct (Ascii.eqb x c); reflexivity.
Qed.

Lemma each_byte_app (f : ascii -> string) (a b : string) :
  each_byte f (a ++ b)%string = (each_byte f a ++ each_byte f b)%string.
Proof.
  induction a as [|c a IH]; cbn; [reflexivity|]. rewrite IH, append_assoc. reflexivity.
Qed.

Lemma each_byte_each_byte (f g : ascii -> string) (s : string) :
  each_byte g (each_byte f s) = each_byte (fun c => each_byte g (f c)) s.
Proof.
  induction s as [|c s IH]; cbn; [reflexivity|]. rewrite each_byte_app, IH. reflexivity.
Qed.

Lemma each_byte_ext (f g : ascii -> string) (s : string) :
  (forall c, f c = g c) -> each_byte f s = each_byte g s.
Proof.
  intros H. induction s as [|c s IH]; cbn; [reflexivity|]. rewrite H, IH. reflexivity.
Qed.

Ltac by_byte c k :=
  let E := fresh "E" in
  destruct (Ascii.eqb c k) eqn:E;
  [apply Ascii.eqb_eq in E; subst c; reflexivity|].

Lemma escapeXML_each_byte (s : string) : escapeXML s = each_byte entity s.
Proof.
  unfold escapeXML, dq. cbv zeta. rewrite !ReplaceAll_byte, !each_byte_each_byte.
  apply each_byte_ext. intros c. unfold entity.
  destruct (Ascii.eqb c "&") eqn:E1; [apply Ascii.eqb_eq in E1; subst c; reflexivity|].
  cbn [each_byte]. rewrite !append_empty_r.
  destruct (Ascii.eqb c "<") eqn:E2; [apply Ascii.eqb_eq in E2; subst c; reflexivity|].
  cbn [each_byte]. rewrite !append_empty_r.
  destruct (Ascii.eqb c ">") eqn:E3; [apply Ascii.eqb_eq in E3; subst c; reflexivity|].
  cbn [each_byte]. rewrite !append_empty_r.
  destruct (Ascii.eqb c "034") eqn:E4; [apply Ascii.eqb_eq in E4; subst c; reflexivity|].
  cbn [each_byte]. rewrite !append_empty_r.
  destruct (Ascii.eqb c "'") eqn:E5; [apply Ascii.eqb_eq in E5; subst c; reflexivity|].
  reflexivity.
Qed.

Lemma ContainsAny_app (a b chars : string) :
  ContainsAny (a ++ b)%string chars = ContainsAny a chars || ContainsAny b chars.
Proof.
  induction a as [|c a IH]; cbn; [reflexivity|]. rewrite IH, orb_assoc. reflexivity.
Qed.

Lemma entity_plain (c : ascii) : ContainsAny (entity c) ("<>" ++ dq ++ "'")%string = false.
Proof.
  unfold entity.
  destruct (Ascii.eqb c "&") eqn:E1; [reflexivity|].
  destruct (Ascii.eqb c "<") eqn:E2; [reflexivity|].
  destruct (Ascii.eqb c ">") eqn:E3; [reflexivity|].
  destruct (Ascii.eqb c "034") eqn:E4; [reflexivity|].
  destruct (Ascii.eqb c "'") eqn:E5; [reflexivity|].
  unfold dq. cbn [String.append ContainsAny ContainsRune].
  rewrite (Ascii.eqb_sym _ c), E2, (Ascii.eqb_sym _ c), E3, (Ascii.eqb_sym _ c), E4,
    (Ascii.eqb_sym _ c), E5. reflexivity.
Qed.

(** X23.  escapeXML replaces each of the five characters ampersand, less-
    than, greater-than, double quote and apostrophe by its entity and leaves
    every other byte as it is (the ampersands of the entities it writes are
    not escaped again); its result contains no less-than, greater-than,
    double quote or apostrophe. *)
Theorem escapeXML_entities (s : string) :
  escapeXML s = each_byte entity s /\
  ContainsAny (escapeXML s) ("<>" ++ dq ++ "'")%string = false.
Proof.
  split; [apply escapeXML_each_byte|].
  rewrite escapeXML_each_byte. induction s as [|c s IH]; [reflexivity|].
  cbn [each_byte]. rewrite ContainsAny_app, entity_plain, IH. reflexivity.
Qed.

Lemma entity_prefix_free (c1 c2 : ascii) (r1 r2 : string) :
  (entity c1 ++ r1 = entity c2 ++ r2)%string -> c1 = c2 /\ r1 = r2.
Proof.
  unfold entity.
  destruct (Ascii.eqb c1 "&") eqn:A1; [apply Ascii.eqb_eq in A1; subst c1|];
  [|destruct (Ascii.eqb c1 "<") eqn:A2; [apply Ascii.eqb_eq in A2; subst c1|]];
  [| |destruct (Ascii.eqb c1 ">") eqn:A3; [apply Ascii.eqb_eq in A3; subst c1|]];
  [| | |destruct (Ascii.eqb c1 "034") eqn:A4; [apply Ascii.eqb_eq in A4; subst c1|]];
  [| | | |destruct (Ascii.eqb c1 "'") eqn:A5; [apply Ascii.eqb_eq in A5; subst c1|]].
  all: destruct (Ascii.eqb c2 "&") eqn:B1; [apply Ascii.eqb_eq in B1; subst c2|];
    [|destruct (Ascii.eqb c2 "<") eqn:B2; [apply Ascii.eqb_eq in B2; subst c2|]];
    [| |destruct (Ascii.eqb c2 ">") eqn:B3; [apply Ascii.eqb_eq in B3; subst c2|]];
    [| | |destruct (Ascii.eqb c2 "034") eqn:B4; [apply Ascii.eqb_eq in B4; subst c2|]];
    [| | | |destruct (Ascii.eqb c2 "'") eqn:B5; [apply Ascii.eqb_eq in B5; subst c2|]].
  all: cbn; intros H; try discriminate H.
  all: try (injection H as H; subst; split; reflexivity).
  all: try (injection H as H _; subst; discriminate).
  all: injection H as H _; subst; cbn in *; discriminate.
Qed.

(** X24.  escapeXML loses nothing: two texts have the same escaped form only
    when they are the same text. *)
Theorem escapeXML_injective (a b : string) : escapeXML a = escapeXML b <-> a = b.
Proof.
  split; [|intros ->; reflexivity].
  rewrite !escapeXML_each_byte. revert b.
  induction a as [|c a IH]; intros [|d b]; cbn [each_byte]; intros H.
  - reflexivity.
  - exfalso. unfold entity in H.
    repeat match type of H with
           | context [if ?x then _ else _] => destruct x
           end; discriminate H.
  - exfalso. unfold entity in H.
    repeat match type of H with
           | context [if ?x then _ else _] => destruct x
           end; discriminate H.
  - apply entity_prefix_free in H. destruct H as [-> H]. rewrite (IH _ H). reflexivity.
Qed.

Section UrlFacts.
Variable unicode_upper : string -> string.
Variable unicode_lower : string -> string.
Variable transport_Request : string -> RequestOptions -> result string.

Ltac type_is t k :=
  let E := fresh "E" in
  destruct (String.eqb_spec t k) as [E | E];
  [ rewrite E in *
  | rewrite ?(proj2 (String.eqb_neq k t)) by congruence ].

Lemma function_module_url (parent name : string) :
  ("/sap/bc/adt/functions/groups/" ++ parent ++ "/fmodules/" ++ name =
   ("/sap/bc/adt/functions/groups/" ++ parent ++ "/fmodules") ++ "/" ++ name)%string.
Proof. rewrite !append_assoc. reflexivity. Qed.

Ltac plain_type :=
  cbn -[ToUpper buildCreateObjectBody];
  destruct (transport_Request _ _); cbn [snd]; repeat split; reflexivity.

(** X25.  CreateObject sends no request for an object type without creation
    data, and GetObjectURL and GetSourceURL are then empty; for the six
    types it can create it sends one request, GetSourceURL is GetObjectURL
    followed by /source/main, and GetObjectURL is the URL the creation was
    sent to followed by a slash and the upper-cased name; the one exception
    is a function module without parent name, whose creation goes to the
    path pattern with its placeholder %s left in. *)
Theorem GetObjectURL_extends_creation (opts : CreateObjectOptions) :
  let objectURL :=
    GetObjectURL unicode_upper (ObjectType opts) (Name opts) (ParentName opts) in
  let sourceURL :=
    GetSourceURL unicode_upper (ObjectType opts) (Name opts) (ParentName opts) in
  match snd (CreateObject unicode_upper unicode_lower transport_Request opts) with
  | [] => objectURL = ""%string /\ sourceURL = ""%string
  | (creationURL, _) :: more =>
      more = [] /\
      sourceURL = (objectURL ++ "/source/main")%string /\
      if String.eqb (ObjectType opts) ObjectTypeFunctionMod
         && String.eqb (ParentName opts) ""
      then creationURL = "/sap/bc/adt/functions/groups/%s/fmodules"%string
      else objectURL = (creationURL ++ "/" ++ ToUpper unicode_upper (Name opts))%string
  end.
Proof.
  cbv zeta. unfold CreateObject, GetSourceURL, GetObjectURL, send. cbv zeta.
  cbn [ObjectType Name ParentName Transport].
  destruct opts as [t name descr pkg tr resp parent]. cbn [ObjectType Name ParentName Transport].
  unfold objectTypes, ObjectTypeProgram, ObjectTypeInclude, ObjectTypeClass,
    ObjectTypeInterface, ObjectTypeFunctionGroup, ObjectTypeFunctionMod.
  cbn [Deps.lookup]. rewrite !(String.eqb_sym _ t).
  destruct (String.eqb_spec t "PROG/P") as [-> | N1]; [plain_type|].
  destruct (String.eqb_spec t "PROG/I") as [-> | N2]; [plain_type|].
  destruct (String.eqb_spec t "CLAS/OC") as [-> | N3]; [plain_type|].
  destruct (String.eqb_spec t "INTF/OI") as [-> | N4]; [plain_type|].
  destruct (String.eqb_spec t "FUGR/F") as [-> | N5]; [plain_type|].
  destruct (String.eqb_spec t "FUGR/FF") as [-> | N6]; [|split; reflexivity].
  destruct (String.eqb_spec parent "") as [-> | Hp].
  - plain_type.
  - cbn -[ToUpper buildCreateObjectBody].
    destruct (transport_Request _ _); cbn [snd]; (split; [reflexivity|]);
      (split; [reflexivity|]); exact (function_module_url _ _).
Qed.

End UrlFacts.

End CrudProofs.

(** ** The base64 encoder loses nothing *)

Module EncodingProofs.
Import Base64 Base64Proofs Alphabet.
Local Open Scope Z_scope.

Lemma position_charAt (i : Z) : 0 <= i < 64 -> position (charAt i) base64Chars = i.
Proof.
  intros Hi.
  assert (H : forallb (fun n => position (charAt (Z.of_nat n)) base64Chars =? Z.of_nat n)
                (seq 0 64) = true) by (vm_compute; reflexivity).
  rewrite forallb_forall in H.
  specialize (H (Z.to_nat i)). rewrite Z2Nat.id in H by lia.
  apply Z.eqb_eq, H, in_seq. lia.
Qed.

Lemma charAt_not_pad (i : Z) : 0 <= i < 64 -> charAt i <> pad.
Proof.
  intros Hi E.
  assert (H : forallb (fun n => negb (Ascii.eqb (charAt (Z.of_nat n)) pad)) (seq 0 64) = true)
    by (vm_compute; reflexivity).
  rewrite forallb_forall in H.
  specialize (H (Z.to_nat i)). rewrite Z2Nat.id in H by lia.
  rewrite E, Ascii.eqb_refl in H. discriminate H. apply in_seq. lia.
Qed.

Lemma pick_not_pad (w k : Z) : pick w k <> pad.
Proof. apply charAt_not_pad, index_in_range. Qed.

(** Equal characters were picked from equal groups of six bits. *)
Lemma pick_inj (w w' k j : Z) :
  0 <= k -> 0 <= j < 6 -> pick w k = pick w' k ->
  Z.testbit w (j + k) = Z.testbit w' (j + k).
Proof.
  intros Hk Hj E. unfold pick in E.
  apply (f_equal (fun c => position c base64Chars)) in E.
  rewrite !position_charAt in E by apply index_in_range.
  rewrite <- (sextet_bit w k j), <- (sextet_bit w' k j) by lia. rewrite E. reflexivity.
Qed.

Lemma u8_inj (a b : byte) : u8 a = u8 b -> a = b.
Proof.
  unfold u8. intros E. apply N2Z.inj in E.
  pose proof (Byte.of_to_N a) as Ha. rewrite E, Byte.of_to_N in Ha. congruence.
Qed.

Lemma byte_bits_inj (a b : byte) :
  (forall j, 0 <= j < 8 -> Z.testbit (u8 a) j = Z.testbit (u8 b) j) -> a = b.
Proof.
  intros H. apply u8_inj, Z.bits_inj'. intros j Hj.
  destruct (Z.lt_ge_cases j 8) as [Hlt | Hge].
  - apply H. lia.
  - rewrite !byte_bit_high by lia. reflexivity.
Qed.

Lemma String_inj (c d : ascii) (s t : string) : String c s = String d t -> c = d /\ s = t.
Proof. intros H. injection H as -> ->. split; reflexivity. Qed.

Lemma chunk3_inj (a b c a' b' c' : byte) :
  pick (word3 a b c) 18 = pick (word3 a' b' c') 18 ->
  pick (word3 a b c) 12 = pick (word3 a' b' c') 12 ->
  pick (word3 a b c) 6 = pick (word3 a' b' c') 6 ->
  pick (word3 a b c) 0 = pick (word3 a' b' c') 0 ->
  a = a' /\ b = b' /\ c = c'.
Proof.
  intros E18 E12 E6 E0.
  assert (bits : forall i, 0 <= i < 24 ->
            Z.testbit (word3 a b c) i = Z.testbit (word3 a' b' c') i).
  { intros i Hi.
    destruct (Z.lt_ge_cases i 6); [replace i with (i + 0) by lia; apply pick_inj; auto; lia|].
    destruct (Z.lt_ge_cases i 12);
      [replace i with (i - 6 + 6) by lia; apply pick_inj; auto; lia|].
    destruct (Z.lt_ge_cases i 18);
      [replace i with (i - 12 + 12) by lia; apply pick_inj; auto; lia|].
    replace i with (i - 18 + 18) by lia; apply pick_inj; auto; lia. }
  repeat split; apply byte_bits_inj; intros j Hj.
  - rewrite <- (word3_hi a b c), <- (word3_hi a' b' c') by lia. apply bits. lia.
  - rewrite <- (word3_mid a b c), <- (word3_mid a' b' c') by lia. apply bits. lia.
  - rewrite <- (word3_lo a b c), <- (word3_lo a' b' c') by lia. apply bits. lia.
Qed.

Lemma chunk2_inj (a b a' b' : byte) :
  pick (word2 a b) 18 = pick (word2 a' b') 18 ->
  pick (word2 a b) 12 = pick (word2 a' b') 12 ->
  pick (word2 a b) 6 = pick (word2 a' b') 6 ->
  a = a' /\ b = b'.
Proof.
  intros E18 E12 E6.
  assert (bits : forall i, 6 <= i < 24 ->
            Z.testbit (word2 a b) i = Z.testbit (word2 a' b') i).
  { intros i Hi.
    destruct (Z.lt_ge_cases i 12);
      [replace i with (i - 6 + 6) by lia; apply pick_inj; auto; lia|].
    destruct (Z.lt_ge_cases i 18);
      [replace i with (i - 12 + 12) by lia; apply pick_inj; auto; lia|].
    replace i with (i - 18 + 18) by lia; apply pick_inj; auto; lia. }
  repeat split; apply byte_bits_inj; intros j Hj.
  - rewrite <- (word2_hi a b), <- (word2_hi a' b') by lia. apply bits. lia.
  - rewrite <- (word2_mid a b), <- (word2_mid a' b') by lia. apply bits. lia.
Qed.

Lemma chunk1_inj (a a' : byte) :
  pick (word1 a) 18 = pick (word1 a') 18 ->
  pick (word1 a) 12 = pick (word1 a') 12 ->
  a = a'.
Proof.
  intros E18 E12.
  assert (bits : forall i, 12 <= i < 24 ->
            Z.testbit (word1 a) i = Z.testbit (word1 a') i).
  { intros i Hi.
    destruct (Z.lt_ge_cases i 18);
      [replace i with (i - 12 + 12) by lia; apply pick_inj; auto; lia|].
    replace i with (i - 18 + 18) by lia; apply pick_inj; auto; lia. }
  apply byte_bits_inj; intros j Hj.
  rewrite <- (word1_hi a), <- (word1_hi a') by lia. apply bits. lia.
Qed.

Ltac chars H :=
  repeat match type of H with
         | String _ _ = String _ _ =>
             let E := fresh "E" in
             apply String_inj in H; destruct H as [E H]
         end.

Lemma base64Encode_inj (data data' : list byte) :
  base64Encode data = base64Encode data' -> data = data'.
Proof.
  revert data'.
  induction data as [| a | a b | a b c rest IH] using list_ind3;
    intros [|a' [|b' [|c' rest']]]; cbn [base64Encode]; cbv zeta; intros H;
    try reflexivity; try discriminate H; chars H;
    try (exfalso; eapply pick_not_pad; (eassumption || (symmetry; eassumption))).
  - f_equal. apply chunk1_inj; assumption.
  - destruct (chunk2_inj a b a' b') as [-> ->]; auto.
  - destruct (chunk3_inj a b c a' b' c') as (-> & -> & ->); auto.
    rewrite (IH _ H). reflexivity.
Qed.

Lemma bytes_of_string_inj (s t : string) : bytes_of_string s = bytes_of_string t -> s = t.
Proof.
  unfold bytes_of_string. revert t.
  induction s as [|c s IH]; intros [|d t]; cbn; intros H; try discriminate H; [reflexivity|].
  injection H as Hc Hs.
  apply (f_equal ascii_of_byte) in Hc. rewrite !ascii_of_byte_of_ascii in Hc.
  rewrite Hc, (IH _ Hs). reflexivity.
Qed.

(** X26.  base64Encode loses nothing: two byte sequences have the same
    encoding only when they are the same sequence, and two pairs of user and
    password give the same basic-auth header only when user, colon, password
    is the same text for both. *)
Theorem base64Encode_injective :
  (forall data data' : list byte, base64Encode data = base64Encode data' <-> data = data') /\
  (forall user password user' password' : string,
     basicAuth user password = basicAuth user' password' <->
     (user ++ ":" ++ password = user' ++ ":" ++ password')%string).
Proof.
  split.
  - intros data data'. split; [apply base64Encode_inj | intros ->; reflexivity].
  - intros user password user' password'. unfold basicAuth. split.
    + intros H. cbn [String.append] in H. chars H.
      apply bytes_of_string_inj, base64Encode_inj, H.
    + intros ->. reflexivity.
Qed.

(** X27.  The encoding of n bytes has four characters for every three bytes
    or part of three bytes: its length is 4 * ((n + 2) / 3). *)
Theorem base64Encode_length (data : list byte) :
  String.length (base64Encode data) = (4 * ((List.length data + 2) / 3))%nat.
Proof.
  induction data as [| a | a b | a b c rest IH] using list_ind3; try reflexivity.
  cbn [base64Encode]. cbv zeta. cbn [String.length List.length]. rewrite IH.
  replace (S (S (S (List.length rest))) + 2)%nat with ((List.length rest + 2) + 1 * 3)%nat
    by lia.
  rewrite Nat.div_add by lia. lia.
Qed.

End EncodingProofs.
